(** * bon-cop-bad-cop verification tools: cheating detector and flaky detector

    A shallow embedding of [tools/detect_cheating.py] and
    [tools/detect_flaky.py].

    - Text is a Rocq [string], read as ASCII: white space and letter case
      are those of the ASCII range.
    - Python integers are [Z]; sets of strings are [gset string]; the
      result dicts of the test runs are [gmap string string].
    - An exception that leaves a function is the [Raise] result; an
      exception nobody catches ends the process with status 1.
    - The world outside the tools (files, the Python parser and printer,
      child processes, the JSON parser) is a parameter of the functions
      that use it.  The progress messages of the flaky detector on the
      error stream are left out. *)

From Stdlib Require Import ZArith QArith List String Ascii Lia.
From stdpp Require Import gmap strings list sorting pretty.

Set Warnings "-register-all".
Local Open Scope Z_scope.

(** ** Exceptions and results *)

Inductive exn : Type :=
| IndexError
| SyntaxError
| OSError (path : string)
| FileNotFoundError
| PermissionError
| UnicodeDecodeError
| ValueError (msg : string)
| AttributeError
| KeyError (key : string)
| TypeError.

Inductive result (A : Type) : Type :=
| Ok (a : A)
| Raise (e : exn).
Arguments Ok {A} a.
Arguments Raise {A} e.

Global Instance result_ret : MRet result := fun A a => Ok a.

Global Instance result_bind : MBind result := fun A B k r =>
  match r with
  | Ok a => k a
  | Raise e => Raise e
  end.

(** A [for] loop whose body may raise: the state is threaded from left to
    right and the first exception ends the loop. *)
Definition foldM {A S} (f : A -> S -> result S) : list A -> S -> result S :=
  fix go (l : list A) (st : S) : result S :=
    match l with
    | [] => Ok st
    | x :: l' =>
        match f x st with
        | Ok st' => go l' st'
        | Raise e => Raise e
        end
    end.

(** A list comprehension whose element expression may raise. *)
Definition mapM {A B} (f : A -> result B) : list A -> result (list B) :=
  fix go (l : list A) : result (list B) :=
    match l with
    | [] => Ok []
    | x :: l' =>
        match f x with
        | Ok y => match go l' with Ok ys => Ok (y :: ys) | Raise e => Raise e end
        | Raise e => Raise e
        end
    end.

(** ** Python string and list primitives used by the tools *)

Module Py.

Definition newline : ascii := ascii_of_nat 10.

(** [str.isspace] on an ASCII character: tab to carriage return, the four
    separators 28 to 31, and the space. *)
Definition is_space (c : ascii) : bool :=
  let n := nat_of_ascii c in
  (((9 <=? n) && (n <=? 13)) || ((28 <=? n) && (n <=? 32)))%nat.

Definition to_lower (c : ascii) : ascii :=
  let n := nat_of_ascii c in
  if ((65 <=? n) && (n <=? 90))%nat then ascii_of_nat (n + 32) else c.

Fixpoint lstrip (s : string) : string :=
  match s with
  | EmptyString => EmptyString
  | String c s' => if is_space c then lstrip s' else s
  end.

Fixpoint rstrip (s : string) : string :=
  match s with
  | EmptyString => EmptyString
  | String c s' =>
      match rstrip s' with
      | EmptyString => if is_space c then EmptyString else String c EmptyString
      | r => String c r
      end
  end.

(** [s.strip()] *)
Definition strip (s : string) : string := rstrip (lstrip s).

(** [s[:n]] for [n >= 0]. *)
Fixpoint take (n : nat) (s : string) : string :=
  match n, s with
  | S n', String c s' => String c (take n' s')
  | _, _ => EmptyString
  end.

(** [s[n:]] for [n >= 0]. *)
Fixpoint drop (n : nat) (s : string) : string :=
  match n, s with
  | S n', String _ s' => drop n' s'
  | _, _ => s
  end.

(** [s.split('\n')]: never empty, a trailing newline gives a last empty
    piece. *)
Fixpoint split_lines (s : string) : list string :=
  match s with
  | EmptyString => [EmptyString]
  | String c s' =>
      if Ascii.eqb c newline then EmptyString :: split_lines s'
      else match split_lines s' with
           | l :: ls => String c l :: ls
           | [] => [String c EmptyString]
           end
  end.

(** [s.startswith(p)], returning what follows the prefix. *)
Fixpoint strip_prefix (p s : string) : option string :=
  match p, s with
  | EmptyString, _ => Some s
  | String a p', String b s' => if Ascii.eqb a b then strip_prefix p' s' else None
  | String _ _, EmptyString => None
  end.

(** [a in s] on strings: [a] occurs in [s] as a contiguous substring. *)
Fixpoint contains (a s : string) : bool :=
  match strip_prefix a s with
  | Some _ => true
  | None => match s with
            | EmptyString => false
            | String _ s' => contains a s'
            end
  end.

(** [s.replace(old, new)]: non-overlapping occurrences, left to right.
    [skip] counts the characters of an occurrence still to be dropped. *)
Fixpoint replace_from (old new : string) (skip : nat) (s : string) : string :=
  match s with
  | EmptyString => EmptyString
  | String c s' =>
      match skip with
      | S k => replace_from old new k s'
      | O =>
          match strip_prefix old s with
          | Some _ => new +:+ replace_from old new (String.length old - 1) s'
          | None => String c (replace_from old new 0 s')
          end
      end
  end.

Definition intersperse (new s : string) : string :=
  new +:+ String.concat new (map (fun c => String c EmptyString) (list_ascii_of_string s))
      +:+ (match s with EmptyString => EmptyString | _ => new end).

Definition replace (old new s : string) : string :=
  match old with
  | EmptyString => intersperse new s
  | _ => replace_from old new 0 s
  end.

(** [l[i]] with Python's negative indices; [None] stands for IndexError. *)
Definition index {A} (l : list A) (i : Z) : option A :=
  let n := Z.of_nat (length l) in
  if (0 <=? i) && (i <? n) then l !! Z.to_nat i
  else if (- n <=? i) && (i <? 0) then l !! Z.to_nat (n + i)
  else None.

(** [d.get(k)] on a dict written out as its list of items. *)
Fixpoint assoc {V} (k : string) (items : list (string * V)) : option V :=
  match items with
  | [] => None
  | (k', v) :: rest => if String.eqb k k' then Some v else assoc k rest
  end.

(** [enumerate(l, start)] *)
Fixpoint enumerate {A} (start : Z) (l : list A) : list (Z * A) :=
  match l with
  | [] => []
  | x :: l' => (start, x) :: enumerate (start + 1) l'
  end.

(** [str(n)] for an integer. *)
Definition str_int (n : Z) : string := pretty n.

(** Order of [sorted] on strings: by character code, left to right. *)
Definition str_le (a b : string) : Prop := String.leb a b = true.

Global Instance str_le_dec a b : Decision (str_le a b).
Proof. unfold str_le. apply _. Defined.

Definition sorted (l : list string) : list string := merge_sort str_le l.

End Py.

(** ** Regular expressions

    The patterns of both tools use literals, character classes, greedy
    repetition of one character class, concatenation, alternation and
    numbered groups.  [run] lists the ways a pattern can match at the start
    of the text, in the order a backtracking matcher tries them, so the head
    of the list is the match [re.match] reports. *)

Module Re.

Inductive charset : Type :=
| Dot                       (* .  : anything but a newline *)
| Space                     (* \s *)
| NonSpace                  (* \S *)
| OneOf (cs : list ascii).  (* [...] *)

Inductive regex : Type :=
| Lit (s : string)
| One (cs : charset)
| Many (min : nat) (cs : charset)   (* cs* when min = 0, cs+ when min = 1 *)
| Cat (r1 r2 : regex)
| Alt (r1 r2 : regex)
| Group (n : nat) (r : regex).

Definition char_eq (ignorecase : bool) (a b : ascii) : bool :=
  if ignorecase then Ascii.eqb (Py.to_lower a) (Py.to_lower b) else Ascii.eqb a b.

Definition in_charset (ignorecase : bool) (cs : charset) (c : ascii) : bool :=
  match cs with
  | Dot => negb (Ascii.eqb c Py.newline)
  | Space => Py.is_space c
  | NonSpace => negb (Py.is_space c)
  | OneOf l => existsb (char_eq ignorecase c) l
  end.

Fixpoint lit_prefix (ignorecase : bool) (p s : string) : option string :=
  match p, s with
  | EmptyString, _ => Some s
  | String a p', String b s' =>
      if char_eq ignorecase a b then lit_prefix ignorecase p' s' else None
  | String _ _, EmptyString => None
  end.

(** Length of the longest prefix of [s] made of characters of [cs]. *)
Fixpoint span (ignorecase : bool) (cs : charset) (s : string) : nat :=
  match s with
  | String c s' => if in_charset ignorecase cs c then S (span ignorecase cs s') else O
  | EmptyString => O
  end.

Definition groups : Type := gmap nat string.

Fixpoint run (ignorecase : bool) (r : regex) (s : string) (g : groups)
  : list (string * groups) :=
  match r with
  | Lit t =>
      match lit_prefix ignorecase t s with
      | Some rest => [(rest, g)]
      | None => []
      end
  | One cs =>
      match s with
      | String c rest => if in_charset ignorecase cs c then [(rest, g)] else []
      | EmptyString => []
      end
  | Many min cs =>
      let k := span ignorecase cs s in
      map (fun n => (Py.drop n s, g)) (rev (seq min (S k - min)))
  | Cat r1 r2 =>
      flat_map (fun m => run ignorecase r2 (fst m) (snd m)) (run ignorecase r1 s g)
  | Alt r1 r2 => run ignorecase r1 s g ++ run ignorecase r2 s g
  | Group n r1 =>
      map (fun m =>
             (fst m, <[n := Py.take (String.length s - String.length (fst m)) s]> (snd m)))
          (run ignorecase r1 s g)
  end.

(** [re.match(r, s)]: the groups of the first match at the start of [s]. *)
Definition match_ (ignorecase : bool) (r : regex) (s : string) : option groups :=
  snd <$> head (run ignorecase r s ∅).

(** [re.search(r, s)] as a truth value: a match at some offset of [s]. *)
Fixpoint search (ignorecase : bool) (r : regex) (s : string) : bool :=
  match run ignorecase r s ∅ with
  | _ :: _ => true
  | [] => match s with
          | EmptyString => false
          | String _ s' => search ignorecase r s'
          end
  end.

(** [m.group(n)] of a group that took part in the match. *)
Definition group (g : groups) (n : nat) : string := default EmptyString (g !! n).

End Re.

(** ** The flaky test detector ([tools/detect_flaky.py]) *)

Module Flaky.

Record TestResult : Type := {
  name : string;
  outcomes : list string;   (* "PASS", "FAIL", "ERROR", "SKIP" *)
  is_flaky : bool
}.

Record FlakyReport : Type := {
  total_tests : Z;
  flaky_tests : list TestResult;
  stable_tests : Z;
  runs : Z;
  framework : string
}.

Definition is_stable (r : FlakyReport) : bool :=
  Z.of_nat (length (flaky_tests r)) =? 0.

(** The outcome names the [TestResult.outcomes] comment lists. *)
Definition TestOutcome : list string := ["PASS"; "FAIL"; "ERROR"; "SKIP"].

(** What [subprocess.run(cmd, capture_output=True, text=True)] can do.
    The child runs to completion, with any return code (no [check=True]),
    and its captured output decodes as text; or it runs to completion and
    its output is not valid text, and the call raises [UnicodeDecodeError];
    or it cannot be started and the call raises [e]: [FileNotFoundError]
    when the executable is not found, [PermissionError] when it may not be
    run, another [OSError] otherwise. *)
Inductive proc_outcome : Type :=
| Completed (returncode : Z) (stdout stderr : string)
| Undecodable (returncode : Z)
| LaunchFailed (e : exn).

(** Values [json.loads] returns. *)
Inductive pyval : Type :=
| PyNone
| PyBool (b : bool)
| PyInt (n : Z)
| PyFloat (text : string)
| PyStr (s : string)
| PyList (items : list pyval)
| PyDict (items : list (string * pyval)).

(** [for x in v] *)
Definition py_iter (v : pyval) : result (list pyval) :=
  match v with
  | PyList items => Ok items
  | PyDict items => Ok (map (fun kv => PyStr (fst kv)) items)
  | PyStr s => Ok (map (fun c => PyStr (String c EmptyString)) (list_ascii_of_string s))
  | _ => Raise TypeError
  end.

(** [v.get(key, dflt)] *)
Definition py_get (v : pyval) (key : string) (dflt : pyval) : result pyval :=
  match v with
  | PyDict items => Ok (default dflt (Py.assoc key items))
  | _ => Raise AttributeError
  end.

(** [v[key]] for a string key *)
Definition py_getitem (v : pyval) (key : string) : result pyval :=
  match v with
  | PyDict items =>
      match Py.assoc key items with
      | Some x => Ok x
      | None => Raise (KeyError key)
      end
  | _ => Raise TypeError
  end.

(** [(.+::.+)\s+(PASSED|FAILED|ERROR|SKIPPED)] *)
Definition pytest_line : Re.regex :=
  Re.Cat (Re.Group 1 (Re.Cat (Re.Many 1 Re.Dot) (Re.Cat (Re.Lit "::") (Re.Many 1 Re.Dot))))
    (Re.Cat (Re.Many 1 Re.Space)
       (Re.Group 2 (Re.Alt (Re.Lit "PASSED") (Re.Alt (Re.Lit "FAILED")
                      (Re.Alt (Re.Lit "ERROR") (Re.Lit "SKIPPED")))))).

(** [test\s+(\S+)\s+\.\.\.\s+(ok|FAILED|ignored)] *)
Definition cargo_line : Re.regex :=
  Re.Cat (Re.Lit "test") (Re.Cat (Re.Many 1 Re.Space)
    (Re.Cat (Re.Group 1 (Re.Many 1 Re.NonSpace)) (Re.Cat (Re.Many 1 Re.Space)
      (Re.Cat (Re.Lit "...") (Re.Cat (Re.Many 1 Re.Space)
        (Re.Group 2 (Re.Alt (Re.Lit "ok") (Re.Alt (Re.Lit "FAILED") (Re.Lit "ignored"))))))))).

(** The loop of [run_pytest] over the lines of the captured output. *)
Definition parse_pytest (output : string) : gmap string string :=
  foldl (fun results line =>
           match Re.match_ false pytest_line line with
           | Some m =>
               let test_name := Re.group m 1 in
               let outcome := Re.group m 2 in
               <[test_name := Py.replace "SKIPPED" "SKIP" (Py.replace "PASSED" "PASS" outcome)]>
                 results
           | None => results
           end)
        ∅ (Py.split_lines output).

Definition cargo_outcomes : list (string * string) :=
  [("ok", "PASS"); ("FAILED", "FAIL"); ("ignored", "SKIP")].

(** The loop of [run_cargo] over the lines of the captured output. *)
Definition parse_cargo (output : string) : gmap string string :=
  foldl (fun results line =>
           match Re.match_ false cargo_line line with
           | Some m =>
               let test_name := Re.group m 1 in
               let outcome := Re.group m 2 in
               <[test_name := default "ERROR" (Py.assoc outcome cargo_outcomes)]> results
           | None => results
           end)
        ∅ (Py.split_lines output).

Definition jest_outcomes : list (string * string) :=
  [("passed", "PASS"); ("failed", "FAIL"); ("pending", "SKIP")].

Section Session.

(** The world outside the tool: the [t]-th child process it launches,
    the JSON parser, [str()] of a parsed value, and the file system. *)
Variable spawn : nat -> list string -> proc_outcome.
Variable json_loads : string -> option pyval.   (* [None]: JSONDecodeError *)
Variable py_str : pyval -> string.
Variable glob : string -> string -> list string.
Variable path_exists : string -> bool.

Definition nonempty {A} (l : list A) : bool :=
  match l with [] => false | _ :: _ => true end.

Definition detect_framework (test_path : string) : string :=
  if nonempty (glob test_path "**/test_*.py") || nonempty (glob test_path "**/*_test.py")
  then if path_exists "pytest.ini" || path_exists "pyproject.toml" then "pytest" else "pytest"
  else if nonempty (glob test_path "**/*.test.js") || nonempty (glob test_path "**/*.test.ts")
  then "jest"
  else if path_exists "Cargo.toml" then "cargo"
  else "pytest".

Definition run_pytest (t : nat) (test_path : string) : result (gmap string string) :=
  match spawn t ["pytest"; test_path; "-v"; "--tb=no"; "-q"] with
  | LaunchFailed e => Raise e
  | Undecodable _ => Raise UnicodeDecodeError
  | Completed _ stdout stderr => Ok (parse_pytest (stdout +:+ stderr))
  end.

Definition jest_status (status : pyval) : result string :=
  match status with
  | PyStr s => Ok (default "ERROR" (Py.assoc s jest_outcomes))
  | PyList _ | PyDict _ => Raise TypeError
  | _ => Ok "ERROR"
  end.

Definition run_jest (t : nat) (test_path : string) : result (gmap string string) :=
  match spawn t ["npx"; "jest"; test_path; "--json"; "--testLocationInResults"] with
  | LaunchFailed e => Raise e
  | Undecodable _ => Raise UnicodeDecodeError
  | Completed _ stdout _ =>
      match json_loads stdout with
      | None => Ok ∅
      | Some data =>
          trs ← py_get data "testResults" (PyList []);
          trs ← py_iter trs;
          foldM (fun test_result results =>
                   ars ← py_get test_result "assertionResults" (PyList []);
                   ars ← py_iter ars;
                   foldM (fun assertion results =>
                            n ← py_getitem test_result "name";
                            f ← py_getitem assertion "fullName";
                            let test_name := py_str n +:+ "::" +:+ py_str f in
                            status ← py_getitem assertion "status";
                            o ← jest_status status;
                            Ok (<[test_name := o]> results))
                         ars results)
                trs ∅
      end
  end.

Definition run_cargo (t : nat) (test_path : string) : result (gmap string string) :=
  match spawn t ["cargo"; "test"; "--"; "--test-threads=1"] with
  | LaunchFailed e => Raise e
  | Undecodable _ => Raise UnicodeDecodeError
  | Completed _ stdout stderr => Ok (parse_cargo (stdout +:+ stderr))
  end.

Definition runners : list (string * (nat -> string -> result (gmap string string))) :=
  [("pytest", run_pytest); ("jest", run_jest); ("cargo", run_cargo)].

Definition run_tests (framework : string) (t : nat) (test_path : string)
  : result (gmap string string) :=
  match Py.assoc framework runners with
  | None => Raise (ValueError ("Unknown framework: " +:+ framework))
  | Some runner => runner t test_path
  end.

(** The outcome sequence of one test: [results.get(test_name, "MISSING")]
    for each run, in run order. *)
Definition outcomes_of (all_results : list (gmap string string)) (test_name : string)
  : list string :=
  map (fun results => default "MISSING" (results !! test_name)) all_results.

Definition union_of_keys (all_results : list (gmap string string)) : gset string :=
  foldl (fun names results => names ∪ dom results) ∅ all_results.

Definition make_result (all_results : list (gmap string string)) (test_name : string)
  : TestResult :=
  let outcomes := outcomes_of all_results test_name in
  let unique_outcomes : gset string := list_to_set outcomes in
  let is_flaky := bool_decide (1 < size unique_outcomes)%nat in
  {| name := test_name; outcomes := outcomes; is_flaky := is_flaky |}.

(** The [for test_name in sorted(all_test_names)] loop: the state is
    the pair of lists [test_results], [flaky_tests]. *)
Definition analyze_loop (all_results : list (gmap string string))
  : list TestResult * list TestResult :=
  foldl (fun '(test_results, flaky_tests) test_name =>
           let result := make_result all_results test_name in
           (test_results ++ [result],
            if is_flaky result then flaky_tests ++ [result] else flaky_tests))
        ([], []) (Py.sorted (elements (union_of_keys all_results))).

(** [detect_flaky_tests] from the comment "Analyze results" on. *)
Definition analyze (all_results : list (gmap string string)) (runs : Z)
    (framework : string) : FlakyReport :=
  let '(test_results, flaky_tests) := analyze_loop all_results in
  {| total_tests := Z.of_nat (length test_results);
     flaky_tests := flaky_tests;
     stable_tests := Z.of_nat (length test_results) - Z.of_nat (length flaky_tests);
     runs := runs;
     framework := framework |}.

(** The runs of one session: run [i] of [range(runs)] launches the
    [i]-th child process. *)
Definition collect (framework test_path : string) (runs : Z)
  : result (list (gmap string string)) :=
  mapM (fun i => run_tests framework i test_path) (seq 0 (Z.to_nat runs)).

Definition detect_flaky_tests (test_path : string) (runs : Z)
    (framework : option string) : result FlakyReport :=
  let framework :=
    match framework with
    | None => detect_framework test_path
    | Some f => f
    end in
  all_results ← collect framework test_path runs;
  Ok (analyze all_results runs framework).

End Session.

End Flaky.

(** ** Syntax trees ([ast])

    The part of Python's abstract grammar the detectors look at, with the
    fields in the order [ast.iter_fields] lists them.  Of a node's
    attributes only those the tools read are kept ([lineno] of [If] and
    [Dict], [lineno] and [end_lineno] of function definitions).  Keyword
    arguments, function signatures and decorators are left out. *)

Module Ast.

Inductive constant : Type :=
| CInt (n : Z)
| CFloat (text : string)     (* a float, kept as its [repr] *)
| CStr (s : string)
| CBool (b : bool)
| CNone
| CEllipsis.

Inductive unaryop : Type := Invert | Not | UAdd | USub.

Inductive operator : Type :=
| Add | Sub | Mult | MatMult | Div | Mod | Pow
| LShift | RShift | BitOr | BitXor | BitAnd | FloorDiv.

Inductive boolop : Type := And | Or.

Inductive cmpop : Type :=
| Eq | NotEq | Lt | LtE | Gt | GtE | Is | IsNot | In | NotIn.

Inductive expr : Type :=
| BoolOp (op : boolop) (values : list expr)
| BinOp (left : expr) (op : operator) (right : expr)
| UnaryOp (op : unaryop) (operand : expr)
| IfExp (test body orelse : expr)
| Dict (keys : list (option expr)) (values : list expr) (lineno : Z)
| Compare (left : expr) (ops : list cmpop) (comparators : list expr)
| Call (func : expr) (args : list expr)
| Constant (value : constant)
| Attribute (value : expr) (attr : string)
| Subscript (value slice : expr)
| Name (id : string)
| List (elts : list expr)
| Tuple (elts : list expr).

Inductive stmt : Type :=
| FunctionDef (name : string) (body : list stmt) (lineno end_lineno : Z)
| AsyncFunctionDef (name : string) (body : list stmt) (lineno end_lineno : Z)
| ClassDef (name : string) (bases : list expr) (body : list stmt)
| Return (value : option expr)
| Assign (targets : list expr) (value : expr)
| AugAssign (target : expr) (op : operator) (value : expr)
| For (target iter : expr) (body orelse : list stmt)
| While (test : expr) (body orelse : list stmt)
| If (test : expr) (body orelse : list stmt) (lineno : Z)
| Assert (test : expr) (msg : option expr)
| Expr (value : expr)
| Pass.

(** What [ast.parse] returns: a [Module] node holding the statements. *)
Inductive node : Type :=
| NModule (body : list stmt)
| NStmt (s : stmt)
| NExpr (e : expr).

(** [ast.walk]: the node and all its descendants.  The library promises
    no particular order; this is the order of a depth-first visit. *)
Fixpoint walk_expr (e : expr) : list node :=
  NExpr e ::
  match e with
  | BoolOp _ values => flat_map walk_expr values
  | BinOp l _ r => walk_expr l ++ walk_expr r
  | UnaryOp _ x => walk_expr x
  | IfExp t b o => walk_expr t ++ walk_expr b ++ walk_expr o
  | Dict keys values _ =>
      flat_map (fun k => match k with Some e' => walk_expr e' | None => [] end) keys
        ++ flat_map walk_expr values
  | Compare l _ cs => walk_expr l ++ flat_map walk_expr cs
  | Call f args => walk_expr f ++ flat_map walk_expr args
  | Constant _ => []
  | Attribute v _ => walk_expr v
  | Subscript v sl => walk_expr v ++ walk_expr sl
  | Name _ => []
  | List elts => flat_map walk_expr elts
  | Tuple elts => flat_map walk_expr elts
  end.

Definition walk_opt (o : option expr) : list node :=
  match o with Some e => walk_expr e | None => [] end.

Fixpoint walk_stmt (s : stmt) : list node :=
  NStmt s ::
  match s with
  | FunctionDef _ body _ _ => flat_map walk_stmt body
  | AsyncFunctionDef _ body _ _ => flat_map walk_stmt body
  | ClassDef _ bases body => flat_map walk_expr bases ++ flat_map walk_stmt body
  | Return value => walk_opt value
  | Assign targets value => flat_map walk_expr targets ++ walk_expr value
  | AugAssign target _ value => walk_expr target ++ walk_expr value
  | For target iter body orelse =>
      walk_expr target ++ walk_expr iter ++ flat_map walk_stmt body
        ++ flat_map walk_stmt orelse
  | While test body orelse =>
      walk_expr test ++ flat_map walk_stmt body ++ flat_map walk_stmt orelse
  | If test body orelse _ =>
      walk_expr test ++ flat_map walk_stmt body ++ flat_map walk_stmt orelse
  | Assert test msg => walk_expr test ++ walk_opt msg
  | Expr value => walk_expr value
  | Pass => []
  end.

Definition walk (n : node) : list node :=
  match n with
  | NModule body => n :: flat_map walk_stmt body
  | NStmt s => walk_stmt s
  | NExpr e => walk_expr e
  end.

(** ** [ast.NodeVisitor]

    Every [visit_<Class>] method of the tools does its own work and then
    calls [self.generic_visit(node)].  [method] is that own work (the
    identity for a class without a method); [visit] runs it and then
    visits the children field by field. *)
Section NodeVisitor.

Context {S : Type}.
Variable method : node -> S -> result S.

Fixpoint visit_expr (e : expr) (st : S) {struct e} : result S :=
  st ← method (NExpr e) st;
  match e with
  | BoolOp _ values => foldM visit_expr values st
  | BinOp l _ r => st ← visit_expr l st; visit_expr r st
  | UnaryOp _ x => visit_expr x st
  | IfExp t b o => st ← visit_expr t st; st ← visit_expr b st; visit_expr o st
  | Dict keys values _ =>
      st ← foldM (fun k st => match k with
                              | Some e' => visit_expr e' st
                              | None => Ok st
                              end) keys st;
      foldM visit_expr values st
  | Compare l _ cs => st ← visit_expr l st; foldM visit_expr cs st
  | Call f args => st ← visit_expr f st; foldM visit_expr args st
  | Constant _ => Ok st
  | Attribute v _ => visit_expr v st
  | Subscript v sl => st ← visit_expr v st; visit_expr sl st
  | Name _ => Ok st
  | List elts => foldM visit_expr elts st
  | Tuple elts => foldM visit_expr elts st
  end.

Definition visit_opt (o : option expr) (st : S) : result S :=
  match o with Some e => visit_expr e st | None => Ok st end.

Fixpoint visit_stmt (s : stmt) (st : S) {struct s} : result S :=
  st ← method (NStmt s) st;
  match s with
  | FunctionDef _ body _ _ => foldM visit_stmt body st
  | AsyncFunctionDef _ body _ _ => foldM visit_stmt body st
  | ClassDef _ bases body => st ← foldM visit_expr bases st; foldM visit_stmt body st
  | Return value => visit_opt value st
  | Assign targets value => st ← foldM visit_expr targets st; visit_expr value st
  | AugAssign target _ value => st ← visit_expr target st; visit_expr value st
  | For target iter body orelse =>
      st ← visit_expr target st;
      st ← visit_expr iter st;
      st ← foldM visit_stmt body st;
      foldM visit_stmt orelse st
  | While test body orelse =>
      st ← visit_expr test st;
      st ← foldM visit_stmt body st;
      foldM visit_stmt orelse st
  | If test body orelse _ =>
      st ← visit_expr test st;
      st ← foldM visit_stmt body st;
      foldM visit_stmt orelse st
  | Assert test msg => st ← visit_expr test st; visit_opt msg st
  | Expr value => visit_expr value st
  | Pass => Ok st
  end.

Definition visit (n : node) (st : S) : result S :=
  match n with
  | NModule body => st ← method n st; foldM visit_stmt body st
  | NStmt s => visit_stmt s st
  | NExpr e => visit_expr e st
  end.

End NodeVisitor.

End Ast.

(** ** The cheating pattern detector ([tools/detect_cheating.py]) *)

Module Cheating.

Import Ast.

Record CheatingPattern : Type := {
  pattern_type : string;
  description : string;
  file : string;
  line : Z;
  code_snippet : string;
  severity : string   (* "high", "medium", "low" *)
}.

(** The [test_values] dict: its ["inputs"] and ["outputs"] sets.  (The
    ["comparisons"] list is created empty and never touched.) *)
Record test_values : Type := {
  inputs : gset string;
  outputs : gset string
}.

Definition add_input (x : string) (tv : test_values) : test_values :=
  {| inputs := inputs tv ∪ {[x]}; outputs := outputs tv |}.

Definition add_output (x : string) (tv : test_values) : test_values :=
  {| inputs := inputs tv; outputs := outputs tv ∪ {[x]} |}.

(** [if_count > line_count / 3] with Python's true division. The quotient
    is taken exactly; the float the interpreter computes lies on the same
    side of every integer as the exact quotient for line counts below
    2^53. *)
Definition gt_third (if_count line_count : Z) : bool :=
  negb (Qle_bool (inject_Z if_count) (inject_Z line_count / inject_Z 3)).

(** [sum(1 for p in patterns if p.severity == sev)] *)
Definition count_severity (sev : string) (patterns : list CheatingPattern) : Z :=
  foldl Z.add 0
    (map (fun _ => 1) (List.filter (fun p => String.eqb (severity p) sev) patterns)).

(** The table of [detect_test_environment_checks], searched with
    [re.IGNORECASE]; [Q] below stands for the class of the two quote
    characters:
<<
    pytest.*in.*sys\.modules
    unittest.*in.*sys\.modules
    __name__.*==.*Q__main__Q.*test
    os\.environ\.get\(QTEST
    os\.environ\.get\(QCIQ
    TESTING.*=.*True
>>  *)
Definition quote : Re.regex := Re.One (Re.OneOf [ascii_of_nat 39; ascii_of_nat 34]).
Definition any : Re.regex := Re.Many 0 Re.Dot.

Definition test_detection_patterns : list (Re.regex * string) :=
  [ (Re.Cat (Re.Lit "pytest") (Re.Cat any (Re.Cat (Re.Lit "in") (Re.Cat any (Re.Lit "sys.modules")))),
     "pytest module detection");
    (Re.Cat (Re.Lit "unittest") (Re.Cat any (Re.Cat (Re.Lit "in") (Re.Cat any (Re.Lit "sys.modules")))),
     "unittest module detection");
    (Re.Cat (Re.Lit "__name__") (Re.Cat any (Re.Cat (Re.Lit "==") (Re.Cat any
       (Re.Cat quote (Re.Cat (Re.Lit "__main__") (Re.Cat quote (Re.Cat any (Re.Lit "test")))))))),
     "main check with test");
    (Re.Cat (Re.Lit "os.environ.get(") (Re.Cat quote (Re.Lit "TEST")),
     "TEST environment variable");
    (Re.Cat (Re.Lit "os.environ.get(") (Re.Cat quote (Re.Cat (Re.Lit "CI") quote)),
     "CI environment variable");
    (Re.Cat (Re.Lit "TESTING") (Re.Cat any (Re.Cat (Re.Lit "=") (Re.Cat any (Re.Lit "True")))),
     "TESTING flag") ].

Definition assert_equal_names : list string :=
  ["assertEqual"; "assertEquals"; "assertAlmostEqual"].

(** The JSON object [main] prints with [--json]. *)
Record report : Type := {
  clean : bool;
  patterns : list CheatingPattern;
  high_severity : Z;
  medium_severity : Z;
  low_severity : Z
}.

Inductive printed : Type :=
| Doc                      (* print(__doc__) *)
| Json (output : report)   (* print(json.dumps(output, indent=2)) *)
| Line (s : string).

(** What an invocation leaves behind: what it printed and its exit
    status (1 after [sys.exit(1)] or an uncaught exception, 0 when [main]
    returns). *)
Record process : Type := {
  stdout : list printed;
  exit_status : Z
}.

Definition nl : string := String Py.newline EmptyString.
Definition high_mark : string :=
  string_of_list_ascii (map ascii_of_nat [195; 176; 197; 184; 197; 161; 194; 168]%nat).
Definition medium_mark : string :=
  string_of_list_ascii
    (map ascii_of_nat [195; 162; 197; 161; 194; 160; 195; 175; 194; 184]%nat).

Section Tool.

(** The library calls of the tool: [Path(p).read_text()], [ast.parse]
    (giving the body of the [Module]), [ast.unparse] and [repr] of a
    constant's value.  The two printers and the visits are taken to
    return: the limits of the interpreter ([ValueError] from [repr] of an
    integer of more than 4300 digits, [RecursionError] on a deep tree) are
    outside the model, which says nothing of runs that meet them. *)
Variable read_text : string -> result string.
Variable parse : string -> result (list stmt).
Variable unparse : expr -> string.
Variable repr : constant -> string.

Fixpoint _extract_value (node : expr) (tv : test_values) : test_values :=
  match node with
  | Constant value => add_output (repr value) tv
  | Tuple elts => foldl (fun tv elt => _extract_value elt tv) tv elts
  | Call _ args =>
      foldl (fun tv arg =>
               match arg with
               | Constant value => add_input (repr value) tv
               | _ => tv
               end) tv args
  | _ => tv
  end.

Definition _extract_comparison (node : expr) (tv : test_values) : test_values :=
  match node with
  | Compare lhs _ comparators =>
      foldl (fun tv comp => _extract_value comp tv) (_extract_value lhs tv) comparators
  | _ => tv
  end.

(** [visit_Assert] and [visit_Call] of [TestValueExtractor]. *)
Definition TestValueExtractor (n : node) (tv : test_values) : result test_values :=
  match n with
  | NStmt (Assert test _) =>
      match test with
      | Compare _ _ _ => Ok (_extract_comparison test tv)
      | _ => Ok tv
      end
  | NExpr (Call (Attribute _ attr) args) =>
      if bool_decide (attr ∈ assert_equal_names) then
        if 2 <=? Z.of_nat (length args)
        then Ok (foldl (fun tv arg => _extract_value arg tv) tv args)
        else Ok tv
      else Ok tv
  | _ => Ok tv
  end.

Definition extract_test_values (test_file : string) : result test_values :=
  content ← read_text test_file;
  tree ← parse content;
  visit TestValueExtractor (NModule tree) {| inputs := ∅; outputs := ∅ |}.

(** [visit_If] of [HardcodeDetector], up to its [generic_visit]. *)
Definition HardcodeDetector (impl_file : string) (lines : list string)
    (test_values : test_values) (n : node) (patterns : list CheatingPattern)
  : result (list CheatingPattern) :=
  match n with
  | NStmt (If test body _ lineno) =>
      let condition_str := unparse test in
      foldM (fun stmt patterns =>
               match stmt with
               | Return (Some value) =>
                   let return_val := unparse value in
                   if bool_decide (return_val ∈ outputs test_values) then
                     if existsb (fun inp => Py.contains inp condition_str)
                          (elements (inputs test_values))
                     then
                       match Py.index lines (lineno - 1) with
                       | None => Raise IndexError
                       | Some l =>
                           Ok (patterns ++ [
                             {| pattern_type := "hardcoded_return";
                                description := "Returns " +:+ return_val
                                                 +:+ " when condition matches test input";
                                file := impl_file;
                                line := lineno;
                                code_snippet := Py.strip l;
                                severity := "high" |} ])
                       end
                     else Ok patterns
                   else Ok patterns
               | _ => Ok patterns
               end) body patterns
  | _ => Ok patterns
  end.

Definition detect_hardcoded_returns (impl_file : string) (test_values : test_values)
  : result (list CheatingPattern) :=
  content ← read_text impl_file;
  let lines := Py.split_lines content in
  tree ← parse content;
  visit (HardcodeDetector impl_file lines test_values) (NModule tree) [].

(** The loop of [visit_Dict] counting the keys found in the inputs. *)
Definition key_matches (test_values : test_values) (keys : list (option expr)) : Z :=
  foldl (fun n key =>
           match key with
           | Some k => if bool_decide (unparse k ∈ inputs test_values) then n + 1 else n
           | None => n
           end) 0 keys.

(** [visit_Dict] of [LookupDetector], up to its [generic_visit]. *)
Definition LookupDetector (impl_file : string) (lines : list string)
    (test_values : test_values) (n : node) (patterns : list CheatingPattern)
  : result (list CheatingPattern) :=
  match n with
  | NExpr (Dict keys _ lineno) =>
      let key_matches := key_matches test_values keys in
      if 2 <=? key_matches then
        match Py.index lines (lineno - 1) with
        | None => Raise IndexError
        | Some l =>
            Ok (patterns ++ [
              {| pattern_type := "lookup_table";
                 description := "Dictionary with " +:+ Py.str_int key_matches
                                  +:+ " keys matching test inputs";
                 file := impl_file;
                 line := lineno;
                 code_snippet := Py.take 80 (Py.strip l);
                 severity := "high" |} ])
        end
      else Ok patterns
  | _ => Ok patterns
  end.

Definition detect_lookup_tables (impl_file : string) (test_values : test_values)
  : result (list CheatingPattern) :=
  content ← read_text impl_file;
  let lines := Py.split_lines content in
  tree ← parse content;
  visit (LookupDetector impl_file lines test_values) (NModule tree) [].

(** The two nested loops of [detect_test_environment_checks]. *)
Definition scan_lines (impl_file : string) (lines : list string) : list CheatingPattern :=
  foldl (fun patterns '(i, line) =>
           foldl (fun patterns '(pattern, description) =>
                    if Re.search true pattern line then
                      patterns ++ [
                        {| pattern_type := "test_detection";
                           description := description;
                           file := impl_file;
                           line := i;
                           code_snippet := Py.strip line;
                           severity := "high" |} ]
                    else patterns)
                 patterns test_detection_patterns)
        [] (Py.enumerate 1 lines).

Definition detect_test_environment_checks (impl_file : string)
  : result (list CheatingPattern) :=
  content ← read_text impl_file;
  Ok (scan_lines impl_file (Py.split_lines content)).

Definition is_If (n : node) : bool :=
  match n with
  | NStmt (If _ _ _ _) => true
  | _ => false
  end.

(** [sum(1 for _ in ast.walk(node) if isinstance(_, ast.If))] *)
Definition if_count (n : node) : Z :=
  foldl Z.add 0 (map (fun _ => 1) (List.filter is_If (walk n))).

(** [visit_FunctionDef] of [ConditionalCounter], up to its
    [generic_visit]. *)
Definition ConditionalCounter (impl_file : string) (n : node)
    (patterns : list CheatingPattern) : result (list CheatingPattern) :=
  match n with
  | NStmt (FunctionDef name _ lineno end_lineno) =>
      let if_count := if_count n in
      let line_count := end_lineno - lineno in
      if (5 <? if_count) && gt_third if_count line_count then
        Ok (patterns ++ [
          {| pattern_type := "excessive_conditionals";
             description := "Function '" +:+ name +:+ "' has " +:+ Py.str_int if_count
                              +:+ " conditionals in " +:+ Py.str_int line_count +:+ " lines";
             file := impl_file;
             line := lineno;
             code_snippet := "def " +:+ name +:+ "(...):";
             severity := "medium" |} ])
      else Ok patterns
  | _ => Ok patterns
  end.

Definition detect_excessive_conditionals (impl_file : string)
  : result (list CheatingPattern) :=
  content ← read_text impl_file;
  tree ← parse content;
  visit (ConditionalCounter impl_file) (NModule tree) [].

Definition detect_cheating (impl_file test_file : string)
  : result (list CheatingPattern) :=
  test_values ← extract_test_values test_file;
  p1 ← detect_hardcoded_returns impl_file test_values;
  p2 ← detect_lookup_tables impl_file test_values;
  p3 ← detect_test_environment_checks impl_file;
  p4 ← detect_excessive_conditionals impl_file;
  Ok (((([] ++ p1) ++ p2) ++ p3) ++ p4).

Definition has_severity (sev : string) (p : CheatingPattern) : bool :=
  String.eqb (severity p) sev.

(** The narrative listing of a non-empty finding list. *)
Definition narrative (patterns : list CheatingPattern) : list printed :=
  let high := List.filter (has_severity "high") patterns in
  let medium := List.filter (has_severity "medium") patterns in
  [Line "CHEATING PATTERNS DETECTED";
   Line (nl +:+ "Total patterns found: " +:+ Py.str_int (Z.of_nat (length patterns)))]
  ++ (match high with
      | [] => []
      | _ =>
          Line (nl +:+ high_mark +:+ " HIGH SEVERITY ("
                  +:+ Py.str_int (Z.of_nat (length high)) +:+ "):")
          :: flat_map (fun p =>
               [Line (nl +:+ "  [" +:+ pattern_type p +:+ "] Line " +:+ Py.str_int (line p));
                Line ("  " +:+ description p);
                Line ("  Code: " +:+ code_snippet p)]) high
      end)
  ++ (match medium with
      | [] => []
      | _ =>
          Line (nl +:+ medium_mark +:+ " MEDIUM SEVERITY ("
                  +:+ Py.str_int (Z.of_nat (length medium)) +:+ "):")
          :: flat_map (fun p =>
               [Line (nl +:+ "  [" +:+ pattern_type p +:+ "] Line " +:+ Py.str_int (line p));
                Line ("  " +:+ description p)]) medium
      end).

Definition main (argv : list string) : process :=
  if Z.of_nat (length argv) <? 3 then {| stdout := [Doc]; exit_status := 1 |}
  else
    let impl_file := default EmptyString (argv !! 1%nat) in
    let test_file := default EmptyString (argv !! 2%nat) in
    let json_output := bool_decide ("--json" ∈ argv) in
    match detect_cheating impl_file test_file with
    | Raise _ => {| stdout := []; exit_status := 1 |}
    | Ok patterns =>
        if json_output then
          let output :=
            {| clean := Z.of_nat (length patterns) =? 0;
               patterns := patterns;
               high_severity := count_severity "high" patterns;
               medium_severity := count_severity "medium" patterns;
               low_severity := count_severity "low" patterns |} in
          {| stdout := [Json output]; exit_status := 0 |}
        else
          match patterns with
          | [] => {| stdout := [Line "CLEAN"; Line "No cheating patterns detected."];
                     exit_status := 0 |}
          | _ => {| stdout := narrative patterns; exit_status := 1 |}
          end
    end.

End Tool.

End Cheating.

(** ** [repr] and [ast.unparse] on the modelled fragment

    The detectors take the two printers as parameters; this module gives
    them for the expressions above, following the precedence table of the
    library's unparser, so that the detectors can be run on concrete
    programs.  Strings are printed as [repr] prints text of printable
    8-bit characters. *)

Module Unparse.

Import Ast.
Local Open Scope nat_scope.

Definition TUPLE := 2.
Definition TEST := 4.
Definition OR := 5.
Definition AND := 6.
Definition NOT := 7.
Definition CMP := 8.
Definition EXPR := 9.
Definition BOR := 9.
Definition BXOR := 10.
Definition BAND := 11.
Definition SHIFT := 12.
Definition ARITH := 13.
Definition TERM := 14.
Definition FACTOR := 15.
Definition POWER := 16.
Definition ATOM := 18.

Definition next (p : nat) : nat := if p <? ATOM then S p else p.

Definition delimit_if (b : bool) (s : string) : string :=
  if b then "(" +:+ s +:+ ")" else s.

(** [require_parens(precedence, node)] where [node] was given [node_prec]. *)
Definition require_parens (precedence node_prec : nat) (s : string) : string :=
  delimit_if (precedence <? node_prec) s.

Definition chr (n : nat) : string := String (ascii_of_nat n) EmptyString.

Definition hex_digit (n : nat) : string :=
  if n <? 10 then chr (48 + n) else chr (87 + n).

Definition escape_char (q : nat) (c : ascii) : string :=
  let n := nat_of_ascii c in
  if (n =? q) || (n =? 92) then chr 92 +:+ chr n
  else if n =? 9 then chr 92 +:+ "t"
  else if n =? 10 then chr 92 +:+ "n"
  else if n =? 13 then chr 92 +:+ "r"
  else if (n <? 32) || (n =? 127) then chr 92 +:+ "x" +:+ hex_digit (n / 16) +:+ hex_digit (n mod 16)
  else chr n.

Definition repr_str (s : string) : string :=
  let cs := list_ascii_of_string s in
  let has q := existsb (fun c => nat_of_ascii c =? q) cs in
  let q := if has 39 && negb (has 34) then 34 else 39 in
  chr q +:+ String.concat EmptyString (map (escape_char q) cs) +:+ chr q.

Definition repr (c : constant) : string :=
  match c with
  | CInt n => Py.str_int n
  | CFloat text => text
  | CStr s => repr_str s
  | CBool true => "True"
  | CBool false => "False"
  | CNone => "None"
  | CEllipsis => "Ellipsis"
  end.

Definition unop (op : unaryop) : string :=
  match op with Invert => "~" | Not => "not" | UAdd => "+" | USub => "-" end.

Definition unop_precedence (op : unaryop) : nat :=
  match op with Not => NOT | _ => FACTOR end.

Definition binop (op : operator) : string :=
  match op with
  | Add => "+" | Sub => "-" | Mult => "*" | MatMult => "@" | Div => "/" | Mod => "%"
  | Pow => "**" | LShift => "<<" | RShift => ">>" | BitOr => "|" | BitXor => "^"
  | BitAnd => "&" | FloorDiv => "//"
  end.

Definition binop_precedence (op : operator) : nat :=
  match op with
  | Add | Sub => ARITH
  | Mult | MatMult | Div | Mod | FloorDiv => TERM
  | LShift | RShift => SHIFT
  | BitOr => BOR
  | BitXor => BXOR
  | BitAnd => BAND
  | Pow => POWER
  end.

Definition binop_rassoc (op : operator) : bool :=
  match op with Pow => true | _ => false end.

Definition boolops (op : boolop) : string :=
  match op with And => "and" | Or => "or" end.

Definition boolop_precedence (op : boolop) : nat :=
  match op with And => AND | Or => OR end.

Definition cmpops (op : cmpop) : string :=
  match op with
  | Eq => "==" | NotEq => "!=" | Lt => "<" | LtE => "<=" | Gt => ">" | GtE => ">="
  | Is => "is" | IsNot => "is not" | In => "in" | NotIn => "not in"
  end.

Definition items_view (items : list string) : string :=
  match items with
  | [x] => x +:+ ","
  | _ => String.concat ", " items
  end.

Definition is_int_constant (e : expr) : bool :=
  match e with
  | Constant (CInt _) | Constant (CBool _) => true
  | _ => false
  end.

(** The items of a dict display: [zip(node.keys, node.values)], a value
    under a [None] key being printed as [**value] at precedence [EXPR].
    Each value comes printed at [TEST] and at [EXPR]. *)
Fixpoint dict_items (ks : list (option string)) (vs : list (string * string)) : list string :=
  match ks, vs with
  | Some k :: ks', v :: vs' => (k +:+ ": " +:+ fst v) :: dict_items ks' vs'
  | None :: ks', v :: vs' => ("**" +:+ snd v) :: dict_items ks' vs'
  | _, _ => []
  end.

(** The operator and operand pairs after the left operand of a comparison. *)
Fixpoint compare_rest (os : list cmpop) (es : list string) : string :=
  match os, es with
  | o :: os', e :: es' => " " +:+ cmpops o +:+ " " +:+ e +:+ compare_rest os' es'
  | _, _ => EmptyString
  end.

(** [traverse(node)] after [set_precedence(prec, node)]. *)
Fixpoint traverse (prec : nat) (e : expr) {struct e} : string :=
  match e with
  | BoolOp op values =>
      let operator_precedence := boolop_precedence op in
      require_parens operator_precedence prec
        (String.concat (" " +:+ boolops op +:+ " ")
           ((fix increasing (p : nat) (l : list expr) : list string :=
               match l with
               | [] => []
               | v :: l' => traverse (next p) v :: increasing (next p) l'
               end) operator_precedence values))
  | BinOp l op r =>
      let operator_precedence := binop_precedence op in
      let left_precedence :=
        if binop_rassoc op then next operator_precedence else operator_precedence in
      let right_precedence :=
        if binop_rassoc op then operator_precedence else next operator_precedence in
      require_parens operator_precedence prec
        (traverse left_precedence l +:+ " " +:+ binop op +:+ " " +:+ traverse right_precedence r)
  | UnaryOp op operand =>
      let operator_precedence := unop_precedence op in
      require_parens operator_precedence prec
        (unop op +:+ (if operator_precedence =? FACTOR then EmptyString else " ")
           +:+ traverse operator_precedence operand)
  | IfExp test body orelse =>
      require_parens TEST prec
        (traverse (next TEST) body +:+ " if " +:+ traverse (next TEST) test
           +:+ " else " +:+ traverse TEST orelse)
  | Dict keys values _ =>
      "{" +:+ String.concat ", "
        (dict_items
           (map (fun k => match k with Some k' => Some (traverse TEST k') | None => None end)
                keys)
           (map (fun v => (traverse TEST v, traverse EXPR v)) values)) +:+ "}"
  | Compare l ops comparators =>
      require_parens CMP prec
        (traverse (next CMP) l +:+ compare_rest ops (map (traverse (next CMP)) comparators))
  | Call func args =>
      traverse ATOM func +:+ "(" +:+ String.concat ", " (map (traverse TEST) args) +:+ ")"
  | Constant CEllipsis => "..."
  | Constant (CFloat text) =>
      Py.replace "nan" "(1e309-1e309)" (Py.replace "inf" "1e309" text)
  | Constant value => repr value
  | Attribute value attr =>
      traverse ATOM value +:+ (if is_int_constant value then " " else EmptyString)
        +:+ "." +:+ attr
  | Subscript value sl =>
      traverse ATOM value +:+ "[" +:+
        match sl with
        | Tuple (x :: elts) => items_view (map (traverse TEST) (x :: elts))
        | _ => traverse TEST sl
        end +:+ "]"
  | Name id => id
  | List elts => "[" +:+ String.concat ", " (map (traverse TEST) elts) +:+ "]"
  | Tuple elts =>
      delimit_if (match elts with [] => true | _ => TUPLE <? prec end)
        (items_view (map (traverse TEST) elts))
  end.

(** [ast.unparse(node)]: a node no parent gave a precedence has [TEST]. *)
Definition unparse (e : expr) : string := traverse TEST e.

End Unparse.

(** ** Concrete programs and worlds

    A file system given by a list of files, a parser given by the trees of
    the texts it knows (any other text is a syntax error), and child
    processes given by their outcomes in launch order. *)

Module Demo.

Import Ast.

Definition files (fs : list (string * string)) (path : string) : result string :=
  match Py.assoc path fs with
  | Some content => Ok content
  | None => Raise FileNotFoundError
  end.

Definition parser (trees : list (string * list stmt)) (content : string)
  : result (list stmt) :=
  match Py.assoc content trees with
  | Some tree => Ok tree
  | None => Raise SyntaxError
  end.

Definition join_lines (ls : list string) : string :=
  String.concat (String Py.newline EmptyString) ls.

Definition num (n : Z) : expr := Constant (CInt n).
Definition x_is (n : Z) : expr := Compare (Name "x") [Eq] [num n].

(** [if x == 5: return 25] and its variant returning 24 *)
Definition square_src (r : string) : string := "if x == 5: return " +:+ r.
Definition square_tree (r : Z) : list stmt := [If (x_is 5) [Return (Some (num r))] [] 1].

(** [assert square(5) == 25] *)
Definition square_test_src : string := "assert square(5) == 25".
Definition square_test_tree : list stmt :=
  [Assert (Compare (Call (Name "square") [num 5]) [Eq] [num 25]) None].

(** A function returning from a dict display on its second line. *)
Definition lookup_src : string :=
  join_lines ["def f(x):"; "    return {1: 'a', 2: 'b'}[x]"].
Definition lookup_tree : list stmt :=
  [FunctionDef "f"
     [Return (Some (Subscript
        (Dict [Some (num 1); Some (num 2)] [Constant (CStr "a"); Constant (CStr "b")] 2)
        (Name "x")))] 1 2].

Definition lookup_test_src : string :=
  join_lines ["assert f(1) == 'a'"; "assert f(2) == 'b'"].
Definition lookup_test_tree : list stmt :=
  [Assert (Compare (Call (Name "f") [num 1]) [Eq] [Constant (CStr "a")]) None;
   Assert (Compare (Call (Name "f") [num 2]) [Eq] [Constant (CStr "b")]) None].

(** [TESTING = True] *)
Definition flag_src : string := "TESTING = True".
Definition flag_tree : list stmt := [Assign [Name "TESTING"] (Constant (CBool true))].

(** One line that asks for two test frameworks among the loaded modules. *)
Definition sniff_src : string :=
  join_lines ["import sys";
              "if 'pytest' in sys.modules or 'unittest' in sys.modules:";
              "    pass"].

Definition case_line (n : Z) : string :=
  "    if x == " +:+ Py.str_int n +:+ ": return " +:+ Py.str_int (n * n).
Definition case_stmt (n : Z) : stmt :=
  If (x_is n) [Return (Some (num (n * n)))] [] (n + 1).

(** A function of nine lines with six conditionals, and one of nine lines
    with five. *)
Definition six_src : string :=
  join_lines (["def f(x):"] ++ map case_line [1; 2; 3; 4; 5; 6] ++ ["    y = x"; "    return y"]).
Definition six_tree : list stmt :=
  [FunctionDef "f"
     (map case_stmt [1; 2; 3; 4; 5; 6]
        ++ [Assign [Name "y"] (Name "x"); Return (Some (Name "y"))]) 1 9].

Definition five_src : string :=
  join_lines (["def f(x):"] ++ map case_line [1; 2; 3; 4; 5]
                ++ ["    y = x"; "    z = y"; "    return z"]).
Definition five_tree : list stmt :=
  [FunctionDef "f"
     (map case_stmt [1; 2; 3; 4; 5]
        ++ [Assign [Name "y"] (Name "x"); Assign [Name "z"] (Name "y");
            Return (Some (Name "z"))]) 1 9].

(** A function written on lines 1 to 18 with six conditionals, and an
    [async def] of nine lines with six. *)
Definition eighteen_body : list stmt :=
  map case_stmt [1; 2; 3; 4; 5; 6]
    ++ replicate 10 (Assign [Name "y"] (Name "x")) ++ [Return (Some (Name "y"))].
Definition eighteen_src : string :=
  join_lines (["def f(x):"] ++ map case_line [1; 2; 3; 4; 5; 6]
                ++ replicate 10 "    y = x" ++ ["    return y"]).
Definition eighteen_tree : list stmt := [FunctionDef "f" eighteen_body 1 18].

Definition async_six_src : string :=
  join_lines (["async def f(x):"] ++ map case_line [1; 2; 3; 4; 5; 6]
                ++ ["    y = x"; "    return y"]).
Definition async_six_tree : list stmt :=
  [AsyncFunctionDef "f"
     (map case_stmt [1; 2; 3; 4; 5; 6]
        ++ [Assign [Name "y"] (Name "x"); Return (Some (Name "y"))]) 1 9].

Definition disk : string -> result string :=
  files [("square.py", square_src "25"); ("square24.py", square_src "24");
         ("test_square.py", square_test_src);
         ("lookup.py", lookup_src); ("test_lookup.py", lookup_test_src);
         ("flag.py", flag_src); ("sniff.py", sniff_src);
         ("six.py", six_src); ("five.py", five_src);
         ("eighteen.py", eighteen_src); ("async_six.py", async_six_src)].

Definition python : string -> result (list stmt) :=
  parser [(square_src "25", square_tree 25); (square_src "24", square_tree 24);
          (square_test_src, square_test_tree);
          (lookup_src, lookup_tree); (lookup_test_src, lookup_test_tree);
          (flag_src, flag_tree); (six_src, six_tree); (five_src, five_tree);
          (eighteen_src, eighteen_tree); (async_six_src, async_six_tree)].

Definition detect_cheating := Cheating.detect_cheating disk python Unparse.unparse Unparse.repr.
Definition main := Cheating.main disk python Unparse.unparse Unparse.repr.

(** Child processes: the launches of a session answer from a list, a
    launch past its end finds no executable. *)
Definition launches (outs : list Flaky.proc_outcome) (t : nat) (cmd : list string)
  : Flaky.proc_outcome :=
  default (Flaky.LaunchFailed FileNotFoundError) (outs !! t).

Definition no_json (s : string) : option Flaky.pyval := None.
Definition no_str (v : Flaky.pyval) : string := EmptyString.
Definition no_glob (dir pattern : string) : list string := [].
Definition no_path (p : string) : bool := false.

Definition detect_flaky_tests (outs : list Flaky.proc_outcome) :=
  Flaky.detect_flaky_tests (launches outs) no_json no_str no_glob no_path.

(** Three cargo runs: [a] passes each time, [b] fails in the second. *)
Definition cargo_runs : list Flaky.proc_outcome :=
  [Flaky.Completed 0 (join_lines ["test a ... ok"; "test b ... ok"]) EmptyString;
   Flaky.Completed 101 (join_lines ["test a ... ok"; "test b ... FAILED"]) EmptyString;
   Flaky.Completed 0 (join_lines ["test a ... ok"; "test b ... ok"]) EmptyString].

(** Three pytest runs: [t.py::a] is not reported by the second. *)
Definition pytest_runs : list Flaky.proc_outcome :=
  [Flaky.Completed 0 "t.py::a PASSED" EmptyString;
   Flaky.Completed 1 EmptyString "collection error";
   Flaky.Completed 0 "t.py::a PASSED" EmptyString].

End Demo.

(** ** Vocabulary of the properties *)

Section FlakyVocabulary.

Import Flaky.

(** The command line of the two line-oriented adapters and the parser
    each applies to the captured text. *)
Definition command (framework test_path : string) : list string :=
  if String.eqb framework "cargo" then ["cargo"; "test"; "--"; "--test-threads=1"]
  else ["pytest"; test_path; "-v"; "--tb=no"; "-q"].

Definition parse_output (framework : string) : string -> gmap string string :=
  if String.eqb framework "cargo" then parse_cargo else parse_pytest.

(** The exception [subprocess.run] raises at a launch, if any. *)
Definition launch_error (o : proc_outcome) : option exn :=
  match o with
  | Completed _ _ _ => None
  | Undecodable _ => Some UnicodeDecodeError
  | LaunchFailed e => Some e
  end.

End FlakyVocabulary.

(** [a] occurs in [s] as a contiguous substring. *)
Definition is_substring (a s : string) : Prop :=
  exists pre post, s = pre +:+ a +:+ post.

(** A loop body that only appends to the list it is given. *)
Definition appends {A B} (f : A -> list B -> result (list B)) : Prop :=
  forall x ps, f x ps = (new ← f x []; Ok (ps ++ new)).

Section CheatingVocabulary.

Import Ast Cheating.

Variable unparse : expr -> string.

(** Some [return] that is a direct statement of the branch returns an
    expression whose text is a test output. *)
Definition returns_test_output (tv : test_values) (body : list stmt) : Prop :=
  exists value, Return (Some value) ∈ body /\ unparse value ∈ outputs tv.

(** The text of the guard contains some test input. *)
Definition guard_mentions_input (tv : test_values) (test : expr) : Prop :=
  exists inp, inp ∈ inputs tv /\ is_substring inp (unparse test).

Definition mentions_input (tv : test_values) (test : expr) : bool :=
  existsb (fun inp => Py.contains inp (unparse test)) (elements (inputs tv)).

(** The text returned by a statement when it is a test output. *)
Definition hit (tv : test_values) (s : stmt) : option string :=
  match s with
  | Return (Some value) =>
      if bool_decide (unparse value ∈ outputs tv) then Some (unparse value) else None
  | _ => None
  end.

Definition hardcoded_finding (impl_file : string) (lineno : Z) (l : string)
    (return_val : string) : CheatingPattern :=
  {| pattern_type := "hardcoded_return";
     description := "Returns " +:+ return_val +:+ " when condition matches test input";
     file := impl_file;
     line := lineno;
     code_snippet := Py.strip l;
     severity := "high" |}.

(** The keys of a dict display whose source text is a test input. *)
Definition matching_keys (tv : test_values) (keys : list (option expr)) : list expr :=
  List.filter (fun k => bool_decide (unparse k ∈ inputs tv)) (omap id keys).

Definition lookup_finding (impl_file : string) (lineno : Z) (l : string) (n : Z)
  : CheatingPattern :=
  {| pattern_type := "lookup_table";
     description := "Dictionary with " +:+ Py.str_int n +:+ " keys matching test inputs";
     file := impl_file;
     line := lineno;
     code_snippet := Py.take 80 (Py.strip l);
     severity := "high" |}.

Definition is_Dict (n : node) : bool :=
  match n with
  | NExpr (Dict _ _ _) => true
  | _ => false
  end.

Definition test_detection_finding (impl_file : string) (i : Z) (line description : string)
  : CheatingPattern :=
  {| pattern_type := "test_detection";
     description := description;
     file := impl_file;
     line := i;
     code_snippet := Py.strip line;
     severity := "high" |}.

(** The descriptions of the patterns of the table that a line matches, in
    table order. *)
Definition matching_descriptions (line : string) : list string :=
  map snd (List.filter (fun pd => Re.search true (fst pd) line) test_detection_patterns).

(** The findings reported for one line number. *)
Definition findings_at (i : Z) (found : list CheatingPattern) : list CheatingPattern :=
  List.filter (fun p => line p =? i) found.

Definition findings_of_line (impl_file : string) (il : Z * string) : list CheatingPattern :=
  map (test_detection_finding impl_file (fst il) (snd il)) (matching_descriptions (snd il)).

(** The number of conditional statements among a node and its
    descendants. *)
Definition conditionals (n : node) : Z := Z.of_nat (length (List.filter is_If (walk n))).

Definition is_FunctionDef (n : node) : bool :=
  match n with
  | NStmt (FunctionDef _ _ _ _) => true
  | _ => false
  end.

Definition excessive_finding (impl_file name : string) (lineno count span : Z)
  : CheatingPattern :=
  {| pattern_type := "excessive_conditionals";
     description := "Function '" +:+ name +:+ "' has " +:+ Py.str_int count
                      +:+ " conditionals in " +:+ Py.str_int span +:+ " lines";
     file := impl_file;
     line := lineno;
     code_snippet := "def " +:+ name +:+ "(...):";
     severity := "medium" |}.

Definition severity_known (p : CheatingPattern) : Prop :=
  severity p = "high" \/ severity p = "medium".

End CheatingVocabulary.

(** ** The command line of the flaky detector ([main] of [detect_flaky.py]) *)

Module FlakyCli.

(** [TestResult.summary] *)
Definition summary (t : Flaky.TestResult) : string :=
  String.concat ", " (Flaky.outcomes t).

(** What [parser.parse_args()] returns: [test_path] (default [tests/]),
    [--runs] (any integer, default 3), [--framework] (absent, or one of the
    three choices) and [--json]. *)
Record Namespace : Type := {
  test_path : string;
  runs : Z;
  framework : option string;
  json : bool
}.

Definition choices : list string := ["pytest"; "jest"; "cargo"].

(** The values of the dict [main] prints with [--json]. *)
Inductive value : Type :=
| VBool (b : bool)
| VInt (n : Z)
| VStr (s : string)
| VResults (l : list Flaky.TestResult).   (* [asdict(t) for t in ...] *)

Inductive printed : Type :=
| Json (output : list (string * value))   (* print(json.dumps(output, indent=2)) *)
| Line (s : string).

Record process : Type := {
  stdout : list printed;
  exit_status : Z
}.

Definition nl : string := String Py.newline EmptyString.

Section Cli.

Variable spawn : nat -> list string -> Flaky.proc_outcome.
Variable json_loads : string -> option Flaky.pyval.
Variable py_str : Flaky.pyval -> string.
Variable glob : string -> string -> list string.
Variable path_exists : string -> bool.

Definition main (args : Namespace) : process :=
  match Flaky.detect_flaky_tests spawn json_loads py_str glob path_exists
          (test_path args) (runs args) (framework args) with
  | Raise _ => {| stdout := []; exit_status := 1 |}
  | Ok report =>
      if json args then
        let output :=
          [("stable", VBool (Flaky.is_stable report));
           ("total_tests", VInt (Flaky.total_tests report));
           ("stable_tests", VInt (Flaky.stable_tests report));
           ("flaky_count", VInt (Z.of_nat (length (Flaky.flaky_tests report))));
           ("runs", VInt (Flaky.runs report));
           ("framework", VStr (Flaky.framework report));
           ("flaky_tests", VResults (Flaky.flaky_tests report))] in
        {| stdout := [Json output]; exit_status := 0 |}
      else if Flaky.is_stable report then
        {| stdout :=
             [Line "STABLE";
              Line ("All " +:+ Py.str_int (Flaky.total_tests report)
                      +:+ " tests passed consistently across "
                      +:+ Py.str_int (Flaky.runs report) +:+ " runs.")];
           exit_status := 0 |}
      else
        {| stdout :=
             [Line "FLAKY TESTS DETECTED";
              Line (nl +:+ "Framework: " +:+ Flaky.framework report);
              Line ("Runs: " +:+ Py.str_int (Flaky.runs report));
              Line ("Total tests: " +:+ Py.str_int (Flaky.total_tests report));
              Line ("Flaky tests: "
                      +:+ Py.str_int (Z.of_nat (length (Flaky.flaky_tests report))));
              Line ("Stable tests: " +:+ Py.str_int (Flaky.stable_tests report));
              Line (nl +:+ "Flaky test details:")]
             ++ flat_map (fun test =>
                            [Line (nl +:+ "  " +:+ Flaky.name test);
                             Line ("    Results: " +:+ summary test)])
                         (Flaky.flaky_tests report);
           exit_status := 1 |}
  end.

End Cli.

End FlakyCli.

(** ** Vocabulary of the further properties *)

(** The report of a session that saw no test at all. *)
Definition empty_report (runs : Z) (framework : string) : Flaky.FlakyReport :=
  {| Flaky.total_tests := 0;
     Flaky.flaky_tests := [];
     Flaky.stable_tests := 0;
     Flaky.runs := runs;
     Flaky.framework := framework |}.

Definition jest_command (test_path : string) : list string :=
  ["npx"; "jest"; test_path; "--json"; "--testLocationInResults"].

(** The outcomes the pytest adapter can store, and those of the cargo
    adapter. *)
Definition pytest_stored : list string := ["PASS"; "FAILED"; "ERROR"; "SKIP"].
Definition cargo_stored : list string := ["PASS"; "FAIL"; "SKIP"].

(** No character of the text is white space. *)
Definition no_space (s : string) : Prop :=
  Forall (fun c => Py.is_space c = false) (list_ascii_of_string s).

(** What one line of cargo output reports, if it matches the pattern: the
    test name and the translated outcome; likewise for pytest. *)
Definition cargo_report (line : string) : option (string * string) :=
  match Re.match_ false Flaky.cargo_line line with
  | Some m => Some (Re.group m 1, default "ERROR" (Py.assoc (Re.group m 2) Flaky.cargo_outcomes))
  | None => None
  end.

Definition pytest_report (line : string) : option (string * string) :=
  match Re.match_ false Flaky.pytest_line line with
  | Some m => Some (Re.group m 1,
                    Py.replace "SKIPPED" "SKIP" (Py.replace "PASSED" "PASS" (Re.group m 2)))
  | None => None
  end.

(** No line of the list reports the test. *)
Definition unreported (report : string -> option (string * string)) (name : string)
    (lines : list string) : Prop :=
  forall line o, line ∈ lines -> report line <> Some (name, o).

(** ** Vocabulary of the further properties of the cheating detector *)

(** The walk of [m] is a contiguous part of the list [l]: [m] is visited
    with all its descendants. *)
Definition subtree_in (m : Ast.node) (l : list Ast.node) : Prop :=
  exists l1 l2, l = l1 ++ Ast.walk m ++ l2.

(** Every node of the list is in it with all its descendants. *)
Definition subtree_closed (l : list Ast.node) : Prop :=
  forall m, m ∈ l -> subtree_in m l.

Section ExtractionVocabulary.

Import Ast Cheating.

Variable repr : constant -> string.

(** The text of some literal constant of the tree. *)
Definition literal_of (tree : list stmt) (x : string) : Prop :=
  exists c, NExpr (Constant c) ∈ walk (NModule tree) /\ x = repr c.

(** The values of [tv] beyond those of [tv0] are texts of literals among
    the nodes of [l]. *)
Definition from_literals (l : list node) (tv0 tv : test_values) : Prop :=
  forall x, x ∈ inputs tv \/ x ∈ outputs tv ->
    (x ∈ inputs tv0 \/ x ∈ outputs tv0)
    \/ exists c, NExpr (Constant c) ∈ l /\ x = repr c.

(** What the extractor takes from one operand of an assertion: a literal
    operand is an output, the literal members of a tuple operand are
    outputs, the literal arguments of a call operand are inputs. *)
Definition extracted_from (operand : expr) (tv : test_values) : Prop :=
  (forall c, operand = Constant c -> repr c ∈ outputs tv)
  /\ (forall elts c, operand = Tuple elts -> Constant c ∈ elts -> repr c ∈ outputs tv)
  /\ (forall f args c, operand = Call f args -> Constant c ∈ args -> repr c ∈ inputs tv).

(** The sets of [tv] are within those of [tv']. *)
Definition within (tv tv' : test_values) : Prop :=
  inputs tv ⊆ inputs tv' /\ outputs tv ⊆ outputs tv'.

End ExtractionVocabulary.

(** The four kinds of finding, in the order their detectors run, each with
    its severity. *)
Definition kinds : list (string * string) :=
  [("hardcoded_return", "high"); ("lookup_table", "high");
   ("test_detection", "high"); ("excessive_conditionals", "medium")].

Definition of_kind (impl_file kind : string) (p : Cheating.CheatingPattern) : Prop :=
  Cheating.pattern_type p = kind
  /\ Cheating.file p = impl_file
  /\ Py.assoc kind kinds = Some (Cheating.severity p).

(** Membership in a walk written out with [::] and [++]. *)
Ltac in_walk :=
  rewrite ?elem_of_cons, ?elem_of_app, ?elem_of_cons, ?elem_of_app; auto 10.

(** [set_solver] on the goal and the facts it needs, the functions of the
    world left aside. *)
Ltac solve_set :=
  repeat match goal with x : _ -> _ |- _ => clear x end; set_solver.

(** ** Further concrete programs and worlds *)

Module Worlds.

Import Ast.

(** A test directory with one Python test file, and a working directory
    that holds a single named file. *)
Definition python_tests (dir pattern : string) : list string :=
  if String.eqb pattern "**/test_*.py" then [dir +:+ "test_a.py"] else [].

Definition only (file p : string) : bool := String.eqb p file.

(** A jest report, as parsed: one file with an assertion that passed and
    one whose status is [todo]. *)
Definition jest_report : Flaky.pyval :=
  Flaky.PyDict
    [("testResults",
      Flaky.PyList
        [Flaky.PyDict
           [("name", Flaky.PyStr "a.test.js");
            ("assertionResults",
             Flaky.PyList
               [Flaky.PyDict [("fullName", Flaky.PyStr "adds");
                              ("status", Flaky.PyStr "passed")];
                Flaky.PyDict [("fullName", Flaky.PyStr "later");
                              ("status", Flaky.PyStr "todo")]])]])].

Definition jest_loads (s : string) : option Flaky.pyval :=
  if String.eqb s "report" then Some jest_report else None.

Definition jest_str (v : Flaky.pyval) : string :=
  match v with Flaky.PyStr s => s | _ => EmptyString end.

Definition jest_runs : list Flaky.proc_outcome :=
  [Flaky.Completed 0 "report" EmptyString; Flaky.Completed 1 "Error: no tests" EmptyString].

(** Two cargo runs that agree, and two in which both tests change. *)
Definition same_runs : list Flaky.proc_outcome :=
  [Flaky.Completed 0 "test a ... ok" EmptyString;
   Flaky.Completed 0 "test a ... ok" EmptyString].

Definition changing_runs : list Flaky.proc_outcome :=
  [Flaky.Completed 0 (Demo.join_lines ["test b ... ok"; "test a ... ok"]) EmptyString;
   Flaky.Completed 101 (Demo.join_lines ["test b ... FAILED"; "test a ... FAILED"])
     EmptyString].

(** One test reported twice by the same run. *)
Definition twice : string := Demo.join_lines ["test a ... ok"; "test a ... FAILED"].

(** [self.assertEqual(f(3), 9)] *)
Definition unit_test_src : string := "self.assertEqual(f(3), 9)".
Definition unit_test_tree : list stmt :=
  [Expr (Call (Attribute (Name "self") "assertEqual")
           [Call (Name "f") [Demo.num 3]; Demo.num 9])].

Definition disk : string -> result string :=
  Demo.files [("test_unit.py", unit_test_src); ("flag.py", Demo.flag_src);
              ("square.py", Demo.square_src "25");
              ("test_square.py", Demo.square_test_src)].

Definition python : string -> result (list stmt) :=
  Demo.parser [(unit_test_src, unit_test_tree); (Demo.flag_src, Demo.flag_tree);
               (Demo.square_src "25", Demo.square_tree 25);
               (Demo.square_test_src, Demo.square_test_tree)].

(** What a line-oriented adapter stores for each completed run. *)
Definition stored (parse : string -> gmap string string) (outs : list Flaky.proc_outcome)
  : list (gmap string string) :=
  omap (fun o => match o with
                 | Flaky.Completed _ out err => Some (parse (out +:+ err))
                 | _ => None
                 end) outs.

(** The two outcomes the jest adapter stores for [jest_report]. *)
Definition jest_stored : gmap string string :=
  <["a.test.js::later" := "ERROR"]> (<["a.test.js::adds" := "PASS"]> ∅).

End Worlds.

(** Closed goals settled by evaluation: an equation whose sides evaluate
    to the same value, and a decidable proposition that evaluates to true. *)
Ltac vm_refl := lazymatch goal with |- _ = ?b => vm_cast_no_check (@eq_refl _ b) end.
Ltac vm_decide := apply (bool_decide_unpack _); vm_cast_no_check I.

(** * Properties *)

(** ** Loops and results *)

Lemma bind_Ok {A B} (a : A) (k : A -> result B) : (Ok a ≫= k) = k a.
Proof. reflexivity. Qed.

Lemma sum_ones_length {A} (l : list A) :
  foldl Z.add 0 (map (fun _ => 1) l) = Z.of_nat (length l).
Proof.
  assert (H : forall acc, foldl Z.add acc (map (fun _ : A => 1) l) = acc + Z.of_nat (length l)).
  { induction l as [|x l IH]; intros acc; simpl.
    - lia.
    - rewrite IH. lia. }
  apply H.
Qed.

Lemma mapM_Ok_inv {A B} (f : A -> result B) l ys :
  mapM f l = Ok ys ->
  length ys = length l /\
  forall i x, l !! i = Some x -> exists y, ys !! i = Some y /\ f x = Ok y.
Proof.
  revert ys. induction l as [|x l IH]; intros ys; simpl.
  - intros [= <-]. split; [done|]. intros i x' H. by rewrite lookup_nil in H.
  - destruct (f x) as [y|e] eqn:Hx; [|done].
    destruct (mapM f l) as [ys'|e] eqn:Hl; [|done].
    intros [= <-]. destruct (IH ys' eq_refl) as [Hlen Hnth].
    split; [simpl; congruence|].
    intros [|i] x'; simpl.
    + intros [= <-]. eauto.
    + apply Hnth.
Qed.

Lemma mapM_total {A B} (f : A -> result B) l :
  (forall x, x ∈ l -> exists y, f x = Ok y) -> exists ys, mapM f l = Ok ys.
Proof.
  induction l as [|x l IH]; intros H; simpl.
  - eauto.
  - destruct (H x) as [y ->]; [by left|].
    destruct IH as [ys ->]; [|eauto].
    intros x' Hx'. apply H. by right.
Qed.

Lemma mapM_first_raise {A B} (f : A -> result B) (before : list A) (x : A)
    (after : list A) (e : exn) (l : list A) :
  l = before ++ x :: after ->
  (forall y, y ∈ before -> exists v, f y = Ok v) ->
  f x = Raise e ->
  mapM f l = Raise e.
Proof.
  intros -> Hb Hx. induction before as [|y before IH]; simpl.
  - by rewrite Hx.
  - destruct (Hb y) as [v ->]; [by left|]. rewrite IH; [done|].
    intros z Hz. apply Hb. by right.
Qed.

(** ** The flaky detector *)

Section FlakyProperties.

Import Flaky.

Variable spawn : nat -> list string -> proc_outcome.
Variable json_loads : string -> option pyval.
Variable py_str : pyval -> string.
Variable glob : string -> string -> list string.
Variable path_exists : string -> bool.

Local Abbreviation run_tests := (Flaky.run_tests spawn json_loads py_str).
Local Abbreviation collect := (Flaky.collect spawn json_loads py_str).
Local Abbreviation detect_flaky_tests :=
  (Flaky.detect_flaky_tests spawn json_loads py_str glob path_exists).

Lemma elem_of_union_of_keys (all_results : list (gmap string string)) x :
  x ∈ union_of_keys all_results <->
  exists results, results ∈ all_results /\ is_Some (results !! x).
Proof.
  unfold union_of_keys.
  assert (H : forall acc : gset string,
    x ∈ foldl (fun names results => names ∪ dom results) acc all_results <->
    x ∈ acc \/ exists results : gmap string string,
                 results ∈ all_results /\ is_Some (results !! x)).
  { induction all_results as [|r l IH]; intros acc; simpl.
    - split; [auto|]. intros [H|[r [Hr _]]]; [done|]. by apply elem_of_nil in Hr.
    - rewrite IH, elem_of_union, elem_of_dom. split.
      + intros [[H|H]|[r' [Hr' Hx]]]; [by left| |].
        * right. exists r. split; [by left|done].
        * right. exists r'. split; [by right|done].
      + intros [H|[r' [Hr' Hx]]]; [by left; left|].
        apply elem_of_cons in Hr' as [->|Hr'].
        * by left; right.
        * right. eauto. }
  rewrite H. split; [|auto]. intros [Hx|Hx]; [|done]. by apply not_elem_of_empty in Hx.
Qed.

(** The loop builds one record per name, in sorted order, and keeps the
    flaky ones aside in the same order. *)
Lemma analyze_loop_spec (all_results : list (gmap string string)) :
  analyze_loop all_results =
  (map (make_result all_results) (Py.sorted (elements (union_of_keys all_results))),
   List.filter is_flaky
     (map (make_result all_results) (Py.sorted (elements (union_of_keys all_results))))).
Proof.
  unfold analyze_loop.
  generalize (Py.sorted (elements (union_of_keys all_results))) as names.
  assert (H : forall names tr fl,
    foldl (fun '(test_results, flaky_tests) test_name =>
             let result := make_result all_results test_name in
             (test_results ++ [result],
              if is_flaky result then flaky_tests ++ [result] else flaky_tests))
          (tr, fl) names
    = (tr ++ map (make_result all_results) names,
       fl ++ List.filter is_flaky (map (make_result all_results) names))).
  { induction names as [|n names IH]; intros tr fl.
    - simpl. by rewrite !app_nil_r.
    - cbn [foldl map List.filter]. rewrite IH.
      destruct (is_flaky (make_result all_results n)); by rewrite <- !app_assoc. }
  intros names. apply (H names [] []).
Qed.

Lemma elem_of_sorted (l : list string) x : x ∈ Py.sorted l <-> x ∈ l.
Proof. unfold Py.sorted. by rewrite merge_sort_Permutation. Qed.

Lemma elem_of_List_filter {A} (f : A -> bool) (l : list A) x :
  x ∈ List.filter f l <-> x ∈ l /\ f x = true.
Proof. rewrite !list_elem_of_In. apply filter_In. Qed.

Lemma run_tests_line_oriented framework t test_path :
  framework = "pytest" \/ framework = "cargo" ->
  run_tests framework t test_path =
  match spawn t (command framework test_path) with
  | LaunchFailed e => Raise e
  | Undecodable _ => Raise UnicodeDecodeError
  | Completed _ stdout stderr => Ok (parse_output framework (stdout +:+ stderr))
  end.
Proof. intros [-> | ->]; reflexivity. Qed.

End FlakyProperties.

Section FlakyClaims.

Import Flaky.

Variable spawn : nat -> list string -> proc_outcome.
Variable json_loads : string -> option pyval.
Variable py_str : pyval -> string.
Variable glob : string -> string -> list string.
Variable path_exists : string -> bool.

Local Abbreviation run_tests := (Flaky.run_tests spawn json_loads py_str).
Local Abbreviation collect := (Flaky.collect spawn json_loads py_str).
Local Abbreviation detect_flaky_tests :=
  (Flaky.detect_flaky_tests spawn json_loads py_str glob path_exists).

(** One record per identifier of the union, with its outcome sequence and
    its flag. *)
Lemma analyze_outcome_sequences
    (all_results : list (gmap string string)) (runs : Z) (fw test_name : string) :
  test_name ∈ union_of_keys all_results ->
  exists r,
    r ∈ (analyze_loop all_results).1
    /\ name r = test_name
    /\ (forall r', r' ∈ (analyze_loop all_results).1 -> name r' = test_name -> r' = r)
    /\ length (outcomes r) = length all_results
    /\ (forall i results, all_results !! i = Some results ->
          outcomes r !! i = Some (default "MISSING" (results !! test_name)))
    /\ (is_flaky r = true <-> (1 < size (list_to_set (outcomes r) : gset string))%nat)
    /\ (r ∈ flaky_tests (analyze all_results runs fw) <-> is_flaky r = true)
    /\ (forall r1 r2 r3,
          all_results = [r1; r2; r3] ->
          r1 !! test_name = Some "PASS" -> r2 !! test_name = None ->
          r3 !! test_name = Some "PASS" ->
          outcomes r = ["PASS"; "MISSING"; "PASS"] /\ is_flaky r = true).
Proof.
  intros Hin. exists (make_result all_results test_name).
  unfold analyze. rewrite analyze_loop_spec. cbn [fst flaky_tests].
  assert (Hmem : make_result all_results test_name
                   ∈ map (make_result all_results)
                       (Py.sorted (elements (union_of_keys all_results)))).
  { apply list_elem_of_fmap. exists test_name. split; [done|].
    apply elem_of_sorted, elem_of_elements, Hin. }
  repeat split.
  - exact Hmem.
  - intros r' Hr' Hname. apply list_elem_of_fmap in Hr' as [n [-> _]].
    simpl in Hname. by subst n.
  - simpl. unfold outcomes_of. by rewrite length_map.
  - intros i results Hi. simpl. unfold outcomes_of.
    rewrite list_lookup_fmap, Hi. done.
  - simpl. apply bool_decide_eq_true_1.
  - simpl. apply bool_decide_eq_true_2.
  - intros H. by apply elem_of_List_filter in H as [_ H].
  - intros H. by apply elem_of_List_filter.
  - subst all_results. simpl. by rewrite H0, H1, H2.
  - subst all_results. simpl. rewrite H0, H1, H2. simpl. by vm_compute.
Qed.

(** C2. A session that ends with a report has collected one result map per
    run, in run order.  For every identifier in the union of the maps' keys
    the loop builds exactly one record; its outcome sequence has one entry
    per run, in run order, the run's outcome for the identifier or MISSING
    when the run's map has no such key; the record is marked flaky exactly
    when the set of distinct values of the sequence has more than one
    member, and the report lists it exactly then.  A test that passes in
    runs 1 and 3 and is absent from run 2 gets PASS, MISSING, PASS and is
    flaky. *)
Theorem outcome_sequence_and_flakiness
    (test_path : string) (runs : Z) (framework : option string) (rep : FlakyReport) :
  detect_flaky_tests test_path runs framework = Ok rep ->
  exists all_results,
    length all_results = Z.to_nat runs
    /\ collect (Flaky.framework rep) test_path runs = Ok all_results
    /\ forall test_name,
         test_name ∈ union_of_keys all_results ->
         exists r,
           r ∈ (analyze_loop all_results).1
           /\ name r = test_name
           /\ (forall r', r' ∈ (analyze_loop all_results).1 -> name r' = test_name -> r' = r)
           /\ length (outcomes r) = length all_results
           /\ (forall i results, all_results !! i = Some results ->
                 outcomes r !! i = Some (default "MISSING" (results !! test_name)))
           /\ (is_flaky r = true
               <-> (1 < size (list_to_set (outcomes r) : gset string))%nat)
           /\ (r ∈ flaky_tests rep <-> is_flaky r = true)
           /\ (forall r1 r2 r3,
                 all_results = [r1; r2; r3] ->
                 r1 !! test_name = Some "PASS" -> r2 !! test_name = None ->
                 r3 !! test_name = Some "PASS" ->
                 outcomes r = ["PASS"; "MISSING"; "PASS"] /\ is_flaky r = true).
Proof.
  unfold Flaky.detect_flaky_tests.
  set (fw := match framework with Some f => f | None => _ end).
  destruct (Flaky.collect _ _ _ fw _ _) as [all_results|e] eqn:Hc; [|done].
  rewrite bind_Ok. intros [= <-]. exists all_results.
  assert (Hfw : Flaky.framework (analyze all_results runs fw) = fw).
  { unfold analyze. by destruct (analyze_loop all_results). }
  rewrite Hfw. split; [|split; [exact Hc|]].
  - apply mapM_Ok_inv in Hc as [-> _]. by rewrite length_seq.
  - intros test_name. apply analyze_outcome_sequences.
Qed.

(** C10. A report of the flaky detector has [total_tests] equal to
    [stable_tests] plus the number of flaky tests, and [is_stable] holds
    exactly when the list of flaky tests is empty; the stable count is
    never negative. *)
Theorem flaky_report_invariant (test_path : string) (runs : Z)
    (framework : option string) (rep : FlakyReport) :
  detect_flaky_tests test_path runs framework = Ok rep ->
  total_tests rep = stable_tests rep + Z.of_nat (length (flaky_tests rep))
  /\ (is_stable rep = true <-> flaky_tests rep = [])
  /\ 0 <= stable_tests rep.
Proof.
  unfold Flaky.detect_flaky_tests.
  destruct (Flaky.collect _ _ _ _ _ _) as [all_results|e]; [|done].
  cbn. intros [= <-]. unfold analyze. rewrite analyze_loop_spec.
  cbn [total_tests stable_tests flaky_tests is_stable].
  set (rs := map _ _).
  assert (Hle : (length (List.filter is_flaky rs) <= length rs)%nat)
    by apply filter_length_le.
  repeat split; try lia.
  - intros H%Z.eqb_eq. destruct (List.filter is_flaky rs); [done|simpl in H; lia].
  - intros ->. done.
Qed.

(** C4 as amended. With the pytest or the cargo adapter a child process
    that runs to completion and whose output decodes as text never makes
    the run raise, whatever its return code: the run yields the outcomes
    found in its combined output.  When every launch of the session is of
    this kind, the session ends with the report over these maps, and a test
    a run's map lacks is MISSING at that run.  A launch at which
    [subprocess.run] raises (no executable: FileNotFoundError; an
    executable that may not be run: PermissionError; output that is not
    text: UnicodeDecodeError) makes the run raise that exception, and the
    first such launch of a session ends the session with it: no report is
    produced. *)
Theorem completed_runs_never_abort_failed_launch_does
    (test_path : string) (runs : Z) (fw : string) :
  fw = "pytest" \/ fw = "cargo" ->
  (forall t rc out err,
      spawn t (command fw test_path) = Completed rc out err ->
      run_tests fw t test_path = Ok (parse_output fw (out +:+ err)))
  /\ ((forall i, (i < Z.to_nat runs)%nat ->
         launch_error (spawn i (command fw test_path)) = None) ->
      exists all_results,
        collect fw test_path runs = Ok all_results
        /\ detect_flaky_tests test_path runs (Some fw) = Ok (analyze all_results runs fw)
        /\ length all_results = Z.to_nat runs
        /\ (forall i results test_name,
              all_results !! i = Some results -> results !! test_name = None ->
              outcomes_of all_results test_name !! i = Some "MISSING"))
  /\ (forall t e,
        launch_error (spawn t (command fw test_path)) = Some e ->
        run_tests fw t test_path = Raise e)
  /\ (forall i e,
        (i < Z.to_nat runs)%nat ->
        launch_error (spawn i (command fw test_path)) = Some e ->
        (forall j, (j < i)%nat -> launch_error (spawn j (command fw test_path)) = None) ->
        detect_flaky_tests test_path runs (Some fw) = Raise e)
  /\ ((exists i, (i < Z.to_nat runs)%nat
                 /\ launch_error (spawn i (command fw test_path)) <> None) ->
      ~ exists rep, detect_flaky_tests test_path runs (Some fw) = Ok rep).
Proof.
  intros Hfw.
  assert (Hok : forall t, launch_error (spawn t (command fw test_path)) = None ->
                          exists results, run_tests fw t test_path = Ok results).
  { intros t Ht. rewrite run_tests_line_oriented by done.
    destruct (spawn t (command fw test_path)); [eauto|done..]. }
  assert (Hraise : forall t e, launch_error (spawn t (command fw test_path)) = Some e ->
                               run_tests fw t test_path = Raise e).
  { intros t e Ht. rewrite run_tests_line_oriented by done.
    destruct (spawn t (command fw test_path)); [done|by injection Ht as <-..]. }
  split_and!.
  - intros t rc out err H. rewrite run_tests_line_oriented by done. by rewrite H.
  - intros Hall.
    destruct (mapM_total (fun i => run_tests fw i test_path) (seq 0 (Z.to_nat runs)))
      as [all_results Hc].
    { intros i Hi%elem_of_seq. apply Hok, Hall. lia. }
    exists all_results. unfold Flaky.detect_flaky_tests, Flaky.collect.
    rewrite Hc. repeat split.
    + apply mapM_Ok_inv in Hc as [-> _]. by rewrite length_seq.
    + intros i results test_name Hi Hnone. unfold outcomes_of.
      by rewrite list_lookup_fmap, Hi; simpl; rewrite Hnone.
  - exact Hraise.
  - intros i e Hi He Hbefore. unfold Flaky.detect_flaky_tests, Flaky.collect.
    rewrite (mapM_first_raise _ (seq 0 i) i (seq (S i) (Z.to_nat runs - S i)) e).
    + done.
    + replace (Z.to_nat runs) with (i + S (Z.to_nat runs - S i))%nat at 1 by lia.
      by rewrite seq_app.
    + intros j Hj%elem_of_seq. apply Hok, Hbefore. lia.
    + by apply Hraise.
  - intros (i & Hi & He) [rep Hrep]. unfold Flaky.detect_flaky_tests, Flaky.collect in Hrep.
    destruct (mapM _ _) as [all_results|] eqn:Hc; [|done].
    apply mapM_Ok_inv in Hc as [_ Hnth].
    destruct (Hnth i i) as (y & _ & Hy); [apply lookup_seq; lia|].
    destruct (launch_error (spawn i (command fw test_path))) as [e|] eqn:Hl; [|done].
    rewrite (Hraise i e Hl) in Hy. done.
Qed.

End FlakyClaims.

Lemma outcome_sequence_and_flakiness_witness :
  exists rep r,
    Demo.detect_flaky_tests Demo.pytest_runs "tests/" 3 (Some "pytest") = Ok rep
    /\ r ∈ Flaky.flaky_tests rep
    /\ Flaky.name r = "t.py::a"
    /\ Flaky.outcomes r = ["PASS"; "MISSING"; "PASS"].
Proof.
  eexists. 
  destruct (outcome_sequence_and_flakiness (Demo.launches Demo.pytest_runs)
              Demo.no_json Demo.no_str Demo.no_glob Demo.no_path
              "tests/" 3 (Some "pytest") _ eq_refl)
    as (all_results & _ & Hc & H).
  vm_compute in Hc. injection Hc as <-.
  destruct (H "t.py::a") as (r & _ & Hname & _ & _ & _ & _ & Hrep & Hex); [by vm_compute|].
  destruct (Hex _ _ _ eq_refl) as [Ho Hf]; [by vm_compute..|].
  exists r. split; [reflexivity|]. split; [by apply Hrep|]. split; [exact Hname|exact Ho].
Defined.

Lemma flaky_report_invariant_witness :
  exists rep,
    Demo.detect_flaky_tests Demo.cargo_runs "tests/" 3 (Some "cargo") = Ok rep
    /\ (Flaky.total_tests rep
        = Flaky.stable_tests rep + Z.of_nat (length (Flaky.flaky_tests rep))
        /\ (Flaky.is_stable rep = true <-> Flaky.flaky_tests rep = [])
        /\ 0 <= Flaky.stable_tests rep).
Proof.
  eexists. split; [by vm_compute|].
  apply (flaky_report_invariant (Demo.launches Demo.cargo_runs)
           Demo.no_json Demo.no_str Demo.no_glob Demo.no_path
           "tests/" 3 (Some "cargo")).
  by vm_compute.
Defined.

Lemma completed_runs_never_abort_failed_launch_does_witness :
  (exists rep, Demo.detect_flaky_tests Demo.pytest_runs "tests/" 3 (Some "pytest") = Ok rep)
  /\ Demo.detect_flaky_tests Demo.pytest_runs "tests/" 4 (Some "pytest")
     = Raise FileNotFoundError
  /\ Demo.detect_flaky_tests
       [Flaky.Completed 0 "t.py::a PASSED" EmptyString; Flaky.Undecodable 0]
       "tests/" 3 (Some "pytest")
     = Raise UnicodeDecodeError.
Proof.
  split; [|split].
  - destruct (completed_runs_never_abort_failed_launch_does
                (Demo.launches Demo.pytest_runs) Demo.no_json Demo.no_str
                Demo.no_glob Demo.no_path "tests/" 3 "pytest" (or_introl eq_refl))
      as (_ & H & _).
    destruct H as (all_results & _ & H & _).
    + intros i Hi. change (Z.to_nat 3) with 3%nat in Hi.
      destruct i as [|[|[|i]]]; [reflexivity..|lia].
    + eauto.
  - destruct (completed_runs_never_abort_failed_launch_does
                (Demo.launches Demo.pytest_runs) Demo.no_json Demo.no_str
                Demo.no_glob Demo.no_path "tests/" 4 "pytest" (or_introl eq_refl))
      as (_ & _ & _ & H & _).
    apply (H 3%nat); [change (Z.to_nat 4) with 4%nat; lia|reflexivity|].
    intros j Hj. destruct j as [|[|[|j]]]; [reflexivity..|lia].
  - destruct (completed_runs_never_abort_failed_launch_does
                (Demo.launches
                   [Flaky.Completed 0 "t.py::a PASSED" EmptyString; Flaky.Undecodable 0])
                Demo.no_json Demo.no_str
                Demo.no_glob Demo.no_path "tests/" 3 "pytest" (or_introl eq_refl))
      as (_ & _ & _ & H & _).
    apply (H 1%nat); [change (Z.to_nat 3) with 3%nat; lia|reflexivity|].
    intros j Hj. destruct j as [|j]; [reflexivity|lia].
Defined.

(** C4, the claim as stated fails: a pytest session whose first child
    process cannot be started does not get an empty outcome map for that
    run; the run raises, and so does the session. *)
Lemma failed_launch_aborts_session :
  Flaky.run_pytest (Demo.launches []) 0 "tests/" = Raise FileNotFoundError
  /\ ~ (exists rep, Demo.detect_flaky_tests [] "tests/" 3 (Some "pytest") = Ok rep).
Proof. split; [reflexivity|]. intros [rep H]. vm_compute in H. discriminate. Qed.

(** C3. The pytest adapter stores pytest's FAILED token untranslated: the
    stored outcome is not one of PASS, FAIL, ERROR, SKIP.  The cargo
    adapter translates its own FAILED to FAIL. *)
Theorem pytest_FAILED_is_stored_untranslated :
  Flaky.run_pytest (Demo.launches [Flaky.Completed 1 "tests/test_a.py::test_x FAILED" EmptyString])
    0 "tests/"
  = Ok {[ "tests/test_a.py::test_x" := "FAILED" ]}
  /\ ("FAILED" ∉ Flaky.TestOutcome)
  /\ Flaky.run_cargo (Demo.launches [Flaky.Completed 101 "test test_x ... FAILED" EmptyString])
       0 "tests/"
     = Ok {[ "test_x" := "FAIL" ]}.
Proof.
  split; [by vm_compute|]. split; [|by vm_compute].
  unfold Flaky.TestOutcome. rewrite !elem_of_cons, elem_of_nil.
  intros [H|[H|[H|[H|[]]]]]; discriminate.
Qed.

(** ** Strings *)

Lemma append_String (c : ascii) (a b : string) : String c a +:+ b = String c (a +:+ b).
Proof. reflexivity. Qed.

Lemma append_Empty (b : string) : EmptyString +:+ b = b.
Proof. reflexivity. Qed.

Lemma append_assoc (a b c : string) : (a +:+ b) +:+ c = a +:+ (b +:+ c).
Proof.
  induction a as [|x a IH]; [done|]. rewrite !append_String. by f_equal.
Qed.

Lemma strip_prefix_spec (p s rest : string) :
  Py.strip_prefix p s = Some rest <-> s = p +:+ rest.
Proof.
  revert s. induction p as [|a p IH]; intros s; cbn [Py.strip_prefix].
  - rewrite append_Empty. split; [by intros [= ->]|by intros ->].
  - rewrite append_String. destruct s as [|b s]; [split; discriminate|].
    destruct (Ascii.eqb_spec a b) as [->|Hne].
    + rewrite IH. split; [by intros ->|by intros [= ->]].
    + split; [discriminate|]. intros [= -> _]. done.
Qed.

Lemma contains_spec (a s : string) : Py.contains a s = true <-> is_substring a s.
Proof.
  induction s as [|c s IH].
  - cbn [Py.contains]. destruct (Py.strip_prefix a EmptyString) as [r|] eqn:Hp.
    + apply strip_prefix_spec in Hp. split; [|done]. intros _.
      exists EmptyString, r. done.
    + split; [discriminate|]. intros (pre & post & H).
      destruct pre; [|discriminate]. rewrite append_Empty in H.
      apply strip_prefix_spec in H. congruence.
  - cbn [Py.contains]. destruct (Py.strip_prefix a (String c s)) as [r|] eqn:Hp.
    + apply strip_prefix_spec in Hp. split; [|done]. intros _.
      exists EmptyString, r. done.
    + rewrite IH. split.
      * intros (pre & post & ->). exists (String c pre), post. done.
      * intros (pre & post & H). destruct pre as [|c' pre].
        -- rewrite append_Empty in H. apply strip_prefix_spec in H. congruence.
        -- rewrite append_String in H. injection H as -> ->. by exists pre, post.
Qed.

(** ** Visitors *)

Lemma foldM_app {A S} (f : A -> S -> result S) (l1 l2 : list A) (st : S) :
  foldM f (l1 ++ l2) st = (st' ← foldM f l1 st; foldM f l2 st').
Proof.
  revert st. induction l1 as [|x l1 IH]; intros st; simpl; [done|].
  destruct (f x st); [apply IH|done].
Qed.

Lemma foldM_ext {A S} (f g : A -> S -> result S) (l : list A) (st : S) :
  Forall (fun x => forall st, f x st = g x st) l -> foldM f l st = foldM g l st.
Proof.
  intros H. revert st. induction H as [|x l Hx _ IH]; intros st; simpl; [done|].
  rewrite Hx. destruct (g x st); [apply IH|done].
Qed.

Lemma foldM_flat_map {A B S} (f : B -> S -> result S) (g : A -> list B)
    (l : list A) (st : S) :
  foldM f (flat_map g l) st = foldM (fun x st => foldM f (g x) st) l st.
Proof.
  revert st. induction l as [|x l IH]; intros st; simpl; [done|].
  rewrite foldM_app. destruct (foldM f (g x) st); simpl; [apply IH|done].
Qed.

Lemma foldM_invariant {A S} (P : S -> Prop) (f : A -> S -> result S) (l : list A) :
  (forall x st st', P st -> f x st = Ok st' -> P st') ->
  forall st st', P st -> foldM f l st = Ok st' -> P st'.
Proof.
  intros Hf. induction l as [|x l IH]; intros st st' Hst; simpl.
  - by intros [= <-].
  - destruct (f x st) as [st1|] eqn:Hx; [|done]. apply IH. by eapply Hf.
Qed.

Section VisitWalk.

Import Ast.
Context {S : Type} (method : node -> S -> result S).

(** A visit runs the method on the nodes of the tree in the order of a
    depth-first walk. *)
Lemma visit_expr_walk : forall e st, visit_expr method e st = foldM method (walk_expr e) st.
Proof.
  fix IH 1. intros e st.
  destruct e as [op values|l op r|op x|t b o|keys values lineno|l ops cs|f args
                |c|v attr|v sl|id|elts|elts];
    cbn [visit_expr walk_expr foldM];
    (destruct (method _ st) as [st1|]; [cbn|reflexivity]);
    rewrite ?foldM_app, ?foldM_flat_map, ?IH; try done.
  - apply foldM_ext. induction values; constructor; [apply IH|assumption].
  - destruct (foldM method (walk_expr l) st1); [cbn|reflexivity]. apply IH.
  - destruct (foldM method (walk_expr t) st1) as [st2|]; [cbn|reflexivity].
    rewrite IH, foldM_app.
    destruct (foldM method (walk_expr b) st2); [cbn|reflexivity]. apply IH.
  - assert (Hk : Forall (fun k => forall st,
              match k with Some e' => visit_expr method e' st | None => Ok st end
              = foldM method (match k with Some e' => walk_expr e' | None => [] end) st) keys).
    { induction keys as [|[k|] keys IHk]; constructor; try assumption; [apply IH|done]. }
    rewrite (foldM_ext _ _ _ _ Hk). destruct (foldM _ keys st1); [cbn|reflexivity].
    rewrite ?foldM_flat_map. apply foldM_ext. induction values; constructor; [apply IH|assumption].
  - destruct (foldM method (walk_expr l) st1); [cbn|reflexivity].
    rewrite ?foldM_flat_map. apply foldM_ext. induction cs; constructor; [apply IH|assumption].
  - destruct (foldM method (walk_expr f) st1); [cbn|reflexivity].
    rewrite ?foldM_flat_map. apply foldM_ext. induction args; constructor; [apply IH|assumption].
  - destruct (foldM method (walk_expr v) st1); [cbn|reflexivity]. apply IH.
  - apply foldM_ext. induction elts; constructor; [apply IH|assumption].
  - apply foldM_ext. induction elts; constructor; [apply IH|assumption].
Qed.

Lemma visit_opt_walk o st : visit_opt method o st = foldM method (walk_opt o) st.
Proof. destruct o; [apply visit_expr_walk|done]. Qed.

Lemma visit_exprs_walk (l : list expr) st :
  foldM (visit_expr method) l st = foldM method (flat_map walk_expr l) st.
Proof.
  rewrite foldM_flat_map. apply foldM_ext, Forall_forall.
  intros e _ st'. apply visit_expr_walk.
Qed.

Lemma visit_stmt_walk : forall s st, visit_stmt method s st = foldM method (walk_stmt s) st.
Proof.
  fix IH 1. intros s st.
  destruct s as [name body lineno end_lineno|name body lineno end_lineno|name bases body
                |value|targets value|target op value|target iter body orelse
                |test body orelse|test body orelse lineno|test msg|value|];
    cbn [visit_stmt walk_stmt foldM];
    (destruct (method _ st) as [st1|]; [cbn|reflexivity]);
    rewrite ?foldM_app, ?visit_expr_walk, ?visit_exprs_walk, ?visit_opt_walk; try done;
    repeat match goal with
      | |- context [foldM method (walk_expr ?e) ?s] =>
          destruct (foldM method (walk_expr e) s); [cbn|reflexivity];
          rewrite ?foldM_app, ?visit_expr_walk, ?visit_exprs_walk, ?visit_opt_walk
      | |- context [foldM method (flat_map walk_expr ?e) ?s] =>
          destruct (foldM method (flat_map walk_expr e) s); [cbn|reflexivity];
          rewrite ?foldM_app, ?visit_expr_walk, ?visit_exprs_walk, ?visit_opt_walk
      end; try done;
    rewrite ?foldM_flat_map.
  - apply foldM_ext. induction body; constructor; [apply IH|assumption].
  - apply foldM_ext. induction body; constructor; [apply IH|assumption].
  - apply foldM_ext. induction body; constructor; [apply IH|assumption].
  - rewrite (foldM_ext (visit_stmt method) (fun x st => foldM method (walk_stmt x) st) body)
      by (induction body; constructor; [apply IH|assumption]).
    destruct (foldM _ body _); [cbn|reflexivity].
    rewrite ?foldM_flat_map. apply foldM_ext. induction orelse; constructor; [apply IH|assumption].
  - rewrite (foldM_ext (visit_stmt method) (fun x st => foldM method (walk_stmt x) st) body)
      by (induction body; constructor; [apply IH|assumption]).
    destruct (foldM _ body _); [cbn|reflexivity].
    rewrite ?foldM_flat_map. apply foldM_ext. induction orelse; constructor; [apply IH|assumption].
  - rewrite (foldM_ext (visit_stmt method) (fun x st => foldM method (walk_stmt x) st) body)
      by (induction body; constructor; [apply IH|assumption]).
    destruct (foldM _ body _); [cbn|reflexivity].
    rewrite ?foldM_flat_map. apply foldM_ext. induction orelse; constructor; [apply IH|assumption].
Qed.

Lemma visit_walk (n : node) (st : S) : visit method n st = foldM method (walk n) st.
Proof.
  destruct n as [body|s|e]; [|apply visit_stmt_walk|apply visit_expr_walk].
  cbn [visit walk foldM]. destruct (method _ st); [cbn|reflexivity].
  rewrite foldM_flat_map. apply foldM_ext, Forall_forall.
  intros s _ st'. apply visit_stmt_walk.
Qed.

End VisitWalk.

Lemma foldM_appends {A B} (f : A -> list B -> result (list B)) (l : list A) (ps : list B) :
  appends f ->
  foldM f l ps = (news ← mapM (fun x => f x []) l; Ok (ps ++ concat news)).
Proof.
  intros Hf. revert ps. induction l as [|x l IH]; intros ps; cbn.
  - by rewrite app_nil_r.
  - rewrite (Hf x ps). destruct (f x []) as [new|]; cbn; [|done].
    rewrite IH. destruct (mapM _ l); cbn; [|done]. by rewrite app_assoc.
Qed.

Lemma foldM_appends_nil {A B} (f : A -> list B -> result (list B)) (l : list A) :
  appends f -> foldM f l [] = (news ← mapM (fun x => f x []) l; Ok (concat news)).
Proof. intros Hf. by rewrite foldM_appends. Qed.

(** ** The cheating detector *)

Section CheatingProperties.

Import Ast Cheating.

Variable read_text : string -> result string.
Variable parse : string -> result (list stmt).
Variable unparse : expr -> string.
Variable repr : constant -> string.

Local Abbreviation HardcodeDetector := (Cheating.HardcodeDetector unparse).
Local Abbreviation LookupDetector := (Cheating.LookupDetector unparse).
Local Abbreviation detect_hardcoded_returns :=
  (Cheating.detect_hardcoded_returns read_text parse unparse).
Local Abbreviation detect_lookup_tables :=
  (Cheating.detect_lookup_tables read_text parse unparse).
Local Abbreviation detect_excessive_conditionals :=
  (Cheating.detect_excessive_conditionals read_text parse).
Local Abbreviation detect_test_environment_checks :=
  (Cheating.detect_test_environment_checks read_text).
Local Abbreviation detect_cheating :=
  (Cheating.detect_cheating read_text parse unparse repr).
Local Abbreviation main := (Cheating.main read_text parse unparse repr).

(** What a detector built on a visitor returns: the findings of its method
    at each node of the tree, in the order of the walk. *)
Lemma visit_appends (m : node -> list CheatingPattern -> result (list CheatingPattern))
    (tree : list stmt) :
  appends m ->
  visit m (NModule tree) [] = (news ← mapM (fun n => m n []) (walk (NModule tree)); Ok (concat news)).
Proof. intros Hm. rewrite visit_walk. by apply foldM_appends_nil. Qed.

(** *** Hardcoded returns *)

Lemma mentions_input_spec tv test :
  mentions_input unparse tv test = true <-> guard_mentions_input unparse tv test.
Proof.
  unfold mentions_input, guard_mentions_input. rewrite existsb_exists.
  split; intros (inp & Hin & Hc); exists inp.
  - apply list_elem_of_In, elem_of_elements in Hin. by apply contains_spec in Hc.
  - split; [by apply list_elem_of_In, elem_of_elements|by apply contains_spec].
Qed.

Lemma hit_spec tv body :
  omap (hit unparse tv) body <> [] <-> returns_test_output unparse tv body.
Proof.
  unfold returns_test_output. induction body as [|s body IH].
  - split; [done|]. intros (v & H & _). by apply elem_of_nil in H.
  - cbn [omap list_omap]. destruct (hit unparse tv s) as [r|] eqn:Hs.
    + split; [|done]. intros _. destruct s as [| | |[v|]| | | | | | | |]; try done.
      cbn in Hs. case_bool_decide; [|done]. exists v. split; [by left|done].
    + rewrite IH. split; intros (v & Hv & Ho); exists v; (split; [|done]).
      * by right.
      * apply elem_of_cons in Hv as [<-|Hv]; [|done].
        cbn in Hs. by rewrite bool_decide_eq_true_2 in Hs.
Qed.

Lemma HardcodeDetector_appends impl_file lines tv :
  appends (HardcodeDetector impl_file lines tv).
Proof.
  intros n ps. destruct n as [|s|]; try by (cbn; rewrite app_nil_r).
  destruct s; try by (cbn; rewrite app_nil_r).
  unfold Cheating.HardcodeDetector.
  match goal with |- foldM ?f _ _ = _ => assert (Hf : appends f) end.
  { intros st qs. destruct st as [| | |[v|]| | | | | | | |]; try by (cbn; rewrite app_nil_r).
    case_bool_decide; [|by (cbn; rewrite app_nil_r)].
    destruct (existsb _ _); [|by (cbn; rewrite app_nil_r)].
    destruct (Py.index _ _); cbn; done. }
  rewrite (foldM_appends _ body ps Hf), (foldM_appends _ body [] Hf).
  destruct (mapM _ _); done.
Qed.

Lemma HardcodeDetector_If impl_file lines tv test body orelse lineno l :
  Py.index lines (lineno - 1) = Some l ->
  HardcodeDetector impl_file lines tv (NStmt (If test body orelse lineno)) []
  = Ok (if mentions_input unparse tv test
        then map (hardcoded_finding impl_file lineno l) (omap (hit unparse tv) body)
        else []).
Proof.
  intros Hl. unfold Cheating.HardcodeDetector. fold (mentions_input unparse tv test).
  rewrite Hl.
  assert (H : forall ps,
    foldM (fun stmt patterns =>
             match stmt with
             | Return (Some value) =>
                 if bool_decide (unparse value ∈ outputs tv) then
                   if mentions_input unparse tv test then
                     Ok (patterns ++ [hardcoded_finding impl_file lineno l (unparse value)])
                   else Ok patterns
                 else Ok patterns
             | _ => Ok patterns
             end) body ps
    = Ok (ps ++ if mentions_input unparse tv test
                then map (hardcoded_finding impl_file lineno l) (omap (hit unparse tv) body)
                else [])).
  { induction body as [|s body IH]; intros ps; cbn [foldM].
    - cbn. destruct (mentions_input unparse tv test); by rewrite app_nil_r.
    - destruct s as [| | |[v|]| | | | | | | |]; cbn [omap list_omap hit]; try apply IH.
      case_bool_decide; [|apply IH].
      destruct (mentions_input unparse tv test) eqn:Hm; [|apply IH].
      rewrite IH. cbn. by rewrite <- app_assoc. }
  apply (H []).
Qed.

Lemma HardcodeDetector_other impl_file lines tv n :
  is_If n = false -> HardcodeDetector impl_file lines tv n [] = Ok [].
Proof. destruct n as [|s|]; [done| |done]. by destruct s. Qed.

Lemma detect_hardcoded_returns_walk impl_file tv content tree :
  read_text impl_file = Ok content -> parse content = Ok tree ->
  detect_hardcoded_returns impl_file tv
  = (news ← mapM (fun n => HardcodeDetector impl_file (Py.split_lines content) tv n [])
              (walk (NModule tree));
     Ok (concat news)).
Proof.
  intros Hr Hp. unfold Cheating.detect_hardcoded_returns.
  rewrite Hr, bind_Ok. cbv beta zeta. rewrite Hp, bind_Ok.
  apply visit_appends, HardcodeDetector_appends.
Qed.

(** C5. At a conditional whose line exists, the hardcoded-return detector
    emits at least one finding exactly when some return that is a direct
    statement of the then-branch returns an expression whose source text is
    a test output and the source text of the guard contains some test input
    as a substring; what it emits are high-severity hardcoded_return
    findings at the line of the conditional.  It emits nothing at other
    nodes, and the detector's result is what it emits at the nodes of the
    tree, in order.  With input 5 and output 25 the program
    [if x == 5: return 25] gets exactly one finding, and none when it
    returns 24. *)
Theorem hardcoded_return_finding_iff
    (impl_file : string) (lines : list string) (tv : test_values)
    (test : expr) (body orelse : list stmt) (lineno : Z) (l : string) :
  Py.index lines (lineno - 1) = Some l ->
  exists new,
    HardcodeDetector impl_file lines tv (NStmt (If test body orelse lineno)) [] = Ok new
    /\ (new <> [] <-> returns_test_output unparse tv body /\ guard_mentions_input unparse tv test)
    /\ (forall p, p ∈ new ->
          pattern_type p = "hardcoded_return" /\ severity p = "high" /\ line p = lineno)
    /\ (forall n, is_If n = false -> HardcodeDetector impl_file lines tv n [] = Ok [])
    /\ (forall content tree,
          read_text impl_file = Ok content -> parse content = Ok tree ->
          detect_hardcoded_returns impl_file tv
          = (news ← mapM (fun n => HardcodeDetector impl_file (Py.split_lines content) tv n [])
                      (walk (NModule tree));
             Ok (concat news)))
    /\ Cheating.detect_hardcoded_returns Demo.disk Demo.python Unparse.unparse
         "square.py" {| inputs := {["5"]}; outputs := {["25"]} |}
       = Ok [hardcoded_finding "square.py" 1 "if x == 5: return 25" "25"]
    /\ Cheating.detect_hardcoded_returns Demo.disk Demo.python Unparse.unparse
         "square24.py" {| inputs := {["5"]}; outputs := {["25"]} |}
       = Ok [].
Proof.
  intros Hl. eexists. split; [by apply HardcodeDetector_If|].
  split; [|split; [|split; [|split; [|split]]]].
  - rewrite <- hit_spec, <- mentions_input_spec.
    destruct (mentions_input unparse tv test).
    + split; [|intros [H _]].
      * intros H. split; [|done]. intros Hnil. by rewrite Hnil in H.
      * intros Hnil. by apply fmap_nil_inv in Hnil.
    + split; [done|]. by intros [_ ?].
  - intros p Hp. destruct (mentions_input unparse tv test); [|by apply elem_of_nil in Hp].
    apply list_elem_of_fmap in Hp as (r & -> & _). done.
  - intros n. apply HardcodeDetector_other.
  - apply detect_hardcoded_returns_walk.
  - by vm_compute.
  - by vm_compute.
Qed.

(** *** Lookup tables *)

Lemma key_matches_spec tv keys :
  Cheating.key_matches unparse tv keys = Z.of_nat (length (matching_keys unparse tv keys)).
Proof.
  unfold Cheating.key_matches, matching_keys.
  assert (H : forall acc,
    foldl (fun n key =>
             match key with
             | Some k => if bool_decide (unparse k ∈ inputs tv) then n + 1 else n
             | None => n
             end) acc keys
    = acc + Z.of_nat (length (List.filter (fun k => bool_decide (unparse k ∈ inputs tv))
                                (omap id keys)))).
  { induction keys as [|[k|] keys IH]; intros acc; cbn [foldl omap list_omap List.filter].
    - cbn. lia.
    - cbn [id List.filter]. rewrite IH. destruct (bool_decide _); cbn [length]; lia.
    - apply IH. }
  apply H.
Qed.

Lemma LookupDetector_appends impl_file lines tv :
  appends (LookupDetector impl_file lines tv).
Proof.
  intros n ps. destruct n as [| |e]; try by (cbn; rewrite app_nil_r).
  destruct e; try by (cbn; rewrite app_nil_r).
  unfold Cheating.LookupDetector. destruct (2 <=? _); [|by (cbn; rewrite app_nil_r)].
  destruct (Py.index _ _); cbn; done.
Qed.

Lemma LookupDetector_other impl_file lines tv n :
  is_Dict n = false -> LookupDetector impl_file lines tv n [] = Ok [].
Proof. destruct n as [| |e]; [done|done|]. by destruct e. Qed.

Lemma detect_lookup_tables_walk impl_file tv content tree :
  read_text impl_file = Ok content -> parse content = Ok tree ->
  detect_lookup_tables impl_file tv
  = (news ← mapM (fun n => LookupDetector impl_file (Py.split_lines content) tv n [])
              (walk (NModule tree));
     Ok (concat news)).
Proof.
  intros Hr Hp. unfold Cheating.detect_lookup_tables.
  rewrite Hr, bind_Ok. cbv beta zeta. rewrite Hp, bind_Ok.
  apply visit_appends, LookupDetector_appends.
Qed.

(** C6 as amended. At a dict display whose line exists, the lookup-table
    detector emits nothing when fewer than two keys (so also when exactly
    one key) have a source text that is a test input, and exactly one
    high-severity lookup_table finding when two or more do; the snippet of
    the finding is the first line of the display with the surrounding
    whitespace removed, cut to 80 characters. *)
Theorem lookup_table_finding
    (impl_file : string) (lines : list string) (tv : test_values)
    (keys : list (option expr)) (values : list expr) (lineno : Z) (l : string) :
  Py.index lines (lineno - 1) = Some l ->
  ((length (matching_keys unparse tv keys) < 2)%nat ->
     LookupDetector impl_file lines tv (NExpr (Dict keys values lineno)) [] = Ok [])
  /\ ((2 <= length (matching_keys unparse tv keys))%nat ->
      exists p,
        LookupDetector impl_file lines tv (NExpr (Dict keys values lineno)) [] = Ok [p]
        /\ pattern_type p = "lookup_table" /\ severity p = "high" /\ line p = lineno
        /\ code_snippet p = Py.take 80 (Py.strip l))
  /\ (forall n, is_Dict n = false -> LookupDetector impl_file lines tv n [] = Ok [])
  /\ (forall content tree,
        read_text impl_file = Ok content -> parse content = Ok tree ->
        detect_lookup_tables impl_file tv
        = (news ← mapM (fun n => LookupDetector impl_file (Py.split_lines content) tv n [])
                    (walk (NModule tree));
           Ok (concat news))).
Proof.
  intros Hl. unfold Cheating.LookupDetector at 1 2. rewrite key_matches_spec, Hl.
  split; [|split; [|split]].
  - intros Hlt. destruct (Z.leb_spec 2 (Z.of_nat (length (matching_keys unparse tv keys)))); [lia|done].
  - intros Hge. destruct (Z.leb_spec 2 (Z.of_nat (length (matching_keys unparse tv keys)))); [|lia].
    eexists. split; [reflexivity|done].
  - intros n. apply LookupDetector_other.
  - apply detect_lookup_tables_walk.
Qed.

End CheatingProperties.

Lemma hardcoded_return_finding_iff_witness :
  exists new,
    Cheating.HardcodeDetector Unparse.unparse "square.py" ["if x == 5: return 25"]
      {| Cheating.inputs := {["5"]}; Cheating.outputs := {["25"]} |}
      (Ast.NStmt (Ast.If (Demo.x_is 5) [Ast.Return (Some (Demo.num 25))] [] 1)) [] = Ok new
    /\ new <> [].
Proof.
  destruct (hardcoded_return_finding_iff Demo.disk Demo.python Unparse.unparse
              "square.py" ["if x == 5: return 25"]
              {| Cheating.inputs := {["5"]}; Cheating.outputs := {["25"]} |}
              (Demo.x_is 5) [Ast.Return (Some (Demo.num 25))] [] 1
              "if x == 5: return 25" eq_refl)
    as (new & Hnew & Hiff & _).
  exists new. split; [exact Hnew|]. apply Hiff. split.
  - exists (Demo.num 25). split; [by left|].
    change ("25" ∈ ({["25"]} : gset string)). by apply elem_of_singleton.
  - exists "5". split.
    + change ("5" ∈ ({["5"]} : gset string)). by apply elem_of_singleton.
    + by exists "x == ", EmptyString.
Defined.

Lemma lookup_table_finding_witness :
  exists p,
    Cheating.LookupDetector Unparse.unparse "lookup.py" (Py.split_lines Demo.lookup_src)
      {| Cheating.inputs := {["1"; "2"]}; Cheating.outputs := {["'a'"; "'b'"]} |}
      (Ast.NExpr (Ast.Dict [Some (Demo.num 1); Some (Demo.num 2)]
                    [Ast.Constant (Ast.CStr "a"); Ast.Constant (Ast.CStr "b")] 2)) []
    = Ok [p]
    /\ Cheating.code_snippet p = "return {1: 'a', 2: 'b'}[x]".
Proof.
  destruct (lookup_table_finding Demo.disk Demo.python Unparse.unparse
              "lookup.py" (Py.split_lines Demo.lookup_src)
              {| Cheating.inputs := {["1"; "2"]}; Cheating.outputs := {["'a'"; "'b'"]} |}
              [Some (Demo.num 1); Some (Demo.num 2)]
              [Ast.Constant (Ast.CStr "a"); Ast.Constant (Ast.CStr "b")] 2
              "    return {1: 'a', 2: 'b'}[x]" eq_refl)
    as (_ & H & _).
  destruct H as (p & Hp & _ & _ & _ & Hs).
  - by vm_compute.
  - exists p. split; [exact Hp|]. rewrite Hs. reflexivity.
Defined.

(** C6, the claim as stated fails: the display of [lookup.py] starts on
    an indented line, and the snippet of its finding is not the first 80
    characters of that line. *)
Lemma lookup_snippet_is_not_the_cut_line :
  exists p l,
    Cheating.detect_lookup_tables Demo.disk Demo.python Unparse.unparse "lookup.py"
      {| Cheating.inputs := {["1"; "2"]}; Cheating.outputs := {["'a'"; "'b'"]} |} = Ok [p]
    /\ Py.index (Py.split_lines Demo.lookup_src) (Cheating.line p - 1) = Some l
    /\ Cheating.code_snippet p <> Py.take 80 l.
Proof.
  eexists _, _. split; [by vm_compute|]. split; [by vm_compute|]. by vm_compute.
Qed.

Section CheatingReports.

Import Ast Cheating.

Variable read_text : string -> result string.
Variable parse : string -> result (list stmt).
Variable unparse : expr -> string.
Variable repr : constant -> string.

Local Abbreviation detect_excessive_conditionals :=
  (Cheating.detect_excessive_conditionals read_text parse).
Local Abbreviation detect_test_environment_checks :=
  (Cheating.detect_test_environment_checks read_text).
Local Abbreviation detect_cheating :=
  (Cheating.detect_cheating read_text parse unparse repr).
Local Abbreviation main := (Cheating.main read_text parse unparse repr).

(** *** Test-environment detection *)

Lemma scan_lines_spec impl_file lines :
  scan_lines impl_file lines = flat_map (findings_of_line impl_file) (Py.enumerate 1 lines).
Proof.
  unfold scan_lines, findings_of_line, matching_descriptions.
  generalize test_detection_patterns as table. intros table.
  generalize 1 as start.
  assert (Hin : forall i line (tbl : list (Re.regex * string)) acc,
    foldl (fun patterns '(pattern, description) =>
             if Re.search true pattern line
             then patterns ++ [test_detection_finding impl_file i line description]
             else patterns) acc tbl
    = acc ++ map (test_detection_finding impl_file i line)
               (map snd (List.filter (fun pd => Re.search true (fst pd) line) tbl))).
  { intros i line tbl. induction tbl as [|[pat d] tbl IH]; intros acc; cbn [foldl].
    - cbn. by rewrite app_nil_r.
    - cbn [List.filter fst]. rewrite IH. destruct (Re.search true pat line); [|done].
      cbn. by rewrite <- app_assoc. }
  assert (Hout : forall start acc,
    foldl (fun patterns '(i, line) =>
             foldl (fun patterns '(pattern, description) =>
                      if Re.search true pattern line
                      then patterns ++ [test_detection_finding impl_file i line description]
                      else patterns) patterns table)
          acc (Py.enumerate start lines)
    = acc ++ flat_map (fun il => map (test_detection_finding impl_file (fst il) (snd il))
                                   (map snd (List.filter
                                      (fun pd => Re.search true (fst pd) (snd il)) table)))
               (Py.enumerate start lines)).
  { induction lines as [|x lines IH]; intros start acc; cbn [Py.enumerate foldl flat_map].
    - by rewrite app_nil_r.
    - rewrite Hin, IH. cbn [fst snd]. by rewrite <- app_assoc. }
  intros start. apply (Hout start []).
Qed.

Lemma findings_of_line_line impl_file il p :
  p ∈ findings_of_line impl_file il ->
  line p = fst il /\ severity p = "high" /\ pattern_type p = "test_detection"
  /\ code_snippet p = Py.strip (snd il) /\ description p ∈ matching_descriptions (snd il).
Proof.
  unfold findings_of_line. intros (d & -> & Hd)%list_elem_of_fmap. done.
Qed.

Lemma filter_none {A} (f : A -> bool) (l : list A) :
  (forall x, x ∈ l -> f x = false) -> List.filter f l = [].
Proof.
  induction l as [|x l IH]; intros H; [done|]. cbn.
  rewrite (H x) by by left. apply IH. intros y Hy. apply H. by right.
Qed.

Lemma filter_all {A} (f : A -> bool) (l : list A) :
  (forall x, x ∈ l -> f x = true) -> List.filter f l = l.
Proof.
  induction l as [|x l IH]; intros H; [done|]. cbn.
  rewrite (H x) by by left. f_equal. apply IH. intros y Hy. apply H. by right.
Qed.

Lemma enumerate_lower_bound impl_file (lines : list string) start p :
  p ∈ flat_map (findings_of_line impl_file) (Py.enumerate start lines) -> start <= line p.
Proof.
  revert start. induction lines as [|x lines IH]; intros start; cbn [Py.enumerate flat_map].
  - intros H. by apply elem_of_nil in H.
  - rewrite elem_of_app. intros [H|H].
    + apply findings_of_line_line in H as [-> _]. cbn. lia.
    + apply IH in H. lia.
Qed.

Lemma findings_at_line impl_file (lines : list string) start i text :
  lines !! i = Some text ->
  findings_at (start + Z.of_nat i)
    (flat_map (findings_of_line impl_file) (Py.enumerate start lines))
  = findings_of_line impl_file (start + Z.of_nat i, text).
Proof.
  unfold findings_at. revert start i.
  induction lines as [|x lines IH]; intros start i Hi; [by rewrite lookup_nil in Hi|].
  cbn [Py.enumerate flat_map]. rewrite List.filter_app. destruct i as [|i].
  - injection Hi as ->. rewrite Z.add_0_r.
    rewrite (filter_all _ (findings_of_line impl_file (start, text))).
    + rewrite filter_none; [by rewrite app_nil_r|].
      intros p Hp%enumerate_lower_bound. apply Z.eqb_neq. lia.
    + intros p Hp%findings_of_line_line. destruct Hp as [-> _]. apply Z.eqb_eq. done.
  - rewrite (filter_none _ (findings_of_line impl_file (start, x))).
    + replace (start + Z.of_nat (S i)) with ((start + 1) + Z.of_nat i) by lia.
      by apply IH.
    + intros p Hp%findings_of_line_line. destruct Hp as [-> _]. apply Z.eqb_neq. cbn. lia.
Qed.

(** C7 as amended. The test-environment detector reports, for the lines of
    the text in order and for each line the patterns of the table in order,
    one high-severity test_detection finding per pattern the line matches,
    with that pattern's description, the line's number and the trimmed
    line: a line has as many findings as patterns it matches (none when it
    matches none, one when it matches exactly one). *)
Theorem test_environment_findings (impl_file content : string) :
  read_text impl_file = Ok content ->
  exists found,
    detect_test_environment_checks impl_file = Ok found
    /\ found = flat_map (findings_of_line impl_file) (Py.enumerate 1 (Py.split_lines content))
    /\ (forall i text,
          Py.split_lines content !! i = Some text ->
          findings_at (Z.of_nat i + 1) found
          = map (test_detection_finding impl_file (Z.of_nat i + 1) text)
                (matching_descriptions text))
    /\ (forall p, p ∈ found -> severity p = "high" /\ pattern_type p = "test_detection").
Proof using read_text.
  intros Hr. eexists. unfold Cheating.detect_test_environment_checks.
  rewrite Hr, bind_Ok, scan_lines_spec. split; [reflexivity|]. split; [reflexivity|]. split.
  - intros i text Hi. rewrite (Z.add_comm (Z.of_nat i) 1).
    by rewrite (findings_at_line _ _ _ _ _ Hi).
  - intros p (il & _ & Hp)%list_elem_of_In%in_flat_map.
    apply list_elem_of_In, findings_of_line_line in Hp.
    destruct Hp as (_ & Hs & Ht & _). done.
Qed.

(** *** Excessive conditionals *)

Lemma gt_third_spec (count span : Z) :
  gt_third count span = true <-> (inject_Z span / inject_Z 3 < inject_Z count)%Q.
Proof.
  unfold gt_third. rewrite negb_true_iff, <- not_true_iff_false, Qle_bool_iff.
  split; [apply Qnot_le_lt|apply Qlt_not_le].
Qed.

Lemma third_lt_iff (count span : Z) :
  (inject_Z span / inject_Z 3 < inject_Z count)%Q <-> span < 3 * count.
Proof. unfold Qlt. cbn. lia. Qed.

Lemma if_count_spec n : if_count n = conditionals n.
Proof. apply sum_ones_length. Qed.

Lemma ConditionalCounter_appends impl_file : appends (ConditionalCounter impl_file).
Proof.
  intros n ps. destruct n as [|s|]; try by (cbn; rewrite app_nil_r).
  destruct s; try by (cbn; rewrite app_nil_r).
  unfold ConditionalCounter. destruct (_ && _); cbn; [done|by rewrite app_nil_r].
Qed.

Lemma ConditionalCounter_FunctionDef impl_file name body lineno end_lineno :
  let f := NStmt (FunctionDef name body lineno end_lineno) in
  ConditionalCounter impl_file f []
  = Ok (if bool_decide (5 < conditionals f /\ end_lineno - lineno < 3 * conditionals f)
        then [excessive_finding impl_file name lineno (conditionals f) (end_lineno - lineno)]
        else []).
Proof.
  intros f. unfold ConditionalCounter, f. rewrite if_count_spec. fold f.
  destruct (5 <? conditionals f) eqn:H5; cbn [andb].
  - apply Z.ltb_lt in H5. destruct (gt_third _ _) eqn:Hg.
    + apply gt_third_spec, third_lt_iff in Hg. by rewrite bool_decide_eq_true_2.
    + rewrite bool_decide_eq_false_2; [done|]. intros [_ H].
      apply third_lt_iff, gt_third_spec in H. congruence.
  - apply Z.ltb_ge in H5. rewrite bool_decide_eq_false_2; [done|]. lia.
Qed.

(** C8. The detector measures a function by [end_lineno - lineno], which
    is one less than its number of lines, and reports that number as the
    function's lines.  A function written on lines 1 to 18 with six
    conditionals is flagged, as having 6 conditionals in 17 lines, although
    six does not exceed a third of its 18 lines.  At every [def] the
    detector emits one medium-severity finding exactly when the number of
    conditional statements nested anywhere in the function is more than 5
    and more than a third of [end_lineno - lineno], and nothing otherwise;
    six conditionals in a function of nine lines are flagged and five are
    not.  An [async def] is not examined at all: six conditionals in nine
    lines are not flagged there. *)
Theorem excessive_conditionals_span_is_one_short :
  Cheating.detect_excessive_conditionals Demo.disk Demo.python "eighteen.py"
  = Ok [excessive_finding "eighteen.py" "f" 1 6 17]
  /\ description (excessive_finding "eighteen.py" "f" 1 6 17)
     = "Function 'f' has 6 conditionals in 17 lines"
  /\ length (Py.split_lines Demo.eighteen_src) = 18%nat
  /\ conditionals (NStmt (FunctionDef "f" Demo.eighteen_body 1 18)) = 6
  /\ ~ (inject_Z 18 / inject_Z 3 < inject_Z 6)%Q
  /\ (forall impl_file name body lineno end_lineno,
        let f := NStmt (FunctionDef name body lineno end_lineno) in
        let count := conditionals f in
        let span := end_lineno - lineno in
        (5 < count /\ (inject_Z span / inject_Z 3 < inject_Z count)%Q ->
         ConditionalCounter impl_file f []
         = Ok [excessive_finding impl_file name lineno count span])
        /\ (~ (5 < count /\ (inject_Z span / inject_Z 3 < inject_Z count)%Q) ->
            ConditionalCounter impl_file f [] = Ok [])
        /\ severity (excessive_finding impl_file name lineno count span) = "medium")
  /\ Cheating.detect_excessive_conditionals Demo.disk Demo.python "six.py"
     = Ok [excessive_finding "six.py" "f" 1 6 8]
  /\ Cheating.detect_excessive_conditionals Demo.disk Demo.python "five.py" = Ok []
  /\ (forall impl_file name body lineno end_lineno,
        ConditionalCounter impl_file
          (NStmt (AsyncFunctionDef name body lineno end_lineno)) [] = Ok [])
  /\ Cheating.detect_excessive_conditionals Demo.disk Demo.python "async_six.py" = Ok [].
Proof.
  do 4 (split; [by vm_compute|]).
  split; [rewrite third_lt_iff; lia|].
  split.
  { intros impl_file name body lineno end_lineno f count span.
    subst count span f. rewrite ConditionalCounter_FunctionDef. cbv zeta.
    rewrite third_lt_iff. split_and!.
    - intros H. by rewrite bool_decide_eq_true_2.
    - intros H. by rewrite bool_decide_eq_false_2.
    - done. }
  do 2 (split; [by vm_compute|]).
  split; [done|]. by vm_compute.
Qed.

(** *** Reports *)

Lemma count_severity_spec sev ps :
  count_severity sev ps
  = Z.of_nat (length (List.filter (fun p => String.eqb (severity p) sev) ps)).
Proof. apply sum_ones_length. Qed.

Lemma severity_counts_sum ps :
  Forall severity_known ps ->
  count_severity "high" ps + count_severity "medium" ps + count_severity "low" ps
  = Z.of_nat (length ps)
  /\ count_severity "low" ps = 0.
Proof.
  rewrite !count_severity_spec. induction 1 as [|p ps Hp _ [IH1 IH2]]; [done|].
  cbn [List.filter length]. destruct Hp as [-> | ->]; cbn; lia.
Qed.

Lemma visit_Forall (P : CheatingPattern -> Prop)
    (m : node -> list CheatingPattern -> result (list CheatingPattern)) tree ps :
  (forall n st st', Forall P st -> m n st = Ok st' -> Forall P st') ->
  visit m (NModule tree) [] = Ok ps -> Forall P ps.
Proof.
  intros Hm. rewrite visit_walk. by apply foldM_invariant.
Qed.

Lemma HardcodeDetector_severity impl_file lines tv n st st' :
  Forall severity_known st ->
  Cheating.HardcodeDetector unparse impl_file lines tv n st = Ok st' ->
  Forall severity_known st'.
Proof.
  intros Hst. destruct n as [|s|]; try by intros [= <-].
  destruct s; try by intros [= <-].
  unfold Cheating.HardcodeDetector. revert Hst. apply foldM_invariant.
  intros x ps ps' Hps. destruct x as [| | |[v|]| | | | | | | |]; try by intros [= <-].
  case_bool_decide; [|by intros [= <-]].
  destruct (existsb _ _); [|by intros [= <-]].
  destruct (Py.index _ _); [|done]. intros [= <-].
  apply Forall_app. split; [done|]. constructor; [by left|done].
Qed.

Lemma LookupDetector_severity impl_file lines tv n st st' :
  Forall severity_known st ->
  Cheating.LookupDetector unparse impl_file lines tv n st = Ok st' ->
  Forall severity_known st'.
Proof.
  intros Hst. destruct n as [| |e]; try by intros [= <-].
  destruct e; try by intros [= <-].
  unfold Cheating.LookupDetector. destruct (2 <=? _); [|by intros [= <-]].
  destruct (Py.index _ _); [|done]. intros [= <-].
  apply Forall_app. split; [done|]. constructor; [by left|done].
Qed.

Lemma ConditionalCounter_severity impl_file n st st' :
  Forall severity_known st ->
  ConditionalCounter impl_file n st = Ok st' ->
  Forall severity_known st'.
Proof.
  intros Hst. destruct n as [|s|]; try by intros [= <-].
  destruct s; try by intros [= <-].
  unfold ConditionalCounter. destruct (_ && _); [|by intros [= <-]]. intros [= <-].
  apply Forall_app. split; [done|]. constructor; [by right|done].
Qed.

Lemma scan_lines_severity impl_file lines :
  Forall severity_known (scan_lines impl_file lines).
Proof.
  rewrite scan_lines_spec. apply Forall_forall.
  intros p (il & _ & Hp)%list_elem_of_In%in_flat_map.
  apply list_elem_of_In, findings_of_line_line in Hp.
  destruct Hp as (_ & Hs & _). by left.
Qed.

(** Every finding of the tool is of high or of medium severity. *)
Lemma detect_cheating_severity impl_file test_file ps :
  detect_cheating impl_file test_file = Ok ps -> Forall severity_known ps.
Proof.
  unfold Cheating.detect_cheating.
  destruct (extract_test_values _ _ _ _) as [tv|]; [rewrite bind_Ok|done].
  destruct (detect_hardcoded_returns _ _ _ _ _) as [p1|] eqn:H1; [rewrite bind_Ok|done].
  destruct (detect_lookup_tables _ _ _ _ _) as [p2|] eqn:H2; [rewrite bind_Ok|done].
  destruct (Cheating.detect_test_environment_checks _ _) as [p3|] eqn:H3;
    [rewrite bind_Ok|done].
  destruct (Cheating.detect_excessive_conditionals _ _ _) as [p4|] eqn:H4;
    [rewrite bind_Ok|done].
  intros [= <-]. rewrite ?app_nil_l, !Forall_app. split_and!.
  - unfold detect_hardcoded_returns in H1.
    destruct (read_text impl_file); [rewrite bind_Ok in H1|done]. cbv zeta in H1.
    destruct (parse _); [rewrite bind_Ok in H1|done].
    eapply visit_Forall; [|exact H1]. apply HardcodeDetector_severity.
  - unfold detect_lookup_tables in H2.
    destruct (read_text impl_file); [rewrite bind_Ok in H2|done]. cbv zeta in H2.
    destruct (parse _); [rewrite bind_Ok in H2|done].
    eapply visit_Forall; [|exact H2]. apply LookupDetector_severity.
  - unfold Cheating.detect_test_environment_checks in H3.
    destruct (read_text impl_file); [rewrite bind_Ok in H3|done].
    injection H3 as <-. apply scan_lines_severity.
  - unfold Cheating.detect_excessive_conditionals in H4.
    destruct (read_text impl_file); [rewrite bind_Ok in H4|done].
    destruct (parse _); [rewrite bind_Ok in H4|done].
    eapply visit_Forall; [|exact H4]. apply ConditionalCounter_severity.
Qed.

(** C9. In every structured report the tool prints, whatever the files,
    [clean] tells whether the list of findings is empty, and the three
    severity counts add up to the number of findings. *)
Theorem structured_report_invariant (argv : list string) (r : report) :
  Json r ∈ stdout (main argv) ->
  (clean r = true <-> length (patterns r) = 0%nat)
  /\ high_severity r + medium_severity r + low_severity r = Z.of_nat (length (patterns r))
  /\ detect_cheating (default EmptyString (argv !! 1%nat)) (default EmptyString (argv !! 2%nat))
     = Ok (patterns r).
Proof.
  unfold Cheating.main. destruct (_ <? 3).
  { cbn. intros H%list_elem_of_singleton. done. }
  destruct (Cheating.detect_cheating _ _ _ _ _ _) as [ps|] eqn:Hd.
  2:{ cbn. intros H. by apply elem_of_nil in H. }
  destruct (bool_decide _).
  - cbn [stdout]. intros H%list_elem_of_singleton. injection H as ->.
    cbn [clean patterns high_severity medium_severity low_severity].
    split; [rewrite Z.eqb_eq; lia|]. split; [|done].
    apply severity_counts_sum. by eapply detect_cheating_severity.
  - destruct ps as [|p ps]; cbn [stdout].
    + rewrite !elem_of_cons, elem_of_nil. intros [H|[H|[]]]; discriminate.
    + unfold narrative. rewrite !elem_of_app, !elem_of_cons, elem_of_nil.
      intros [[H|[H|[]]]|[H|H]]; try discriminate.
      * destruct (List.filter _ _); [by apply elem_of_nil in H|].
        apply elem_of_cons in H as [H|H]; [discriminate|].
        apply list_elem_of_In, in_flat_map in H as (q & _ & H). cbn in H.
        destruct H as [H|[H|[H|[]]]]; discriminate.
      * destruct (List.filter _ _); [by apply elem_of_nil in H|].
        apply elem_of_cons in H as [H|H]; [discriminate|].
        apply list_elem_of_In, in_flat_map in H as (q & _ & H). cbn in H.
        destruct H as [H|[H|[]]]; discriminate.
Qed.

(** C1 as amended. When both file arguments are given, the analysis
    completes and the narrative form is requested (no [--json] argument),
    the exit status is 1 if there is at least one finding, of whatever
    severity, and 0 if there is none. *)
Theorem narrative_exit_status (argv : list string) (ps : list CheatingPattern) :
  (3 <= length argv)%nat ->
  "--json" ∉ argv ->
  detect_cheating (default EmptyString (argv !! 1%nat)) (default EmptyString (argv !! 2%nat))
  = Ok ps ->
  (exit_status (main argv) = 1 <-> ps <> [])
  /\ (exit_status (main argv) = 0 <-> ps = []).
Proof.
  intros Hlen Hjson Hd. unfold Cheating.main.
  destruct (Z.ltb_spec (Z.of_nat (length argv)) 3); [lia|].
  rewrite Hd, bool_decide_eq_false_2 by done.
  destruct ps; cbn; split; split; done.
Qed.

End CheatingReports.

Lemma test_environment_findings_witness :
  exists found,
    Cheating.detect_test_environment_checks Demo.disk "sniff.py" = Ok found
    /\ findings_at 1 found = []
    /\ findings_at 2 found
       = map (test_detection_finding "sniff.py" 2
                "if 'pytest' in sys.modules or 'unittest' in sys.modules:")
             ["pytest module detection"; "unittest module detection"].
Proof.
  destruct (test_environment_findings Demo.disk "sniff.py" Demo.sniff_src eq_refl)
    as (found & Hf & _ & Hat & _).
  exists found. split; [exact Hf|]. split.
  - exact (Hat 0%nat "import sys" eq_refl).
  - exact (Hat 1%nat "if 'pytest' in sys.modules or 'unittest' in sys.modules:" eq_refl).
Defined.

(** C7, the claim as stated fails: the second line of [sniff.py] matches
    the table and gets two findings, not one. *)
Lemma one_matching_line_two_findings :
  exists found text,
    Cheating.detect_test_environment_checks Demo.disk "sniff.py" = Ok found
    /\ Py.split_lines Demo.sniff_src !! 1%nat = Some text
    /\ matching_descriptions text <> []
    /\ length (findings_at 2 found) = 2%nat
    /\ length (findings_at 2 found) <> 1%nat.
Proof.
  eexists _, _. split; [by vm_compute|]. split; [by vm_compute|].
  split; [by vm_compute|]. split; by vm_compute.
Qed.

Lemma structured_report_invariant_witness :
  exists r,
    Cheating.Json r ∈ Cheating.stdout
      (Demo.main ["detect_cheating.py"; "six.py"; "test_lookup.py"; "--json"])
    /\ Cheating.clean r = false
    /\ Cheating.medium_severity r = 1
    /\ ((Cheating.clean r = true <-> length (Cheating.patterns r) = 0%nat)
        /\ Cheating.high_severity r + Cheating.medium_severity r + Cheating.low_severity r
           = Z.of_nat (length (Cheating.patterns r))
        /\ Demo.detect_cheating "six.py" "test_lookup.py" = Ok (Cheating.patterns r)).
Proof.
  eexists. split; [vm_compute; constructor|]. split; [reflexivity|]. split; [reflexivity|].
  apply (structured_report_invariant Demo.disk Demo.python Unparse.unparse Unparse.repr
           ["detect_cheating.py"; "six.py"; "test_lookup.py"; "--json"]).
  vm_compute. constructor.
Defined.

Lemma narrative_exit_status_witness :
  Cheating.exit_status (Demo.main ["detect_cheating.py"; "six.py"; "test_lookup.py"]) = 1
  /\ Cheating.exit_status (Demo.main ["detect_cheating.py"; "five.py"; "test_lookup.py"]) = 0.
Proof.
  split.
  - apply (narrative_exit_status Demo.disk Demo.python Unparse.unparse Unparse.repr
             ["detect_cheating.py"; "six.py"; "test_lookup.py"]
             [excessive_finding "six.py" "f" 1 6 8]).
    + cbn. lia.
    + apply (bool_decide_unpack _). by vm_compute.
    + by vm_compute.
    + done.
  - apply (narrative_exit_status Demo.disk Demo.python Unparse.unparse Unparse.repr
             ["detect_cheating.py"; "five.py"; "test_lookup.py"] []).
    + cbn. lia.
    + apply (bool_decide_unpack _). by vm_compute.
    + by vm_compute.
    + done.
Defined.

(** C1, the claim as stated fails: asked for the structured form, the tool
    finds the medium-severity pattern of [six.py] and still ends with exit
    status 0. *)
Lemma json_exit_status_ignores_findings :
  exists ps,
    Demo.detect_cheating "six.py" "test_lookup.py" = Ok ps
    /\ ps <> []
    /\ Cheating.exit_status
         (Demo.main ["detect_cheating.py"; "six.py"; "test_lookup.py"; "--json"]) = 0.
Proof. eexists. split; [by vm_compute|]. split; [done|by vm_compute]. Qed.

(** * Further properties of the flaky detector *)

Set Default Proof Using "Type".

Lemma mapM_constant {A B} (f : A -> result B) (l : list A) (y : B) :
  (forall x, x ∈ l -> f x = Ok y) -> mapM f l = Ok (replicate (length l) y).
Proof.
  induction l as [|x l IH]; intros H; [done|].
  cbn. rewrite (H x) by by left. rewrite IH; [done|].
  intros x' Hx'. apply H. by right.
Qed.

Lemma assoc_runners_unknown spawn json_loads py_str fw :
  fw ∉ FlakyCli.choices ->
  Py.assoc fw (Flaky.runners spawn json_loads py_str) = None.
Proof.
  unfold FlakyCli.choices. rewrite !not_elem_of_cons. intros (H1 & H2 & H3 & _).
  cbn. by rewrite !(proj2 (String.eqb_neq _ _)) by done.
Qed.

Lemma union_of_keys_empty (all_results : list (gmap string string)) :
  Forall (fun results => results = ∅) all_results -> Flaky.union_of_keys all_results = ∅.
Proof.
  intros H. apply elem_of_equiv_empty_L. intros x Hx.
  apply elem_of_union_of_keys in Hx as (results & Hin & Hs).
  rewrite Forall_forall in H. rewrite (H _ Hin), lookup_empty in Hs. by destruct Hs.
Qed.

Lemma analyze_no_tests (all_results : list (gmap string string)) runs fw :
  Forall (fun results => results = ∅) all_results ->
  Flaky.analyze all_results runs fw = empty_report runs fw.
Proof.
  intros H. unfold Flaky.analyze. rewrite analyze_loop_spec, union_of_keys_empty by done.
  by rewrite elements_empty.
Qed.

Section FlakyFurther.

Variable spawn : nat -> list string -> Flaky.proc_outcome.
Variable json_loads : string -> option Flaky.pyval.
Variable py_str : Flaky.pyval -> string.
Variable glob : string -> string -> list string.
Variable path_exists : string -> bool.

Local Abbreviation run_pytest := (Flaky.run_pytest spawn).
Local Abbreviation run_cargo := (Flaky.run_cargo spawn).
Local Abbreviation run_jest := (Flaky.run_jest spawn json_loads py_str).
Local Abbreviation run_tests := (Flaky.run_tests spawn json_loads py_str).
Local Abbreviation collect := (Flaky.collect spawn json_loads py_str).
Local Abbreviation detect_flaky_tests :=
  (Flaky.detect_flaky_tests spawn json_loads py_str glob path_exists).
Local Abbreviation main := (FlakyCli.main spawn json_loads py_str glob path_exists).

(** X1. The auto-detected framework is always one of the three the tool
    can run, so it always has a runner; Python test files decide for pytest
    before anything else is looked at, and the answer does not depend on
    whether [pytest.ini] or [pyproject.toml] exist: of all paths only the
    existence of [Cargo.toml] can change it. *)
Theorem detect_framework_answer (path_exists' : string -> bool) (test_path : string) :
  let fw := Flaky.detect_framework glob path_exists test_path in
  fw ∈ FlakyCli.choices
  /\ (forall t p, run_tests fw t p = run_pytest t p
                  \/ run_tests fw t p = run_jest t p
                  \/ run_tests fw t p = run_cargo t p)
  /\ (glob test_path "**/test_*.py" <> [] \/ glob test_path "**/*_test.py" <> [] ->
      fw = "pytest")
  /\ (path_exists' "Cargo.toml" = path_exists "Cargo.toml" ->
      Flaky.detect_framework glob path_exists' test_path = fw).
Proof.
  intros fw. subst fw. unfold Flaky.detect_framework, FlakyCli.choices.
  split_and!.
  - repeat (destruct (_ || _) || destruct (path_exists _)); solve_set.
  - intros t p.
    repeat (destruct (_ || _) || destruct (path_exists _)); cbn; auto.
  - intros H. destruct (glob test_path "**/test_*.py"), (glob test_path "**/*_test.py");
      cbn; try (by destruct H); by destruct (_ || _).
  - intros ->.
    destruct (_ || _); [by destruct (_ || _), (_ || _)|]. done.
Qed.

(** X2. A framework name that is not one of the three makes every run
    raise ValueError naming it, before any child process is started; a
    session of at least one run then ends with that error. *)
Theorem unknown_framework_raises (fw test_path : string) (runs : Z) :
  fw ∉ FlakyCli.choices ->
  0 < runs ->
  (forall t, run_tests fw t test_path = Raise (ValueError ("Unknown framework: " +:+ fw)))
  /\ detect_flaky_tests test_path runs (Some fw)
     = Raise (ValueError ("Unknown framework: " +:+ fw)).
Proof.
  intros Hfw Hruns.
  assert (Hrun : forall t, run_tests fw t test_path
                           = Raise (ValueError ("Unknown framework: " +:+ fw))).
  { intros t. unfold Flaky.run_tests. by rewrite assoc_runners_unknown. }
  split; [exact Hrun|].
  unfold Flaky.detect_flaky_tests, Flaky.collect.
  destruct (Z.to_nat runs) as [|n] eqn:Hn; [lia|].
  cbn [seq mapM]. by rewrite Hrun.
Qed.

(** X3. With a run count of zero or less no test is run: whatever the
    framework, even an unknown one, the session ends with the report of no
    tests, which counts as stable, and the narrative form prints STABLE and
    exits with status 0. *)
Theorem no_runs_empty_report (test_path : string) (runs : Z) (framework : option string) :
  runs <= 0 ->
  let fw := match framework with
            | Some f => f
            | None => Flaky.detect_framework glob path_exists test_path
            end in
  detect_flaky_tests test_path runs framework = Ok (empty_report runs fw)
  /\ Flaky.is_stable (empty_report runs fw) = true
  /\ main {| FlakyCli.test_path := test_path; FlakyCli.runs := runs;
             FlakyCli.framework := framework; FlakyCli.json := false |}
     = {| FlakyCli.stdout :=
            [FlakyCli.Line "STABLE";
             FlakyCli.Line ("All 0 tests passed consistently across "
                              +:+ Py.str_int runs +:+ " runs.")];
          FlakyCli.exit_status := 0 |}.
Proof.
  intros Hruns fw.
  assert (Hd : detect_flaky_tests test_path runs framework = Ok (empty_report runs fw)).
  { unfold Flaky.detect_flaky_tests, Flaky.collect. fold fw.
    replace (Z.to_nat runs) with 0%nat by lia. cbn [seq mapM].
    rewrite bind_Ok. by rewrite analyze_no_tests. }
  split; [exact Hd|]. split; [done|].
  unfold FlakyCli.main. cbn [FlakyCli.test_path FlakyCli.runs FlakyCli.framework FlakyCli.json].
  rewrite Hd. done.
Qed.

(** X4. When the standard output of every jest run fails to parse as JSON,
    no run raises: each yields the empty map, and the session ends with the
    report of no tests, which counts as stable. *)
Theorem jest_unparsable_output_is_stable (test_path : string) (runs : Z) :
  (forall i, (i < Z.to_nat runs)%nat ->
     exists rc out err,
       spawn i (jest_command test_path) = Flaky.Completed rc out err
       /\ json_loads out = None) ->
  (forall i, (i < Z.to_nat runs)%nat -> run_jest i test_path = Ok ∅)
  /\ detect_flaky_tests test_path runs (Some "jest") = Ok (empty_report runs "jest").
Proof.
  intros H.
  assert (Hrun : forall i, (i < Z.to_nat runs)%nat -> run_jest i test_path = Ok ∅).
  { intros i Hi. destruct (H i Hi) as (rc & out & err & Hs & Hj).
    unfold Flaky.run_jest. fold (jest_command test_path). by rewrite Hs, Hj. }
  split; [exact Hrun|].
  unfold Flaky.detect_flaky_tests, Flaky.collect.
  rewrite (mapM_constant _ _ ∅).
  - rewrite bind_Ok. rewrite analyze_no_tests; [done|]. by apply Forall_replicate.
  - intros i Hi%elem_of_seq. apply (Hrun i). lia.
Qed.

End FlakyFurther.

(** ** Matches of the line patterns *)

Lemma bind_Ok_inv {A B} (r : result A) (k : A -> result B) (b : B) :
  (r ≫= k) = Ok b -> exists a, r = Ok a /\ k a = Ok b.
Proof. destruct r as [a|]; [|done]. rewrite bind_Ok. eauto. Qed.

Lemma foldl_invariant {A B} (P : B -> Prop) (f : B -> A -> B) (l : list A) (b : B) :
  (forall acc x, P acc -> P (f acc x)) -> P b -> P (foldl f b l).
Proof. intros Hf. revert b. induction l as [|x l IH]; intros b Hb; cbn; auto. Qed.

Lemma length_append (a b : string) :
  String.length (a +:+ b) = (String.length a + String.length b)%nat.
Proof. induction a as [|c a IH]; [done|]. rewrite append_String. cbn. by rewrite IH. Qed.

Lemma take_append (pre rest : string) :
  Py.take (String.length (pre +:+ rest) - String.length rest) (pre +:+ rest) = pre.
Proof.
  rewrite length_append. replace (_ + _ - _)%nat with (String.length pre) by lia.
  induction pre as [|c pre IH]; [by destruct rest|].
  rewrite append_String. cbn. by rewrite IH.
Qed.

Lemma take_drop (n : nat) (s : string) : Py.take n s +:+ Py.drop n s = s.
Proof.
  revert s. induction n as [|n IH]; intros [|c s]; try done.
  cbn [Py.take Py.drop]. rewrite append_String. by rewrite IH.
Qed.

Lemma lit_prefix_suffix ic (t s rest : string) :
  Re.lit_prefix ic t s = Some rest -> exists pre, s = pre +:+ rest.
Proof.
  revert s. induction t as [|a t IH]; intros s; cbn.
  - intros [= ->]. by exists EmptyString.
  - destruct s as [|b s]; [done|]. destruct (Re.char_eq ic a b); [|done].
    intros (pre & ->)%IH. by exists (String b pre).
Qed.

Lemma lit_prefix_exact (t s rest : string) :
  Re.lit_prefix false t s = Some rest -> s = t +:+ rest.
Proof.
  revert s. induction t as [|a t IH]; intros s; cbn.
  - by intros [= ->].
  - destruct s as [|b s]; [done|]. destruct (Ascii.eqb_spec a b) as [->|]; [|done].
    intros ->%IH. done.
Qed.

Lemma run_Cat_inv ic r1 r2 s g rest g' :
  (rest, g') ∈ Re.run ic (Re.Cat r1 r2) s g ->
  exists mid g1, (mid, g1) ∈ Re.run ic r1 s g /\ (rest, g') ∈ Re.run ic r2 mid g1.
Proof.
  cbn. intros ([mid g1] & H1 & H2)%list_elem_of_In%in_flat_map.
  exists mid, g1. by rewrite !list_elem_of_In.
Qed.

Lemma run_Group_inv ic n r s g rest g' :
  (rest, g') ∈ Re.run ic (Re.Group n r) s g ->
  exists g1, (rest, g1) ∈ Re.run ic r s g
             /\ g' = <[n := Py.take (String.length s - String.length rest) s]> g1.
Proof.
  cbn. intros ([rest1 g1] & [= -> ->] & H)%list_elem_of_fmap. eauto.
Qed.

Lemma run_Many_inv ic min cs s g rest g' :
  (rest, g') ∈ Re.run ic (Re.Many min cs) s g ->
  g' = g /\ exists n, (min <= n <= Re.span ic cs s)%nat /\ rest = Py.drop n s.
Proof.
  cbn. intros (n & [= -> ->] & Hn)%list_elem_of_fmap.
  split; [done|]. exists n. split; [|done].
  apply list_elem_of_In, in_rev, list_elem_of_In, elem_of_seq in Hn. lia.
Qed.

Lemma run_suffix ic r : forall s g rest g',
  (rest, g') ∈ Re.run ic r s g -> exists pre, s = pre +:+ rest.
Proof.
  induction r as [t|cs|min cs|r1 IH1 r2 IH2|r1 IH1 r2 IH2|n r IH]; intros s g rest g'.
  - cbn. destruct (Re.lit_prefix ic t s) as [r|] eqn:Hp; [|by intros ?%elem_of_nil].
    intros [= -> _]%list_elem_of_singleton. by eapply lit_prefix_suffix.
  - cbn. destruct s as [|c s]; [by intros ?%elem_of_nil|].
    destruct (Re.in_charset ic cs c); [|by intros ?%elem_of_nil].
    intros [= -> _]%list_elem_of_singleton. by exists (String c EmptyString).
  - intros (_ & n & _ & ->)%run_Many_inv. exists (Py.take n s). by rewrite take_drop.
  - intros (mid & g1 & (p1 & ->)%IH1 & (p2 & ->)%IH2)%run_Cat_inv.
    exists (p1 +:+ p2). by rewrite append_assoc.
  - cbn. rewrite elem_of_app. intros [H|H]; eauto.
  - intros (g1 & H & _)%run_Group_inv. eauto.
Qed.

(** The text a group took is what its pattern consumed. *)
Lemma run_Group_text ic n r s g rest g' :
  (rest, g') ∈ Re.run ic (Re.Group n r) s g ->
  exists text g1, s = text +:+ rest /\ (rest, g1) ∈ Re.run ic r s g /\ g' = <[n := text]> g1.
Proof.
  intros (g1 & H & ->)%run_Group_inv.
  destruct (run_suffix _ _ _ _ _ _ H) as (pre & ->).
  exists pre, g1. by rewrite take_append.
Qed.

Lemma match_inv ic r s m :
  Re.match_ ic r s = Some m -> exists rest, (rest, m) ∈ Re.run ic r s ∅.
Proof.
  unfold Re.match_. destruct (Re.run ic r s ∅) as [|[rest g] l]; [done|].
  cbn. intros [= ->]. exists rest. by left.
Qed.

Lemma span_take ic cs (n : nat) (s : string) :
  (n <= Re.span ic cs s)%nat ->
  Forall (fun c => Re.in_charset ic cs c = true) (list_ascii_of_string (Py.take n s))
  /\ String.length (Py.take n s) = n.
Proof.
  revert s. induction n as [|n IH]; intros s Hn; [by destruct s|].
  destruct s as [|c s]; [cbn in Hn; lia|]. cbn [Re.span] in Hn.
  destruct (Re.in_charset ic cs c) eqn:Hc; [|lia].
  destruct (IH s) as [H1 H2]; [lia|]. cbn. split; [by constructor|by rewrite H2].
Qed.

Lemma append_cancel_r (p1 p2 rest : string) : p1 +:+ rest = p2 +:+ rest -> p1 = p2.
Proof.
  intros H. rewrite <- (take_append p1 rest), <- (take_append p2 rest). by rewrite H.
Qed.

Lemma run_Lit_inv (t s : string) g rest g' :
  (rest, g') ∈ Re.run false (Re.Lit t) s g -> s = t +:+ rest /\ g' = g.
Proof.
  cbn. destruct (Re.lit_prefix false t s) as [r|] eqn:Hp; [|by intros ?%elem_of_nil].
  intros [= -> ->]%list_elem_of_singleton. split; [|done]. by apply lit_prefix_exact.
Qed.

Lemma run_Alt_inv ic r1 r2 s g rest g' :
  (rest, g') ∈ Re.run ic (Re.Alt r1 r2) s g ->
  (rest, g') ∈ Re.run ic r1 s g \/ (rest, g') ∈ Re.run ic r2 s g.
Proof. cbn. by rewrite elem_of_app. Qed.

Lemma two_groups (name lit : string) :
  Re.group (<[2%nat := lit]> (<[1%nat := name]> (∅ : gmap nat string))) 1 = name
  /\ Re.group (<[2%nat := lit]> (<[1%nat := name]> (∅ : gmap nat string))) 2 = lit.
Proof.
  unfold Re.group, Re.groups. split.
  - by rewrite lookup_insert_ne, lookup_insert_eq.
  - by rewrite lookup_insert_eq.
Qed.

(** What a line matched by the cargo pattern gives: a non-empty name without
    white space and one of the three tokens. *)
Lemma cargo_match_inv (line : string) m :
  Re.match_ false Flaky.cargo_line line = Some m ->
  Re.group m 1 <> EmptyString
  /\ no_space (Re.group m 1)
  /\ Re.group m 2 ∈ ["ok"; "FAILED"; "ignored"].
Proof.
  intros (rest & H)%match_inv. unfold Flaky.cargo_line in H.
  apply run_Cat_inv in H as (s1 & g1 & H1 & H). apply run_Lit_inv in H1 as [_ ->].
  apply run_Cat_inv in H as (s2 & g2 & H2 & H). apply run_Many_inv in H2 as [-> _].
  apply run_Cat_inv in H as (s3 & g3 & H3 & H).
  apply run_Group_text in H3 as (name & g3' & Hname & H3 & ->).
  apply run_Many_inv in H3 as (-> & n & Hn & Hdrop).
  apply run_Cat_inv in H as (s4 & g4 & H4 & H). apply run_Many_inv in H4 as [-> _].
  apply run_Cat_inv in H as (s5 & g5 & H5 & H). apply run_Lit_inv in H5 as [_ ->].
  apply run_Cat_inv in H as (s6 & g6 & H6 & H). apply run_Many_inv in H6 as [-> _].
  apply run_Group_text in H as (lit & g7 & Hlit & H & ->).
  assert (Hg7 : g7 = <[1%nat := name]> ∅ /\ lit ∈ ["ok"; "FAILED"; "ignored"]).
  { apply run_Alt_inv in H as [H|H]; [|apply run_Alt_inv in H as [H|H]];
      apply run_Lit_inv in H as [Hs ->]; (split; [done|]);
      rewrite Hs in Hlit; apply append_cancel_r in Hlit as ->; rewrite !elem_of_cons; auto. }
  destruct Hg7 as [-> Hlit'].
  assert (Hname' : name = Py.take n s2).
  { subst s3. rewrite <- (take_drop n s2) in Hname at 1. by apply append_cancel_r in Hname. }
  destruct (span_take false Re.NonSpace n s2) as [Hall Hlen]; [lia|].
  unfold Re.groups. destruct (two_groups name lit) as [-> ->]. rewrite Hname'. split_and!.
  - intros Hq. rewrite Hq in Hlen. cbn in Hlen. lia.
  - unfold no_space. eapply Forall_impl; [exact Hall|].
    intros c Hc. cbn in Hc. by apply negb_true_iff in Hc.
  - done.
Qed.

(** What a line matched by the pytest pattern gives: a name with [::] in it
    and one of the four tokens. *)
Lemma pytest_match_inv (line : string) m :
  Re.match_ false Flaky.pytest_line line = Some m ->
  is_substring "::" (Re.group m 1)
  /\ Re.group m 2 ∈ ["PASSED"; "FAILED"; "ERROR"; "SKIPPED"].
Proof.
  intros (rest & H)%match_inv. unfold Flaky.pytest_line in H.
  apply run_Cat_inv in H as (s1 & g1 & H1 & H).
  apply run_Group_text in H1 as (name & g1' & Hname & H1 & ->).
  apply run_Cat_inv in H1 as (sa & ga & Ha & H1).
  destruct (run_suffix _ _ _ _ _ _ Ha) as (a & Hsa). apply run_Many_inv in Ha as [-> _].
  apply run_Cat_inv in H1 as (sb & gb & Hb & H1). apply run_Lit_inv in Hb as [Hsb ->].
  destruct (run_suffix _ _ _ _ _ _ H1) as (b & Hs1). apply run_Many_inv in H1 as [-> _].
  apply run_Cat_inv in H as (s2 & g2 & H2 & H). apply run_Many_inv in H2 as [-> _].
  apply run_Group_text in H as (lit & g3 & Hlit & H & ->).
  assert (Hg3 : g3 = <[1%nat := name]> ∅ /\ lit ∈ ["PASSED"; "FAILED"; "ERROR"; "SKIPPED"]).
  { apply run_Alt_inv in H as [H|H]; [|apply run_Alt_inv in H as [H|H];
                                        [|apply run_Alt_inv in H as [H|H]]];
      apply run_Lit_inv in H as [Hs ->]; (split; [done|]);
      rewrite Hs in Hlit; apply append_cancel_r in Hlit as ->; rewrite !elem_of_cons; auto. }
  destruct Hg3 as [-> Hlit'].
  unfold Re.groups. destruct (two_groups name lit) as [-> ->]. split; [|done].
  exists a, b. rewrite Hsa, Hsb, Hs1, <- !append_assoc in Hname.
  apply append_cancel_r in Hname. rewrite <- Hname. by rewrite ?append_assoc.
Qed.

Lemma parse_pytest_stored (output name o : string) :
  Flaky.parse_pytest output !! name = Some o ->
  o ∈ pytest_stored /\ is_substring "::" name.
Proof.
  unfold Flaky.parse_pytest. revert name o.
  apply (foldl_invariant
           (fun m : gmap string string =>
              forall name o, m !! name = Some o ->
                             o ∈ pytest_stored /\ is_substring "::" name)).
  - intros acc line IH name o.
    destruct (Re.match_ false Flaky.pytest_line line) as [m|] eqn:Hm; [|apply IH].
    destruct (pytest_match_inv _ _ Hm) as [Hn Ho].
    destruct (decide (Re.group m 1 = name)) as [<-|Hne].
    + rewrite lookup_insert_eq. intros [= <-]. split; [|done].
      unfold pytest_stored.
      repeat (apply elem_of_cons in Ho as [->|Ho]; [apply (bool_decide_unpack _); by vm_compute|]).
      by apply elem_of_nil in Ho.
    + rewrite lookup_insert_ne by done. apply IH.
  - intros name o. by rewrite lookup_empty.
Qed.

Lemma parse_cargo_stored (output name o : string) :
  Flaky.parse_cargo output !! name = Some o ->
  o ∈ cargo_stored /\ name <> EmptyString /\ no_space name.
Proof.
  unfold Flaky.parse_cargo. revert name o.
  apply (foldl_invariant
           (fun m : gmap string string =>
              forall name o, m !! name = Some o ->
                             o ∈ cargo_stored /\ name <> EmptyString /\ no_space name)).
  - intros acc line IH name o.
    destruct (Re.match_ false Flaky.cargo_line line) as [m|] eqn:Hm; [|apply IH].
    destruct (cargo_match_inv _ _ Hm) as (Hn1 & Hn2 & Ho).
    destruct (decide (Re.group m 1 = name)) as [<-|Hne].
    + rewrite lookup_insert_eq. intros [= <-]. split; [|done].
      unfold cargo_stored.
      repeat (apply elem_of_cons in Ho as [->|Ho]; [apply (bool_decide_unpack _); by vm_compute|]).
      by apply elem_of_nil in Ho.
    + rewrite lookup_insert_ne by done. apply IH.
  - intros name o. by rewrite lookup_empty.
Qed.

Lemma jest_status_in_enum status o :
  Flaky.jest_status status = Ok o -> o ∈ Flaky.TestOutcome.
Proof.
  destruct status as [| | | |s| |]; cbn; try (intros [= <-]; solve_set); try done.
  destruct (String.eqb s "passed"); [intros [= <-]; solve_set|].
  destruct (String.eqb s "failed"); [intros [= <-]; solve_set|].
  destruct (String.eqb s "pending"); intros [= <-]; solve_set.
Qed.

Lemma size_list_to_set_gt1 (l : list string) :
  (1 < size (list_to_set l : gset string))%nat <-> exists x y, x ∈ l /\ y ∈ l /\ x <> y.
Proof.
  set (X := list_to_set l : gset string). split.
  - intros Hsize. destruct (size_pos_elem_of X) as [x Hx]; [lia|].
    destruct (size_pos_elem_of (X ∖ {[x]})) as [y Hy].
    { rewrite size_difference by solve_set. rewrite size_singleton. lia. }
    exists x, y. subst X. solve_set.
  - intros (x & y & Hx & Hy & Hne).
    assert (Hsub : ({[x]} ∪ {[y]} : gset string) ⊆ X) by (subst X; solve_set).
    apply subseteq_size in Hsub. rewrite size_union in Hsub by solve_set.
    rewrite !size_singleton in Hsub. lia.
Qed.

(** A record is marked flaky exactly when two runs disagree about the
    test. *)
Lemma make_result_flaky_iff (all_results : list (gmap string string)) (name : string) :
  Flaky.is_flaky (Flaky.make_result all_results name) = true <->
  exists i j oi oj,
    Flaky.outcomes_of all_results name !! i = Some oi
    /\ Flaky.outcomes_of all_results name !! j = Some oj
    /\ oi <> oj.
Proof.
  cbn. rewrite bool_decide_eq_true, size_list_to_set_gt1. split.
  - intros (x & y & (i & Hi)%list_elem_of_lookup & (j & Hj)%list_elem_of_lookup & Hne).
    by exists i, j, x, y.
  - intros (i & j & x & y & Hi & Hj & Hne). exists x, y.
    split; [|split; [|done]]; apply list_elem_of_lookup; eauto.
Qed.

Lemma flaky_tests_analyze (all_results : list (gmap string string)) runs fw :
  Flaky.flaky_tests (Flaky.analyze all_results runs fw)
  = List.filter Flaky.is_flaky
      (map (Flaky.make_result all_results)
           (Py.sorted (elements (Flaky.union_of_keys all_results)))).
Proof. unfold Flaky.analyze. by rewrite analyze_loop_spec. Qed.

Lemma total_tests_analyze (all_results : list (gmap string string)) runs fw :
  Flaky.total_tests (Flaky.analyze all_results runs fw)
  = Z.of_nat (size (Flaky.union_of_keys all_results)).
Proof.
  unfold Flaky.analyze. rewrite analyze_loop_spec. cbn.
  rewrite length_map. unfold Py.sorted. by rewrite merge_sort_Permutation.
Qed.

Lemma elem_of_flaky_tests (all_results : list (gmap string string)) runs fw r :
  r ∈ Flaky.flaky_tests (Flaky.analyze all_results runs fw) <->
  Flaky.name r ∈ Flaky.union_of_keys all_results
  /\ r = Flaky.make_result all_results (Flaky.name r)
  /\ Flaky.is_flaky r = true.
Proof.
  rewrite flaky_tests_analyze, elem_of_List_filter, list_elem_of_fmap. split.
  - intros [(n & -> & Hn%elem_of_sorted%elem_of_elements) Hf]. done.
  - intros (Hn & Hr & Hf). split; [|done]. exists (Flaky.name r).
    split; [done|]. by apply elem_of_sorted, elem_of_elements.
Qed.

Section AdapterProperties.

Variable spawn : nat -> list string -> Flaky.proc_outcome.
Variable json_loads : string -> option Flaky.pyval.
Variable py_str : Flaky.pyval -> string.
Variable glob : string -> string -> list string.
Variable path_exists : string -> bool.

Local Abbreviation run_pytest := (Flaky.run_pytest spawn).
Local Abbreviation run_cargo := (Flaky.run_cargo spawn).
Local Abbreviation run_jest := (Flaky.run_jest spawn json_loads py_str).
Local Abbreviation run_tests := (Flaky.run_tests spawn json_loads py_str).
Local Abbreviation collect := (Flaky.collect spawn json_loads py_str).
Local Abbreviation detect_flaky_tests :=
  (Flaky.detect_flaky_tests spawn json_loads py_str glob path_exists).

Lemma run_jest_in_enum t test_path results name o :
  run_jest t test_path = Ok results -> results !! name = Some o -> o ∈ Flaky.TestOutcome.
Proof.
  unfold Flaky.run_jest. destruct (spawn t _) as [rc out err|rc|e]; [|done..].
  destruct (json_loads out) as [data|]; [|intros [= <-]; by rewrite lookup_empty].
  intros (trs & _ & (trs' & _ & H)%bind_Ok_inv)%bind_Ok_inv. revert name o.
  change (map_Forall (fun _ o => o ∈ Flaky.TestOutcome) results).
  revert H. apply foldM_invariant; [|apply map_Forall_empty].
  intros test_result acc acc' Hacc (ars & _ & (ars' & _ & H)%bind_Ok_inv)%bind_Ok_inv.
  revert Hacc H. apply foldM_invariant.
  intros assertion st st' Hst
    (n & _ & (f & _ & (status & _ & (o & Ho & [= <-])%bind_Ok_inv)%bind_Ok_inv)%bind_Ok_inv)%bind_Ok_inv.
  apply map_Forall_insert_2; [|done]. by eapply jest_status_in_enum.
Qed.

(** X5. Whatever a pytest run prints, the names its adapter stores contain
    [::] and the outcomes it stores are PASS, FAILED, ERROR or SKIP: the
    tokens PASSED and SKIPPED are shortened, FAILED and ERROR are kept as
    they are. *)
Theorem pytest_adapter_stores (t : nat) (test_path : string)
    (results : gmap string string) (name o : string) :
  run_pytest t test_path = Ok results ->
  results !! name = Some o ->
  o ∈ pytest_stored /\ is_substring "::" name.
Proof.
  unfold Flaky.run_pytest. destruct (spawn t _) as [rc out err|rc|e]; [|done..].
  intros [= <-]. apply parse_pytest_stored.
Qed.

(** X6. Whatever a cargo run prints, the names its adapter stores are
    non-empty and free of white space, and the outcomes it stores are PASS,
    FAIL or SKIP: the ERROR default of its translation table is never
    used. *)
Theorem cargo_adapter_stores (t : nat) (test_path : string)
    (results : gmap string string) (name o : string) :
  run_cargo t test_path = Ok results ->
  results !! name = Some o ->
  o ∈ cargo_stored /\ o <> "ERROR" /\ name <> EmptyString /\ no_space name.
Proof.
  unfold Flaky.run_cargo. destruct (spawn t _) as [rc out err|rc|e]; [|done..].
  intros [= <-] (Ho & Hn)%parse_cargo_stored. split; [done|]. split; [|done].
  intros ->. unfold cargo_stored in Ho. solve_set.
Qed.

(** X7. Every outcome the jest adapter stores is PASS, FAIL, SKIP or
    ERROR: [passed], [failed] and [pending] are translated, any other
    status becomes ERROR. *)
Theorem jest_adapter_stores (t : nat) (test_path : string)
    (results : gmap string string) (name o : string) :
  run_jest t test_path = Ok results ->
  results !! name = Some o ->
  o ∈ Flaky.TestOutcome.
Proof. apply run_jest_in_enum. Qed.

Lemma run_tests_never_MISSING fw t test_path results name o :
  run_tests fw t test_path = Ok results -> results !! name = Some o -> o <> "MISSING".
Proof.
  unfold Flaky.run_tests. cbn [Py.assoc Flaky.runners].
  destruct (String.eqb fw "pytest").
  { unfold Flaky.run_pytest. destruct (spawn t _); [|done..].
    intros [= <-] [Ho _]%parse_pytest_stored ->. unfold pytest_stored in Ho. solve_set. }
  destruct (String.eqb fw "jest").
  { intros H Hl ->. pose proof (run_jest_in_enum _ _ _ _ _ H Hl) as Ho.
    unfold Flaky.TestOutcome in Ho. solve_set. }
  destruct (String.eqb fw "cargo"); [|done].
  unfold Flaky.run_cargo. destruct (spawn t _); [|done..].
  intros [= <-] [Ho _]%parse_cargo_stored ->. unfold cargo_stored in Ho. solve_set.
Qed.

(** X8. In any session, a test that some run reports and another run does
    not report is listed as flaky, with the reported outcome at the one run
    and MISSING at the other: no adapter ever stores MISSING itself. *)
Theorem reported_then_missing_is_flaky (test_path : string) (runs : Z) (fw : string)
    (all_results : list (gmap string string)) (i j : nat)
    (ri rj : gmap string string) (name o : string) :
  collect fw test_path runs = Ok all_results ->
  all_results !! i = Some ri -> all_results !! j = Some rj ->
  ri !! name = Some o -> rj !! name = None ->
  o <> "MISSING"
  /\ exists r,
       r ∈ Flaky.flaky_tests (Flaky.analyze all_results runs fw)
       /\ Flaky.name r = name
       /\ Flaky.outcomes r !! i = Some o
       /\ Flaky.outcomes r !! j = Some "MISSING".
Proof.
  intros Hc Hi Hj Hri Hrj.
  assert (Ho : o <> "MISSING").
  { apply mapM_Ok_inv in Hc as [Hlen Hnth].
    destruct (Hnth i i) as (y & Hy & Hrun).
    { apply lookup_seq. split; [done|]. rewrite length_seq in Hlen. rewrite <- Hlen.
      by eapply lookup_lt_Some. }
    rewrite Hi in Hy. injection Hy as <-. by eapply run_tests_never_MISSING. }
  split; [exact Ho|].
  assert (Hoi : Flaky.outcomes_of all_results name !! i = Some o).
  { unfold Flaky.outcomes_of. by rewrite list_lookup_fmap, Hi; cbn; rewrite Hri. }
  assert (Hoj : Flaky.outcomes_of all_results name !! j = Some "MISSING").
  { unfold Flaky.outcomes_of. by rewrite list_lookup_fmap, Hj; cbn; rewrite Hrj. }
  exists (Flaky.make_result all_results name). split; [|done].
  apply elem_of_flaky_tests. split; [|split; [done|]].
  - apply elem_of_union_of_keys. exists ri. split; [by eapply list_elem_of_lookup_2|done].
  - apply make_result_flaky_iff. by exists i, j, o, "MISSING".
Qed.

End AdapterProperties.

(** ** Reports of a session *)

Lemma foldl_ext {A B} (f g : B -> A -> B) (l : list A) (b : B) :
  (forall acc x, f acc x = g acc x) -> foldl f b l = foldl g b l.
Proof. intros H. revert b. induction l as [|x l IH]; intros b; cbn; [done|]. by rewrite H, IH. Qed.

(** A dict filled line by line keeps, for each name, what the last line
    reporting it said. *)
Lemma foldl_report_last (report : string -> option (string * string))
    (lines : list string) (m0 : gmap string string) (name : string) :
  let step := fun (m : gmap string string) line =>
                match report line with
                | Some (k, v) => <[k := v]> m
                | None => m
                end in
  (unreported report name lines -> foldl step m0 lines !! name = m0 !! name)
  /\ (forall pre line post o,
        lines = pre ++ line :: post -> report line = Some (name, o) ->
        unreported report name post ->
        foldl step m0 lines !! name = Some o).
Proof.
  intros step.
  assert (Hnone : forall ls m, unreported report name ls ->
                               foldl step m ls !! name = m !! name).
  { induction ls as [|l ls IH]; intros m Hun; [done|]. cbn [foldl].
    rewrite IH by (intros x o Hx; apply Hun; by right).
    unfold step. destruct (report l) as [[k v]|] eqn:Hl; [|done].
    rewrite lookup_insert_ne; [done|]. intros ->. by apply (Hun l v); [left|]. }
  split; [apply Hnone|].
  intros pre line post o -> Hline Hpost. rewrite foldl_app. cbn [foldl].
  rewrite Hnone by done. unfold step at 1. rewrite Hline. apply lookup_insert_eq.
Qed.

Lemma parse_cargo_fold output :
  Flaky.parse_cargo output
  = foldl (fun (m : gmap string string) line =>
             match cargo_report line with Some (k, v) => <[k := v]> m | None => m end)
          ∅ (Py.split_lines output).
Proof.
  apply foldl_ext. intros acc line. unfold cargo_report. by destruct (Re.match_ _ _ _).
Qed.

Lemma parse_pytest_fold output :
  Flaky.parse_pytest output
  = foldl (fun (m : gmap string string) line =>
             match pytest_report line with Some (k, v) => <[k := v]> m | None => m end)
          ∅ (Py.split_lines output).
Proof.
  apply foldl_ext. intros acc line. unfold pytest_report. by destruct (Re.match_ _ _ _).
Qed.

(** X9. The adapters read the output line by line into a dict: a test that
    no line reports is absent from the result, and for a test reported by
    several lines the last such line decides the stored outcome. *)
Theorem last_report_of_a_test_wins (output name : string) :
  (unreported cargo_report name (Py.split_lines output) ->
     Flaky.parse_cargo output !! name = None)
  /\ (unreported pytest_report name (Py.split_lines output) ->
     Flaky.parse_pytest output !! name = None)
  /\ (forall pre line post o,
        Py.split_lines output = pre ++ line :: post ->
        cargo_report line = Some (name, o) -> unreported cargo_report name post ->
        Flaky.parse_cargo output !! name = Some o)
  /\ (forall pre line post o,
        Py.split_lines output = pre ++ line :: post ->
        pytest_report line = Some (name, o) -> unreported pytest_report name post ->
        Flaky.parse_pytest output !! name = Some o).
Proof.
  rewrite parse_cargo_fold, parse_pytest_fold.
  destruct (foldl_report_last cargo_report (Py.split_lines output) ∅ name) as [Hc1 Hc2].
  destruct (foldl_report_last pytest_report (Py.split_lines output) ∅ name) as [Hp1 Hp2].
  split_and!.
  - intros H. by rewrite Hc1.
  - intros H. by rewrite Hp1.
  - exact Hc2.
  - exact Hp2.
Qed.

(** X10. A test is listed as flaky exactly when two runs of the session
    disagree about it, an absent test counting as MISSING. *)
Theorem flaky_iff_two_runs_disagree
    (all_results : list (gmap string string)) (runs : Z) (fw name : string) :
  (exists r, r ∈ Flaky.flaky_tests (Flaky.analyze all_results runs fw) /\ Flaky.name r = name)
  <->
  (exists i j ri rj,
      all_results !! i = Some ri /\ all_results !! j = Some rj
      /\ default "MISSING" (ri !! name) <> default "MISSING" (rj !! name)).
Proof.
  split.
  - intros (r & (_ & Hr & Hf)%elem_of_flaky_tests & <-). rewrite Hr in Hf.
    apply make_result_flaky_iff in Hf as (i & j & oi & oj & Hi & Hj & Hne).
    unfold Flaky.outcomes_of in Hi, Hj. rewrite list_lookup_fmap in Hi, Hj.
    destruct (all_results !! i) as [ri|] eqn:Hri; [|done].
    destruct (all_results !! j) as [rj|] eqn:Hrj; [|done].
    injection Hi as <-. injection Hj as <-. by exists i, j, ri, rj.
  - intros (i & j & ri & rj & Hi & Hj & Hne).
    exists (Flaky.make_result all_results name). split; [|done].
    apply elem_of_flaky_tests. split_and!; [|done|].
    + apply elem_of_union_of_keys. cbn [Flaky.name Flaky.make_result].
      destruct (ri !! name) as [o|] eqn:Hri.
      * exists ri. split; [by eapply list_elem_of_lookup_2|]. by rewrite Hri.
      * destruct (rj !! name) as [o|] eqn:Hrj; [|done].
        exists rj. split; [by eapply list_elem_of_lookup_2|]. by rewrite Hrj.
    + apply make_result_flaky_iff.
      exists i, j, (default "MISSING" (ri !! name)), (default "MISSING" (rj !! name)).
      unfold Flaky.outcomes_of. by rewrite !list_lookup_fmap, Hi, Hj.
Qed.

Lemma no_flaky_tests (all_results : list (gmap string string)) runs fw :
  (forall name i j oi oj,
      Flaky.outcomes_of all_results name !! i = Some oi ->
      Flaky.outcomes_of all_results name !! j = Some oj -> oi = oj) ->
  Flaky.flaky_tests (Flaky.analyze all_results runs fw) = [].
Proof.
  intros H. apply elem_of_nil_inv. intros r (_ & Hr & Hf)%elem_of_flaky_tests.
  rewrite Hr in Hf.
  apply make_result_flaky_iff in Hf as (i & j & oi & oj & Hi & Hj & Hne).
  apply Hne. by eapply H.
Qed.

(** ** Order of the report and the command line *)

Lemma str_le_trans : Transitive Py.str_le.
Proof.
  intros a b c Hab Hbc. unfold Py.str_le in *.
  apply Is_true_true. apply Is_true_true in Hab, Hbc.
  exact (PreOrder_Transitive (R := String.le) a b c Hab Hbc).
Qed.

Lemma str_le_total : Total Py.str_le.
Proof. intros a b. apply String.leb_total. Qed.

Lemma sorted_StronglySorted (l : list string) : StronglySorted Py.str_le (Py.sorted l).
Proof.
  unfold Py.sorted.
  apply (@StronglySorted_merge_sort _ Py.str_le _ str_le_trans str_le_total).
Qed.

Lemma sorted_NoDup (l : list string) : NoDup l -> NoDup (Py.sorted l).
Proof. intros H. unfold Py.sorted. by rewrite merge_sort_Permutation. Qed.

Lemma StronglySorted_List_filter {A} (R : A -> A -> Prop) (f : A -> bool) (l : list A) :
  StronglySorted R l -> StronglySorted R (List.filter f l).
Proof.
  induction 1 as [|x l Hl IH Hx]; cbn; [constructor|].
  destruct (f x); [|done]. constructor; [done|].
  apply Forall_forall. intros y Hy. apply elem_of_List_filter in Hy as [Hy _].
  rewrite Forall_forall in Hx. by apply Hx.
Qed.

Lemma NoDup_List_filter {A} (f : A -> bool) (l : list A) :
  NoDup l -> NoDup (List.filter f l).
Proof.
  induction 1 as [|x l Hx Hl IH]; cbn; [constructor|].
  destruct (f x); [|done]. constructor; [|done].
  intros H. apply elem_of_List_filter in H as [H _]. done.
Qed.

Lemma map_filter_map {A B C} (g : A -> B) (h : B -> C) (f : B -> bool) (l : list A) :
  map h (List.filter f (map g l))
  = map (fun x => h (g x)) (List.filter (fun x => f (g x)) l).
Proof.
  induction l as [|x l IH]; cbn; [done|]. destruct (f (g x)); cbn; by rewrite IH.
Qed.

Lemma flaky_names_analyze (all_results : list (gmap string string)) runs fw :
  map Flaky.name (Flaky.flaky_tests (Flaky.analyze all_results runs fw))
  = List.filter (fun n => Flaky.is_flaky (Flaky.make_result all_results n))
      (Py.sorted (elements (Flaky.union_of_keys all_results))).
Proof.
  rewrite flaky_tests_analyze, map_filter_map. cbn [Flaky.name Flaky.make_result].
  apply map_id.
Qed.

Lemma detect_flaky_tests_inv spawn json_loads py_str glob path_exists
    test_path runs framework rep :
  Flaky.detect_flaky_tests spawn json_loads py_str glob path_exists
    test_path runs framework = Ok rep ->
  exists all_results fw,
    Flaky.collect spawn json_loads py_str fw test_path runs = Ok all_results
    /\ length all_results = Z.to_nat runs
    /\ rep = Flaky.analyze all_results runs fw.
Proof.
  unfold Flaky.detect_flaky_tests.
  set (fw := match framework with Some f => f | None => _ end).
  destruct (Flaky.collect _ _ _ _ _ _) as [all_results|e] eqn:Hc; [|done].
  rewrite bind_Ok. intros [= <-]. exists all_results, fw. split_and!; [done| |done].
  apply mapM_Ok_inv in Hc as [-> _]. by rewrite length_seq.
Qed.

Section ReportProperties.

Variable spawn : nat -> list string -> Flaky.proc_outcome.
Variable json_loads : string -> option Flaky.pyval.
Variable py_str : Flaky.pyval -> string.
Variable glob : string -> string -> list string.
Variable path_exists : string -> bool.

Local Abbreviation detect_flaky_tests :=
  (Flaky.detect_flaky_tests spawn json_loads py_str glob path_exists).
Local Abbreviation main := (FlakyCli.main spawn json_loads py_str glob path_exists).

(** X11. The flaky tests of a report are listed in the order of
    [sorted] on their names, and no name is listed twice: the names are
    strictly increasing down the list. *)
Theorem flaky_tests_sorted_by_name (test_path : string) (runs : Z)
    (framework : option string) (rep : Flaky.FlakyReport) :
  detect_flaky_tests test_path runs framework = Ok rep ->
  let names := map Flaky.name (Flaky.flaky_tests rep) in
  StronglySorted Py.str_le names
  /\ NoDup names
  /\ (forall i j a b, names !! i = Some a -> names !! j = Some b -> (i < j)%nat ->
        Py.str_le a b /\ a <> b).
Proof.
  intros (all_results & fw & _ & _ & ->)%detect_flaky_tests_inv names.
  assert (Hs : StronglySorted Py.str_le names).
  { subst names. rewrite flaky_names_analyze.
    apply StronglySorted_List_filter, sorted_StronglySorted. }
  assert (Hn : NoDup names).
  { subst names. rewrite flaky_names_analyze.
    apply NoDup_List_filter, sorted_NoDup, NoDup_elements. }
  split_and!; [done..|].
  clearbody names. clear -Hs Hn.
  induction Hs as [|x l Hl IH Hx]; intros i j a b Hi Hj Hij; [done|].
  apply NoDup_cons in Hn as [Hnot Hn].
  destruct i as [|i], j as [|j]; try lia.
  - cbn in Hi, Hj. injection Hi as ->.
    assert (Hb : b ∈ l) by by eapply list_elem_of_lookup_2.
    rewrite Forall_forall in Hx. split; [by apply Hx|]. by intros ->.
  - cbn in Hi, Hj. apply (IH Hn i j); [done..|lia].
Qed.

(** X12. One run cannot show a test flaky: a session of a single run that
    ends with a report lists no flaky test, and counts every test the run
    reported as stable. *)
Theorem single_run_is_stable (test_path : string) (framework : option string)
    (rep : Flaky.FlakyReport) :
  detect_flaky_tests test_path 1 framework = Ok rep ->
  Flaky.flaky_tests rep = []
  /\ Flaky.is_stable rep = true
  /\ Flaky.stable_tests rep = Flaky.total_tests rep.
Proof.
  intros (all_results & fw & _ & Hlen & ->)%detect_flaky_tests_inv.
  assert (Hf : Flaky.flaky_tests (Flaky.analyze all_results 1 fw) = []).
  { apply no_flaky_tests. intros name i j oi oj Hi Hj.
    assert (Hl : length (Flaky.outcomes_of all_results name) = 1%nat).
    { unfold Flaky.outcomes_of. rewrite length_map, Hlen. done. }
    apply lookup_lt_Some in Hi as Hi', Hj as Hj'.
    assert (i = 0%nat) as -> by lia. assert (j = 0%nat) as -> by lia. congruence. }
  split; [done|].
  unfold Flaky.is_stable. rewrite Hf. split; [done|].
  revert Hf. unfold Flaky.analyze. destruct (Flaky.analyze_loop all_results) as [rs fs].
  cbn. intros ->. cbn. lia.
Qed.

(** X13. When every run of a session yields the same result map, no test
    is flaky, however many runs there were. *)
Theorem equal_runs_are_stable (test_path : string) (runs : Z) (fw : string)
    (results : gmap string string) (rep : Flaky.FlakyReport) :
  (forall i, (i < Z.to_nat runs)%nat ->
     Flaky.run_tests spawn json_loads py_str fw i test_path = Ok results) ->
  detect_flaky_tests test_path runs (Some fw) = Ok rep ->
  Flaky.flaky_tests rep = []
  /\ Flaky.total_tests rep = (if decide (0 < runs) then Z.of_nat (size results) else 0).
Proof.
  intros Hrun. unfold Flaky.detect_flaky_tests, Flaky.collect.
  rewrite (mapM_constant _ _ results); cycle 1.
  { intros i Hi%elem_of_seq. apply Hrun. lia. }
  rewrite bind_Ok, length_seq. intros [= <-]. split.
  - apply no_flaky_tests. intros name i j oi oj.
    unfold Flaky.outcomes_of. rewrite !list_lookup_fmap.
    intros Hi Hj.
    destruct (replicate _ _ !! i) as [ri|] eqn:Hri; [|done].
    destruct (replicate _ _ !! j) as [rj|] eqn:Hrj; [|done].
    apply lookup_replicate in Hri as [-> _]. apply lookup_replicate in Hrj as [-> _].
    cbn in Hi, Hj. congruence.
  - rewrite total_tests_analyze. destruct (decide (0 < runs)) as [Hpos|Hneg].
    + destruct (Z.to_nat runs) as [|n] eqn:Hn; [lia|].
      assert (Flaky.union_of_keys (replicate (S n) results) = dom results) as ->;
        [|by rewrite size_dom].
      apply set_eq. intros x.
      rewrite elem_of_union_of_keys, elem_of_dom. split.
      * by intros (r & ->%elem_of_replicate_inv & H).
      * intros H. exists results. split; [|done]. cbn. by left.
    + replace (Z.to_nat runs) with 0%nat by lia. done.
Qed.

(** X14. The command line of the flaky detector.  A session that raises
    prints nothing on standard output and ends with status 1.  With
    [--json] a finished session always ends with status 0, flaky tests or
    not, and prints one object whose fields agree: [stable] is true exactly
    when [flaky_count] is 0, [flaky_count] is the length of [flaky_tests],
    every listed record is marked flaky, and [total_tests] is [stable_tests]
    plus [flaky_count].  Without [--json] the status is 1 exactly when some
    test is flaky, and the first line is STABLE or FLAKY TESTS DETECTED
    accordingly. *)
Theorem flaky_main_exit_status (args : FlakyCli.Namespace) :
  let session := detect_flaky_tests (FlakyCli.test_path args) (FlakyCli.runs args)
                   (FlakyCli.framework args) in
  (forall e, session = Raise e ->
     main args = {| FlakyCli.stdout := []; FlakyCli.exit_status := 1 |})
  /\ (forall rep, session = Ok rep -> FlakyCli.json args = true ->
        FlakyCli.exit_status (main args) = 0
        /\ exists output stable total stable_n count fl,
             FlakyCli.stdout (main args) = [FlakyCli.Json output]
             /\ Py.assoc "stable" output = Some (FlakyCli.VBool stable)
             /\ Py.assoc "total_tests" output = Some (FlakyCli.VInt total)
             /\ Py.assoc "stable_tests" output = Some (FlakyCli.VInt stable_n)
             /\ Py.assoc "flaky_count" output = Some (FlakyCli.VInt count)
             /\ Py.assoc "flaky_tests" output = Some (FlakyCli.VResults fl)
             /\ fl = Flaky.flaky_tests rep
             /\ count = Z.of_nat (length fl)
             /\ (stable = true <-> count = 0)
             /\ total = stable_n + count
             /\ 0 <= stable_n
             /\ Forall (fun r => Flaky.is_flaky r = true) fl)
  /\ (forall rep, session = Ok rep -> FlakyCli.json args = false ->
        (FlakyCli.exit_status (main args) = 1 <-> Flaky.flaky_tests rep <> [])
        /\ (FlakyCli.exit_status (main args) = 0 <-> Flaky.flaky_tests rep = [])
        /\ (Flaky.flaky_tests rep = [] ->
              head (FlakyCli.stdout (main args)) = Some (FlakyCli.Line "STABLE"))
        /\ (Flaky.flaky_tests rep <> [] ->
              head (FlakyCli.stdout (main args))
              = Some (FlakyCli.Line "FLAKY TESTS DETECTED"))).
Proof.
  intros session. subst session. unfold FlakyCli.main. split_and!.
  - intros e ->. done.
  - intros rep Hrep Hjson. rewrite Hrep, Hjson. split; [done|].
    apply detect_flaky_tests_inv in Hrep as (all_results & fw & _ & _ & ->).
    eexists _, _, _, _, _, _. split; [reflexivity|].
    split_and!; try reflexivity.
    + unfold Flaky.is_stable. rewrite Z.eqb_eq. done.
    + unfold Flaky.analyze. destruct (Flaky.analyze_loop all_results). cbn. lia.
    + unfold Flaky.analyze. rewrite analyze_loop_spec. cbn.
      rewrite length_map. pose proof (filter_length_le Flaky.is_flaky
        (map (Flaky.make_result all_results)
           (Py.sorted (elements (Flaky.union_of_keys all_results))))) as Hle.
      rewrite length_map in Hle. lia.
    + apply Forall_forall. by intros r (_ & _ & Hf)%elem_of_flaky_tests.
  - intros rep Hrep Hjson. rewrite Hrep, Hjson. unfold Flaky.is_stable.
    destruct (Flaky.flaky_tests rep) as [|r fl]; cbn; split_and!; try done.
Qed.

End ReportProperties.

(** * Further properties of the cheating detector *)

(** ** Walks and subtrees *)

Lemma subtree_closed_nil : subtree_closed [].
Proof. intros m H. by apply elem_of_nil in H. Qed.

Lemma subtree_in_app_l m a b : subtree_in m a -> subtree_in m (a ++ b).
Proof.
  intros (l1 & l2 & ->). exists l1, (l2 ++ b). by rewrite <- !app_assoc.
Qed.

Lemma subtree_in_app_r m a b : subtree_in m b -> subtree_in m (a ++ b).
Proof.
  intros (l1 & l2 & ->). exists (a ++ l1), l2. by rewrite <- !app_assoc.
Qed.

Lemma subtree_closed_app a b :
  subtree_closed a -> subtree_closed b -> subtree_closed (a ++ b).
Proof.
  intros Ha Hb m [H|H]%elem_of_app.
  - by apply subtree_in_app_l, Ha.
  - by apply subtree_in_app_r, Hb.
Qed.

Lemma subtree_closed_flat_map {A} (g : A -> list Ast.node) (l : list A) :
  Forall (fun x => subtree_closed (g x)) l -> subtree_closed (flat_map g l).
Proof.
  induction 1 as [|x l Hx _ IH]; cbn [flat_map]; [apply subtree_closed_nil|].
  by apply subtree_closed_app.
Qed.

Lemma subtree_closed_cons n rest :
  Ast.walk n = n :: rest -> subtree_closed rest -> subtree_closed (n :: rest).
Proof.
  intros Hn Hrest m [->|H]%elem_of_cons.
  - exists [], []. by rewrite Hn, app_nil_r.
  - apply (subtree_in_app_r m [n] rest). by apply Hrest.
Qed.

Lemma walk_expr_closed : forall e, subtree_closed (Ast.walk_expr e).
Proof.
  fix IH 1. intros e.
  destruct e as [op values|l op r|op x|t b o|keys values lineno|l ops cs|f args
                |c|v attr|v sl|id|elts|elts];
    cbn [Ast.walk_expr]; (apply subtree_closed_cons; [reflexivity|]);
    repeat apply subtree_closed_app; try apply IH; try apply subtree_closed_nil;
    apply subtree_closed_flat_map.
  - induction values; constructor; [apply IH|assumption].
  - induction keys as [|[k|] keys IHk]; constructor; try assumption;
      [apply IH|apply subtree_closed_nil].
  - induction values; constructor; [apply IH|assumption].
  - induction cs; constructor; [apply IH|assumption].
  - induction args; constructor; [apply IH|assumption].
  - induction elts; constructor; [apply IH|assumption].
  - induction elts; constructor; [apply IH|assumption].
Qed.

Lemma walk_exprs_closed (l : list Ast.expr) : subtree_closed (flat_map Ast.walk_expr l).
Proof. apply subtree_closed_flat_map, Forall_forall. intros e _. apply walk_expr_closed. Qed.

Lemma walk_opt_closed o : subtree_closed (Ast.walk_opt o).
Proof. destruct o; [apply walk_expr_closed|apply subtree_closed_nil]. Qed.

Lemma walk_stmt_closed : forall s, subtree_closed (Ast.walk_stmt s).
Proof.
  fix IH 1. intros s.
  destruct s as [name body lineno end_lineno|name body lineno end_lineno|name bases body
                |value|targets value|target op value|target iter body orelse
                |test body orelse|test body orelse lineno|test msg|value|];
    cbn [Ast.walk_stmt]; (apply subtree_closed_cons; [reflexivity|]);
    repeat apply subtree_closed_app;
    try apply walk_expr_closed; try apply walk_exprs_closed; try apply walk_opt_closed;
    try apply subtree_closed_nil;
    apply subtree_closed_flat_map.
  - induction body; constructor; [apply IH|assumption].
  - induction body; constructor; [apply IH|assumption].
  - induction body; constructor; [apply IH|assumption].
  - induction body; constructor; [apply IH|assumption].
  - induction orelse; constructor; [apply IH|assumption].
  - induction body; constructor; [apply IH|assumption].
  - induction orelse; constructor; [apply IH|assumption].
  - induction body; constructor; [apply IH|assumption].
  - induction orelse; constructor; [apply IH|assumption].
Qed.

(** A walk lists each of its nodes together with that node's own walk. *)
Lemma walk_closed (n : Ast.node) : subtree_closed (Ast.walk n).
Proof.
  destruct n as [body|s|e]; [|apply walk_stmt_closed|apply walk_expr_closed].
  cbn [Ast.walk]. apply subtree_closed_cons; [reflexivity|].
  apply subtree_closed_flat_map, Forall_forall. intros s _. apply walk_stmt_closed.
Qed.

Lemma walk_trans (n m k : Ast.node) : m ∈ Ast.walk n -> k ∈ Ast.walk m -> k ∈ Ast.walk n.
Proof.
  intros Hm Hk. destruct (walk_closed n m Hm) as (l1 & l2 & ->).
  rewrite !elem_of_app. auto.
Qed.

Lemma walk_self (n : Ast.node) : n ∈ Ast.walk n.
Proof. destruct n as [body|s|e]; [|destruct s|destruct e]; by left. Qed.

(** ** Extraction of the test values *)

Lemma foldM_invariant_in {A S} (P : S -> Prop) (f : A -> S -> result S) (l : list A) :
  (forall x st st', x ∈ l -> P st -> f x st = Ok st' -> P st') ->
  forall st st', P st -> foldM f l st = Ok st' -> P st'.
Proof.
  induction l as [|x l IH]; intros Hf st st' Hst; simpl.
  - by intros [= <-].
  - destruct (f x st) as [st1|] eqn:Hx; [|done]. apply IH.
    + intros y s s' Hy. apply Hf. by right.
    + eapply Hf; [by left|exact Hst|exact Hx].
Qed.

Section Extraction.

Import Ast Cheating.

Variable read_text : string -> result string.
Variable parse : string -> result (list stmt).
Variable repr : constant -> string.

Local Abbreviation _extract_value := (Cheating._extract_value repr).
Local Abbreviation TestValueExtractor := (Cheating.TestValueExtractor repr).
Local Abbreviation extract_test_values := (Cheating.extract_test_values read_text parse repr).

Lemma from_literals_refl l tv : from_literals repr l tv tv.
Proof. intros x H. by left. Qed.

Lemma from_literals_trans l tv0 tv1 tv2 :
  from_literals repr l tv0 tv1 -> from_literals repr l tv1 tv2 -> from_literals repr l tv0 tv2.
Proof.
  intros H1 H2 x Hx. destruct (H2 x Hx) as [H|H]; [by apply H1|by right].
Qed.

Lemma from_literals_weaken (l l' : list node) tv0 tv :
  (forall n, n ∈ l -> n ∈ l') -> from_literals repr l tv0 tv -> from_literals repr l' tv0 tv.
Proof.
  intros Hl H x Hx. destruct (H x Hx) as [?|(c & Hc & ->)]; [by left|].
  right. exists c. auto.
Qed.

Lemma foldl_from_literals {A} (f : test_values -> A -> test_values) (g : A -> list node)
    (l : list A) (tv : test_values) :
  Forall (fun a => forall tv, from_literals repr (g a) tv (f tv a)) l ->
  from_literals repr (flat_map g l) tv (foldl f tv l).
Proof.
  intros H. revert tv. induction H as [|a l Ha _ IH]; intros tv; cbn [foldl flat_map].
  - apply from_literals_refl.
  - eapply from_literals_trans.
    + apply (from_literals_weaken (g a)); [|apply Ha]. intros n Hn. in_walk.
    + apply (from_literals_weaken (flat_map g l)); [|apply IH]. intros n Hn. in_walk.
Qed.

Lemma arg_from_literals (arg : expr) (tv : test_values) :
  from_literals repr (walk_expr arg) tv
    (match arg with Constant value => add_input (repr value) tv | _ => tv end).
Proof.
  destruct arg; try apply from_literals_refl.
  intros x [Hx|Hx]; cbn in Hx.
  - apply elem_of_union in Hx as [Hx|Hx%elem_of_singleton]; [by left; left|].
    right. exists value. split; [by left|done].
  - by left; right.
Qed.

Lemma _extract_value_from_literals :
  forall e tv, from_literals repr (walk_expr e) tv (_extract_value e tv).
Proof.
  fix IH 1. intros e tv.
  destruct e as [op values|l op r|op x|t b o|keys values lineno|l ops cs|f args
                |c|v attr|v sl|id|elts|elts];
    cbn [Cheating._extract_value]; try apply from_literals_refl.
  - apply (from_literals_weaken (flat_map walk_expr args));
      [|apply (foldl_from_literals _ walk_expr args tv)].
    + intros n Hn. cbn [walk_expr]. in_walk.
    + apply Forall_forall. intros a _ tv'. apply arg_from_literals.
  - intros x [Hx|Hx]; cbn in Hx.
    + by left; left.
    + apply elem_of_union in Hx as [Hx|Hx%elem_of_singleton]; [by left; right|].
      right. exists c. split; [by left|done].
  - apply (from_literals_weaken (flat_map walk_expr elts));
      [|apply (foldl_from_literals _ walk_expr elts tv)].
    + intros n Hn. cbn [walk_expr]. in_walk.
    + induction elts; constructor; [intros tv'; apply IH|assumption].
Qed.

Lemma TestValueExtractor_from_literals n tv tv' :
  TestValueExtractor n tv = Ok tv' -> from_literals repr (walk n) tv tv'.
Proof.
  destruct n as [body|s|e]; cbn [Cheating.TestValueExtractor].
  - intros [= <-]. apply from_literals_refl.
  - destruct s; try (intros [= <-]; apply from_literals_refl).
    destruct test; try (intros [= <-]; apply from_literals_refl).
    intros [= <-]. cbn [_extract_comparison walk walk_stmt walk_expr].
    eapply from_literals_trans.
    + apply (from_literals_weaken (walk_expr test)); [|apply _extract_value_from_literals].
      intros n Hn. in_walk.
    + apply (from_literals_weaken (flat_map walk_expr comparators));
        [|apply (foldl_from_literals _ walk_expr comparators)].
      * intros n Hn. in_walk.
      * apply Forall_forall. intros a _ tv'. apply _extract_value_from_literals.
  - destruct e; try (intros [= <-]; apply from_literals_refl).
    destruct e; try (intros [= <-]; apply from_literals_refl).
    case_bool_decide; [|intros [= <-]; apply from_literals_refl].
    destruct (2 <=? _); [|intros [= <-]; apply from_literals_refl].
    intros [= <-]. cbn [walk walk_expr].
    apply (from_literals_weaken (flat_map walk_expr args));
      [|apply (foldl_from_literals _ walk_expr args)].
    + intros n Hn. in_walk.
    + apply Forall_forall. intros a _ tv'. apply _extract_value_from_literals.
Qed.

Lemma extract_test_values_walk test_file content tree :
  read_text test_file = Ok content -> parse content = Ok tree ->
  extract_test_values test_file
  = foldM TestValueExtractor (walk (NModule tree)) {| inputs := ∅; outputs := ∅ |}.
Proof.
  intros Hr Hp. unfold Cheating.extract_test_values.
  rewrite Hr, bind_Ok, Hp, bind_Ok. apply visit_walk.
Qed.

(** X15. The extraction collects nothing but the [repr] of literal
    constants that occur in the test file: in the values it returns every
    input and every output is the text of a [Constant] node of the tree. *)
Theorem extracted_values_are_literals
    (test_file content : string) (tree : list stmt) (tv : test_values) :
  read_text test_file = Ok content -> parse content = Ok tree ->
  extract_test_values test_file = Ok tv ->
  (forall x, x ∈ inputs tv -> literal_of repr tree x)
  /\ (forall x, x ∈ outputs tv -> literal_of repr tree x).
Proof.
  intros Hr Hp. rewrite (extract_test_values_walk _ _ _ Hr Hp). intros Htv.
  assert (H : from_literals repr (walk (NModule tree)) {| inputs := ∅; outputs := ∅ |} tv).
  { revert Htv. apply foldM_invariant_in; [|apply from_literals_refl].
    intros n st st' Hn Hst Hm. eapply from_literals_trans; [exact Hst|].
    apply (from_literals_weaken (walk n)); [|by apply TestValueExtractor_from_literals].
    intros k Hk. by eapply walk_trans. }
  split; intros x Hx.
  - destruct (H x) as [[Hi|Ho]|Hc]; [by left|solve_set|solve_set|done].
  - destruct (H x) as [[Hi|Ho]|Hc]; [by right|solve_set|solve_set|done].
Qed.

(** *** What an assertion contributes *)

Lemma within_refl tv : within tv tv.
Proof. by split. Qed.

Lemma within_trans tv1 tv2 tv3 : within tv1 tv2 -> within tv2 tv3 -> within tv1 tv3.
Proof. intros [? ?] [? ?]. split; solve_set. Qed.

Lemma foldl_within {A} (f : test_values -> A -> test_values) (l : list A) tv :
  Forall (fun a => forall tv, within tv (f tv a)) l -> within tv (foldl f tv l).
Proof.
  intros H. revert tv. induction H as [|a l Ha _ IH]; intros tv; cbn [foldl].
  - apply within_refl.
  - eapply within_trans; [apply Ha|apply IH].
Qed.

Lemma arg_within (arg : expr) tv :
  within tv (match arg with Constant value => add_input (repr value) tv | _ => tv end).
Proof. destruct arg; try apply within_refl. split; cbn; solve_set. Qed.

Lemma _extract_value_within : forall e tv, within tv (_extract_value e tv).
Proof.
  fix IH 1. intros e tv.
  destruct e as [op values|l op r|op x|t b o|keys values lineno|l ops cs|f args
                |c|v attr|v sl|id|elts|elts];
    cbn [Cheating._extract_value]; try apply within_refl.
  - apply foldl_within, Forall_forall. intros a _ tv'. apply arg_within.
  - split; cbn; solve_set.
  - apply foldl_within. induction elts; constructor; [intros tv'; apply IH|assumption].
Qed.

Lemma foldl_extract_within (l : list expr) tv :
  within tv (foldl (fun tv a => _extract_value a tv) tv l).
Proof. apply foldl_within, Forall_forall. intros a _ tv'. apply _extract_value_within. Qed.

Lemma TestValueExtractor_within n tv tv' :
  TestValueExtractor n tv = Ok tv' -> within tv tv'.
Proof.
  destruct n as [body|s|e]; cbn [Cheating.TestValueExtractor].
  - intros [= <-]. apply within_refl.
  - destruct s; try (intros [= <-]; apply within_refl).
    destruct test; try (intros [= <-]; apply within_refl).
    intros [= <-]. cbn [_extract_comparison].
    eapply within_trans; [apply _extract_value_within|apply foldl_extract_within].
  - destruct e; try (intros [= <-]; apply within_refl).
    destruct e; try (intros [= <-]; apply within_refl).
    case_bool_decide; [|intros [= <-]; apply within_refl].
    destruct (2 <=? _); [|intros [= <-]; apply within_refl].
    intros [= <-]. apply foldl_extract_within.
Qed.

Lemma extracted_from_within operand tv tv' :
  extracted_from repr operand tv -> within tv tv' -> extracted_from repr operand tv'.
Proof.
  intros (H1 & H2 & H3) [Hi Ho]. split_and!.
  - intros c Hc. by apply Ho, H1.
  - intros elts c He Hc. by eapply Ho, H2.
  - intros f args c He Hc. by eapply Hi, H3.
Qed.

Lemma foldl_args_input (args : list expr) c tv :
  Constant c ∈ args ->
  repr c ∈ inputs (foldl (fun tv arg =>
                            match arg with
                            | Constant value => add_input (repr value) tv
                            | _ => tv
                            end) tv args).
Proof.
  revert tv. induction args as [|a args IH]; intros tv Hc; [by apply elem_of_nil in Hc|].
  cbn [foldl]. apply elem_of_cons in Hc as [<-|Hc]; [|by apply IH].
  match goal with |- _ ∈ inputs (foldl ?f ?t _) =>
    destruct (foldl_within f args t) as [Hi _] end.
  { apply Forall_forall. intros a _ tv'. apply arg_within. }
  apply Hi. cbn. solve_set.
Qed.

Lemma _extract_value_extracted (e : expr) tv :
  extracted_from repr e (_extract_value e tv).
Proof.
  split_and!.
  - intros c ->. cbn. solve_set.
  - intros elts c -> Hc. cbn [Cheating._extract_value].
    revert tv. induction elts as [|a elts IH]; intros tv; [by apply elem_of_nil in Hc|].
    cbn [foldl]. apply elem_of_cons in Hc as [<-|Hc]; [|by apply IH].
    destruct (foldl_extract_within elts (_extract_value (Constant c) tv)) as [_ Ho].
    apply Ho. cbn. solve_set.
  - intros f args c -> Hc. cbn [Cheating._extract_value]. by apply foldl_args_input.
Qed.

Lemma foldl_extract_extracted (l : list expr) operand tv :
  operand ∈ l ->
  extracted_from repr operand (foldl (fun tv a => _extract_value a tv) tv l).
Proof.
  revert tv. induction l as [|a l IH]; intros tv Hin; [by apply elem_of_nil in Hin|].
  cbn [foldl]. apply elem_of_cons in Hin as [<-|Hin]; [|by apply IH].
  eapply extracted_from_within; [apply _extract_value_extracted|apply foldl_extract_within].
Qed.

Lemma extraction_reaches (test_file content : string) (tree : list stmt) tv n :
  read_text test_file = Ok content -> parse content = Ok tree ->
  extract_test_values test_file = Ok tv ->
  n ∈ walk (NModule tree) ->
  exists tv1 tv2, TestValueExtractor n tv1 = Ok tv2 /\ within tv2 tv.
Proof.
  intros Hr Hp. rewrite (extract_test_values_walk _ _ _ Hr Hp).
  intros Htv (l1 & l2 & Hw)%list_elem_of_split. rewrite Hw, foldM_app in Htv.
  destruct (foldM _ l1 _) as [tv1|] eqn:H1; [rewrite bind_Ok in Htv|done].
  cbn [foldM] in Htv.
  destruct (TestValueExtractor n tv1) as [tv2|] eqn:H2; [|done].
  exists tv1, tv2. split; [done|].
  revert Htv. apply foldM_invariant; [|apply within_refl].
  intros k st st' Hst Hk. eapply within_trans; [exact Hst|].
  by eapply TestValueExtractor_within.
Qed.

(** X16. Every [assert] whose test is a comparison, wherever it stands in
    the test file, contributes its operands (the left side and every
    comparator): a literal operand is among the outputs, the literal members
    of a tuple operand are among the outputs, and the literal arguments of a
    call operand are among the inputs. *)
Theorem assert_operands_are_extracted
    (test_file content : string) (tree : list stmt) (tv : test_values)
    (lhs : expr) (ops : list cmpop) (comparators : list expr) (msg : option expr)
    (operand : expr) :
  read_text test_file = Ok content -> parse content = Ok tree ->
  extract_test_values test_file = Ok tv ->
  NStmt (Assert (Compare lhs ops comparators) msg) ∈ walk (NModule tree) ->
  operand = lhs \/ operand ∈ comparators ->
  extracted_from repr operand tv.
Proof.
  intros Hr Hp Htv Hn Hop.
  destruct (extraction_reaches _ _ _ _ _ Hr Hp Htv Hn) as (tv1 & tv2 & Hm & Hw).
  eapply extracted_from_within; [|exact Hw].
  cbn in Hm. injection Hm as <-.
  destruct Hop as [->|Hin].
  - eapply extracted_from_within; [apply _extract_value_extracted|].
    apply foldl_extract_within.
  - by apply foldl_extract_extracted.
Qed.

(** X17. Every call of a method named [assertEqual], [assertEquals] or
    [assertAlmostEqual] with at least two positional arguments contributes
    each of its arguments in the same way, whatever the object the method
    is called on. *)
Theorem assertEqual_arguments_are_extracted
    (test_file content : string) (tree : list stmt) (tv : test_values)
    (receiver : expr) (attr : string) (args : list expr) (operand : expr) :
  read_text test_file = Ok content -> parse content = Ok tree ->
  extract_test_values test_file = Ok tv ->
  NExpr (Call (Attribute receiver attr) args) ∈ walk (NModule tree) ->
  attr ∈ assert_equal_names ->
  (2 <= length args)%nat ->
  operand ∈ args ->
  extracted_from repr operand tv.
Proof.
  intros Hr Hp Htv Hn Hattr Hlen Hop.
  destruct (extraction_reaches _ _ _ _ _ Hr Hp Htv Hn) as (tv1 & tv2 & Hm & Hw).
  eapply extracted_from_within; [|exact Hw].
  cbn [Cheating.TestValueExtractor] in Hm.
  rewrite bool_decide_eq_true_2 in Hm by done.
  destruct (Z.leb_spec 2 (Z.of_nat (length args))); [|lia].
  injection Hm as <-. by apply foldl_extract_extracted.
Qed.

End Extraction.

(** ** Findings of the detectors *)

Lemma concat_replicate_nil {A} (n : nat) : concat (replicate n (@nil A)) = [].
Proof. induction n; [done|]. cbn. done. Qed.

Lemma enumerate_lookup {A} (lines : list A) (start i : Z) (x : A) :
  (i, x) ∈ Py.enumerate start lines <->
  exists k, lines !! k = Some x /\ i = start + Z.of_nat k.
Proof.
  revert start. induction lines as [|y lines IH]; intros start; cbn [Py.enumerate].
  - split; [by intros H%elem_of_nil|]. by intros (k & H & _).
  - rewrite elem_of_cons, IH. split.
    + intros [[= -> ->]|(k & Hk & ->)].
      * exists 0%nat. split; [done|lia].
      * exists (S k). split; [done|lia].
    + intros ([|k] & Hk & ->).
      * left. cbn in Hk. injection Hk as ->. f_equal. lia.
      * right. exists k. split; [done|lia].
Qed.

Lemma foldM_id {A S} (f : A -> S -> result S) (l : list A) (st : S) :
  (forall x s, f x s = Ok s) -> foldM f l st = Ok st.
Proof. intros H. induction l as [|x l IH]; cbn; [done|]. by rewrite H. Qed.

Section DetectorProperties.

Import Ast Cheating.

Variable read_text : string -> result string.
Variable parse : string -> result (list stmt).
Variable unparse : expr -> string.
Variable repr : constant -> string.

Local Abbreviation HardcodeDetector := (Cheating.HardcodeDetector unparse).
Local Abbreviation LookupDetector := (Cheating.LookupDetector unparse).
Local Abbreviation extract_test_values := (Cheating.extract_test_values read_text parse repr).
Local Abbreviation detect_hardcoded_returns :=
  (Cheating.detect_hardcoded_returns read_text parse unparse).
Local Abbreviation detect_lookup_tables :=
  (Cheating.detect_lookup_tables read_text parse unparse).
Local Abbreviation detect_excessive_conditionals :=
  (Cheating.detect_excessive_conditionals read_text parse).
Local Abbreviation detect_test_environment_checks :=
  (Cheating.detect_test_environment_checks read_text).
Local Abbreviation detect_cheating :=
  (Cheating.detect_cheating read_text parse unparse repr).
Local Abbreviation main := (Cheating.main read_text parse unparse repr).

Lemma mentions_input_no_inputs tv test :
  inputs tv = ∅ -> mentions_input unparse tv test = false.
Proof. intros H. unfold mentions_input. by rewrite H, elements_empty. Qed.

Lemma hit_no_outputs tv body : outputs tv = ∅ -> omap (hit unparse tv) body = [].
Proof.
  intros H. induction body as [|s body IH]; [done|]. cbn [omap list_omap].
  rewrite IH. destruct s as [| | |[v|]| | | | | | | |]; try done.
  cbn. rewrite H. by rewrite bool_decide_eq_false_2 by solve_set.
Qed.

Lemma HardcodeDetector_silent impl_file lines tv n :
  inputs tv = ∅ \/ outputs tv = ∅ -> HardcodeDetector impl_file lines tv n [] = Ok [].
Proof.
  intros H. destruct n as [|s|]; [done| |done]. destruct s; try done.
  unfold Cheating.HardcodeDetector. apply foldM_id.
  intros s ps. destruct s as [| | |[v|]| | | | | | | |]; try done.
  destruct H as [H|H].
  - pose proof (mentions_input_no_inputs tv test H) as Hm. unfold mentions_input in Hm.
    rewrite Hm. by case_bool_decide.
  - by rewrite (bool_decide_eq_false_2 (unparse v ∈ outputs tv)) by (rewrite H; solve_set).
Qed.

Lemma LookupDetector_silent impl_file lines tv n :
  inputs tv = ∅ -> LookupDetector impl_file lines tv n [] = Ok [].
Proof.
  intros H. destruct n as [| |e]; [done|done|]. destruct e; try done.
  unfold Cheating.LookupDetector. rewrite key_matches_spec.
  unfold matching_keys. rewrite filter_none; [done|].
  intros k _. rewrite H. by rewrite bool_decide_eq_false_2 by solve_set.
Qed.

(** X18. Test values with no input leave the hardcoded-return detector
    and the lookup-table detector without a finding, whatever the
    implementation, and so do test values with no output for the
    hardcoded-return detector; neither detector can then fail on a line
    number. *)
Theorem empty_test_values_silence_detectors
    (impl_file content : string) (tree : list stmt) (tv : test_values) :
  read_text impl_file = Ok content -> parse content = Ok tree ->
  (inputs tv = ∅ ->
     detect_hardcoded_returns impl_file tv = Ok []
     /\ detect_lookup_tables impl_file tv = Ok [])
  /\ (outputs tv = ∅ -> detect_hardcoded_returns impl_file tv = Ok []).
Proof.
  intros Hr Hp.
  assert (Hh : inputs tv = ∅ \/ outputs tv = ∅ ->
               detect_hardcoded_returns impl_file tv = Ok []).
  { intros H. rewrite (detect_hardcoded_returns_walk _ _ _ _ _ _ _ Hr Hp).
    rewrite (mapM_constant _ _ []).
    - by rewrite bind_Ok, concat_replicate_nil.
    - intros n _. by apply HardcodeDetector_silent. }
  split; [|auto]. intros H. split; [auto|].
  rewrite (detect_lookup_tables_walk _ _ _ _ _ _ _ Hr Hp).
  rewrite (mapM_constant _ _ []).
  - by rewrite bind_Ok, concat_replicate_nil.
  - intros n _. by apply LookupDetector_silent.
Qed.

(** *** Kind, file and severity of the findings *)

Lemma Forall_snoc {A} (P : A -> Prop) (l : list A) (x : A) :
  Forall P l -> P x -> Forall P (l ++ [x]).
Proof. intros Hl Hx. apply Forall_app. split; [done|]. by constructor. Qed.

Lemma HardcodeDetector_kind impl_file lines tv n st st' :
  Forall (of_kind impl_file "hardcoded_return") st ->
  HardcodeDetector impl_file lines tv n st = Ok st' ->
  Forall (of_kind impl_file "hardcoded_return") st'.
Proof.
  intros Hst. destruct n as [|s|]; try by intros [= <-].
  destruct s; try by intros [= <-].
  unfold Cheating.HardcodeDetector. revert Hst. apply foldM_invariant.
  intros x ps ps' Hps. destruct x as [| | |[v|]| | | | | | | |]; try by intros [= <-].
  case_bool_decide; [|by intros [= <-]].
  destruct (existsb _ _); [|by intros [= <-]].
  destruct (Py.index _ _); [|done]. intros [= <-]. by apply Forall_snoc.
Qed.

Lemma LookupDetector_kind impl_file lines tv n st st' :
  Forall (of_kind impl_file "lookup_table") st ->
  LookupDetector impl_file lines tv n st = Ok st' ->
  Forall (of_kind impl_file "lookup_table") st'.
Proof.
  intros Hst. destruct n as [| |e]; try by intros [= <-].
  destruct e; try by intros [= <-].
  unfold Cheating.LookupDetector. destruct (2 <=? _); [|by intros [= <-]].
  destruct (Py.index _ _); [|done]. intros [= <-]. by apply Forall_snoc.
Qed.

Lemma ConditionalCounter_kind impl_file n st st' :
  Forall (of_kind impl_file "excessive_conditionals") st ->
  ConditionalCounter impl_file n st = Ok st' ->
  Forall (of_kind impl_file "excessive_conditionals") st'.
Proof.
  intros Hst. destruct n as [|s|]; try by intros [= <-].
  destruct s; try by intros [= <-].
  unfold ConditionalCounter. destruct (_ && _); [|by intros [= <-]]. intros [= <-].
  by apply Forall_snoc.
Qed.

Lemma scan_lines_kind impl_file lines :
  Forall (of_kind impl_file "test_detection") (scan_lines impl_file lines).
Proof.
  rewrite scan_lines_spec. apply Forall_forall.
  intros p (il & _ & Hp)%list_elem_of_In%in_flat_map.
  apply list_elem_of_In in Hp. unfold findings_of_line in Hp.
  apply list_elem_of_fmap in Hp as (d & -> & _). done.
Qed.

(** X19. The findings of a completed analysis come in four blocks, in
    the order the detectors run: hardcoded returns, lookup tables, test
    detection, excessive conditionals.  Every finding names the
    implementation file, and its severity is the one of its kind: medium for
    excessive conditionals, high for the other three. *)
Theorem findings_grouped_by_detector
    (impl_file test_file : string) (ps : list CheatingPattern) :
  detect_cheating impl_file test_file = Ok ps ->
  exists p1 p2 p3 p4,
    ps = p1 ++ p2 ++ p3 ++ p4
    /\ Forall (of_kind impl_file "hardcoded_return") p1
    /\ Forall (of_kind impl_file "lookup_table") p2
    /\ Forall (of_kind impl_file "test_detection") p3
    /\ Forall (of_kind impl_file "excessive_conditionals") p4.
Proof.
  unfold Cheating.detect_cheating.
  destruct (Cheating.extract_test_values _ _ _ _) as [tv|]; [rewrite bind_Ok|done].
  destruct (Cheating.detect_hardcoded_returns _ _ _ _ _) as [p1|] eqn:H1;
    [rewrite bind_Ok|done].
  destruct (Cheating.detect_lookup_tables _ _ _ _ _) as [p2|] eqn:H2;
    [rewrite bind_Ok|done].
  destruct (Cheating.detect_test_environment_checks _ _) as [p3|] eqn:H3;
    [rewrite bind_Ok|done].
  destruct (Cheating.detect_excessive_conditionals _ _ _) as [p4|] eqn:H4;
    [rewrite bind_Ok|done].
  intros [= <-]. exists p1, p2, p3, p4. split; [by rewrite <- !app_assoc|].
  split_and!.
  - unfold Cheating.detect_hardcoded_returns in H1.
    destruct (read_text impl_file); [rewrite bind_Ok in H1|done]. cbv zeta in H1.
    destruct (parse _); [rewrite bind_Ok in H1|done].
    eapply visit_Forall; [|exact H1]. apply HardcodeDetector_kind.
  - unfold Cheating.detect_lookup_tables in H2.
    destruct (read_text impl_file); [rewrite bind_Ok in H2|done]. cbv zeta in H2.
    destruct (parse _); [rewrite bind_Ok in H2|done].
    eapply visit_Forall; [|exact H2]. apply LookupDetector_kind.
  - unfold Cheating.detect_test_environment_checks in H3.
    destruct (read_text impl_file); [rewrite bind_Ok in H3|done].
    injection H3 as <-. apply scan_lines_kind.
  - unfold Cheating.detect_excessive_conditionals in H4.
    destruct (read_text impl_file); [rewrite bind_Ok in H4|done].
    destruct (parse _); [rewrite bind_Ok in H4|done].
    eapply visit_Forall; [|exact H4]. apply ConditionalCounter_kind.
Qed.

(** *** Failure *)

(** X21. A file that cannot be read or parsed ends the analysis with
    that exception, the test file being looked at first; the command then
    prints nothing on standard output and exits with status 1, with
    [--json] as well. *)
Theorem analysis_failure (impl_file test_file : string) (e : exn) :
  (read_text test_file = Raise e -> detect_cheating impl_file test_file = Raise e)
  /\ (forall text, read_text test_file = Ok text -> parse text = Raise e ->
        detect_cheating impl_file test_file = Raise e)
  /\ (forall tv, extract_test_values test_file = Ok tv ->
        read_text impl_file = Raise e -> detect_cheating impl_file test_file = Raise e)
  /\ (forall tv text, extract_test_values test_file = Ok tv ->
        read_text impl_file = Ok text -> parse text = Raise e ->
        detect_cheating impl_file test_file = Raise e)
  /\ (forall argv, (3 <= length argv)%nat ->
        argv !! 1%nat = Some impl_file -> argv !! 2%nat = Some test_file ->
        detect_cheating impl_file test_file = Raise e ->
        main argv = {| stdout := []; exit_status := 1 |}).
Proof.
  unfold Cheating.detect_cheating. split_and!.
  - intros H. unfold Cheating.extract_test_values. by rewrite H.
  - intros text Hr Hp. unfold Cheating.extract_test_values. by rewrite Hr, bind_Ok, Hp.
  - intros tv -> H. rewrite bind_Ok. unfold Cheating.detect_hardcoded_returns. by rewrite H.
  - intros tv text -> Hr Hp. rewrite bind_Ok.
    unfold Cheating.detect_hardcoded_returns. rewrite Hr, bind_Ok. cbv zeta. by rewrite Hp.
  - intros argv Hlen H1 H2 Hd. unfold Cheating.main.
    destruct (Z.ltb_spec (Z.of_nat (length argv)) 3); [lia|].
    rewrite H1, H2.
    change (default EmptyString (Some impl_file)) with impl_file.
    change (default EmptyString (Some test_file)) with test_file.
    unfold Cheating.detect_cheating. by rewrite Hd.
Qed.

(** *** Test-environment findings and their lines *)

(** X22. Every finding of the test-environment detector points at a
    line of the file: its line number is the 1-based position of a line of
    the text, its snippet is that line with the surrounding whitespace
    removed, and its description belongs to a pattern of the table that is
    found in that line, letter case ignored.  The findings are listed by
    non-decreasing line number. *)
Theorem test_detection_findings_point_at_lines
    (impl_file content : string) (found : list CheatingPattern) :
  read_text impl_file = Ok content ->
  detect_test_environment_checks impl_file = Ok found ->
  (forall p, p ∈ found ->
     exists i text pattern,
       Py.split_lines content !! i = Some text
       /\ line p = Z.of_nat i + 1
       /\ 1 <= line p <= Z.of_nat (length (Py.split_lines content))
       /\ code_snippet p = Py.strip text
       /\ (pattern, description p) ∈ test_detection_patterns
       /\ Re.search true pattern text = true)
  /\ StronglySorted Z.le (map line found).
Proof.
  intros Hr. unfold Cheating.detect_test_environment_checks.
  rewrite Hr, bind_Ok, scan_lines_spec. intros [= <-]. split.
  - intros p ([i text] & Hil & Hp)%list_elem_of_In%in_flat_map.
    apply list_elem_of_In, enumerate_lookup in Hil as (k & Hk & ->).
    apply list_elem_of_In, findings_of_line_line in Hp as (Hl & _ & _ & Hs & Hd).
    cbn [fst snd] in *. unfold matching_descriptions in Hd.
    apply list_elem_of_fmap in Hd as ([pat d] & Hd & Hin).
    apply elem_of_List_filter in Hin as [Hin Hm]. cbn [fst snd] in *. subst d.
    exists k, text, pat. apply lookup_lt_Some in Hk as Hlt.
    split_and!; try done; lia.
  - generalize 1 as start. generalize (Py.split_lines content) as lines.
    induction lines as [|x lines IH]; intros start; cbn [Py.enumerate flat_map];
      [constructor|].
    rewrite map_app. apply StronglySorted_app_2; [| |apply IH].
    + intros a b (p & -> & Hp)%list_elem_of_fmap (q & -> & Hq)%list_elem_of_fmap.
      apply findings_of_line_line in Hp as [-> _].
      apply enumerate_lower_bound in Hq. cbn. lia.
    + unfold findings_of_line. cbn [fst snd]. rewrite map_map. cbn [line test_detection_finding].
      induction (matching_descriptions x) as [|d ds IHd]; cbn; constructor; [done|].
      apply Forall_forall. intros y (d' & -> & _)%list_elem_of_fmap. lia.
Qed.

(** *** Counting conditionals *)

Lemma length_filter_subtree (f : node -> bool) (m : node) (l : list node) :
  subtree_in m l -> (length (List.filter f (walk m)) <= length (List.filter f l))%nat.
Proof.
  intros (l1 & l2 & ->). rewrite !List.filter_app, !length_app. lia.
Qed.

(** X23. The count of conditionals of a node includes the count of
    every node under it: the conditionals of a function defined inside
    another function, of a branch, or of an [elif] are counted again for
    the enclosing function, and a conditional under a node makes its count
    at least 1. *)
Theorem nested_conditionals_are_counted (n m : node) :
  m ∈ walk n ->
  conditionals m <= conditionals n
  /\ (is_If m = true -> 1 <= conditionals n)
  /\ if_count m <= if_count n.
Proof.
  intros Hm. pose proof (length_filter_subtree is_If m _ (walk_closed n m Hm)) as Hle.
  rewrite !if_count_spec. unfold conditionals. split_and!; [lia| |lia].
  intros Hif. assert (1 <= length (List.filter is_If (walk m)))%nat; [|lia].
  pose proof (walk_self m) as Hs. destruct (walk m) as [|x l] eqn:Hw; [by apply elem_of_nil in Hs|].
  assert (x = m) as ->.
  { destruct m as [body|s|e]; [|destruct s|destruct e]; cbn in Hw; congruence. }
  cbn. rewrite Hif. cbn. lia.
Qed.

(** *** The command line *)

(** X24. With fewer than two arguments after the program name the
    command prints its usage text and exits with status 1 without looking at
    any file.  Otherwise only the first two arguments name files and the
    only other thing read from the command line is whether [--json] occurs
    in it: further arguments change nothing. *)
Theorem cheating_main_arguments (argv extra : list string) :
  ((length argv < 3)%nat -> main argv = {| stdout := [Doc]; exit_status := 1 |})
  /\ ((3 <= length argv)%nat -> ("--json" ∈ extra -> "--json" ∈ argv) ->
      main (argv ++ extra) = main argv).
Proof.
  unfold Cheating.main. split.
  - intros H. destruct (Z.ltb_spec (Z.of_nat (length argv)) 3); [done|lia].
  - intros H Hj. rewrite length_app.
    destruct (Z.ltb_spec (Z.of_nat (length argv + length extra)) 3); [lia|].
    destruct (Z.ltb_spec (Z.of_nat (length argv)) 3); [lia|].
    rewrite !lookup_app_l by lia.
    assert (bool_decide ("--json" ∈ argv ++ extra) = bool_decide ("--json" ∈ argv)) as ->; [|done].
    apply bool_decide_ext. rewrite elem_of_app. split; [intros [?|?]; auto|auto].
Qed.

(** *** The structured report *)

Lemma Json_in_narrative r ps : Json r ∈ narrative ps -> False.
Proof.
  unfold narrative. rewrite !elem_of_app, !elem_of_cons, elem_of_nil.
  intros [[H|[H|[]]]|[H|H]]; try discriminate.
  - destruct (List.filter _ _); [by apply elem_of_nil in H|].
    apply elem_of_cons in H as [H|H]; [discriminate|].
    apply list_elem_of_In, in_flat_map in H as (q & _ & H). cbn in H.
    destruct H as [H|[H|[H|[]]]]; discriminate.
  - destruct (List.filter _ _); [by apply elem_of_nil in H|].
    apply elem_of_cons in H as [H|H]; [discriminate|].
    apply list_elem_of_In, in_flat_map in H as (q & _ & H). cbn in H.
    destruct H as [H|[H|[]]]; discriminate.
Qed.

(** X25. A structured report never counts a finding of low severity, and
    it is printed only when [--json] is among the arguments, as the only
    thing on standard output, with exit status 0: its high and medium
    counts alone add up to the number of findings. *)
Theorem structured_report_has_no_low_severity (argv : list string) (r : report) :
  Json r ∈ stdout (main argv) ->
  low_severity r = 0
  /\ high_severity r + medium_severity r = Z.of_nat (length (patterns r))
  /\ "--json" ∈ argv
  /\ main argv = {| stdout := [Json r]; exit_status := 0 |}.
Proof.
  unfold Cheating.main. destruct (_ <? 3).
  { cbn. intros H%list_elem_of_singleton. done. }
  destruct (Cheating.detect_cheating _ _ _ _ _ _) as [ps|] eqn:Hd.
  2:{ cbn. intros H. by apply elem_of_nil in H. }
  case_bool_decide as Hj.
  - cbn [stdout]. intros H%list_elem_of_singleton. injection H as ->.
    cbn [low_severity high_severity medium_severity patterns].
    destruct (severity_counts_sum ps) as [Hsum Hlow];
      [by eapply detect_cheating_severity|].
    split_and!; [done|lia|done|done].
  - destruct ps as [|p ps]; cbn [stdout].
    + rewrite !elem_of_cons, elem_of_nil. intros [H|[H|[]]]; discriminate.
    + by intros H%Json_in_narrative.
Qed.

End DetectorProperties.

(** ** The further properties on concrete sessions *)

Lemma detect_framework_answer_witness :
  Flaky.detect_framework Worlds.python_tests (Worlds.only "Cargo.toml") "tests/" = "pytest"
  /\ Flaky.detect_framework Demo.no_glob (Worlds.only "Cargo.toml") "tests/" = "cargo"
  /\ Flaky.detect_framework Demo.no_glob (Worlds.only "pytest.ini") "tests/"
     = Flaky.detect_framework Demo.no_glob Demo.no_path "tests/".
Proof.
  split; [|split; [vm_refl|]].
  - destruct (detect_framework_answer (Demo.launches []) Demo.no_json Demo.no_str
                Worlds.python_tests (Worlds.only "Cargo.toml") Demo.no_path "tests/")
      as (_ & _ & H & _).
    apply H. left. by vm_compute.
  - destruct (detect_framework_answer (Demo.launches []) Demo.no_json Demo.no_str
                Demo.no_glob Demo.no_path (Worlds.only "pytest.ini") "tests/")
      as (_ & _ & _ & H).
    apply H. reflexivity.
Defined.

Lemma unknown_framework_raises_witness :
  Demo.detect_flaky_tests Demo.cargo_runs "tests/" 3 (Some "mocha")
  = Raise (ValueError "Unknown framework: mocha").
Proof.
  apply (unknown_framework_raises (Demo.launches Demo.cargo_runs) Demo.no_json Demo.no_str
           Demo.no_glob Demo.no_path "mocha" "tests/" 3).
  - vm_decide.
  - lia.
Defined.

Lemma no_runs_empty_report_witness :
  Demo.detect_flaky_tests Demo.cargo_runs "tests/" (-1) (Some "mocha")
  = Ok (empty_report (-1) "mocha").
Proof.
  apply (no_runs_empty_report (Demo.launches Demo.cargo_runs) Demo.no_json Demo.no_str
           Demo.no_glob Demo.no_path "tests/" (-1) (Some "mocha")).
  lia.
Defined.

Lemma jest_unparsable_output_is_stable_witness :
  Demo.detect_flaky_tests Demo.pytest_runs "tests/" 3 (Some "jest")
  = Ok (empty_report 3 "jest").
Proof.
  apply (jest_unparsable_output_is_stable (Demo.launches Demo.pytest_runs) Demo.no_json
           Demo.no_str Demo.no_glob Demo.no_path "tests/" 3).
  intros i Hi. change (Z.to_nat 3) with 3%nat in Hi.
  destruct i as [|[|[|i]]]; [by eexists _, _, _..|lia].
Defined.

Lemma pytest_adapter_stores_witness :
  "PASS" ∈ pytest_stored /\ is_substring "::" "t.py::a".
Proof.
  apply (pytest_adapter_stores (Demo.launches Demo.pytest_runs) 0 "tests/"
           (Flaky.parse_pytest "t.py::a PASSED") "t.py::a" "PASS"); vm_refl.
Defined.

Lemma cargo_adapter_stores_witness :
  "FAIL" ∈ cargo_stored /\ "FAIL" <> "ERROR" /\ "b" <> EmptyString /\ no_space "b".
Proof.
  apply (cargo_adapter_stores (Demo.launches Demo.cargo_runs) 1 "tests/"
           (Flaky.parse_cargo (Demo.join_lines ["test a ... ok"; "test b ... FAILED"]))
           "b" "FAIL"); vm_refl.
Defined.

Lemma jest_adapter_stores_witness :
  Flaky.run_jest (Demo.launches Worlds.jest_runs) Worlds.jest_loads Worlds.jest_str
    0 "tests/" = Ok Worlds.jest_stored
  /\ "ERROR" ∈ Flaky.TestOutcome.
Proof.
  split; [vm_refl|].
  apply (jest_adapter_stores (Demo.launches Worlds.jest_runs) Worlds.jest_loads
           Worlds.jest_str 0 "tests/" Worlds.jest_stored "a.test.js::later" "ERROR");
    vm_refl.
Defined.

Lemma reported_then_missing_is_flaky_witness :
  "PASS" <> "MISSING"
  /\ exists r,
       r ∈ Flaky.flaky_tests
             (Flaky.analyze (Worlds.stored Flaky.parse_pytest Demo.pytest_runs) 3 "pytest")
       /\ Flaky.name r = "t.py::a"
       /\ Flaky.outcomes r !! 0%nat = Some "PASS"
       /\ Flaky.outcomes r !! 1%nat = Some "MISSING".
Proof.
  apply (reported_then_missing_is_flaky (Demo.launches Demo.pytest_runs) Demo.no_json
           Demo.no_str "tests/" 3 "pytest"
           (Worlds.stored Flaky.parse_pytest Demo.pytest_runs) 0 1
           (Flaky.parse_pytest "t.py::a PASSED") (Flaky.parse_pytest "collection error")
           "t.py::a" "PASS"); vm_refl.
Defined.

Lemma last_report_of_a_test_wins_witness :
  Flaky.parse_cargo Worlds.twice !! "a" = Some "FAIL"
  /\ Flaky.parse_cargo Worlds.twice !! "b" = None.
Proof.
  destruct (last_report_of_a_test_wins Worlds.twice "a") as (_ & _ & Hlast & _).
  destruct (last_report_of_a_test_wins Worlds.twice "b") as (Hnone & _).
  split.
  - apply (Hlast ["test a ... ok"] "test a ... FAILED" []); [vm_refl..|].
    intros line o Hin. by apply elem_of_nil in Hin.
  - apply Hnone. intros line o Hin.
    change (Py.split_lines Worlds.twice) with ["test a ... ok"; "test a ... FAILED"] in Hin.
    apply elem_of_cons in Hin as [->|Hin]; [by vm_compute|].
    apply elem_of_cons in Hin as [->|Hin]; [by vm_compute|].
    by apply elem_of_nil in Hin.
Defined.

Lemma flaky_iff_two_runs_disagree_witness :
  exists r,
    r ∈ Flaky.flaky_tests (Flaky.analyze [{["a" := "PASS"]}; ∅] 2 "cargo")
    /\ Flaky.name r = "a".
Proof.
  apply (flaky_iff_two_runs_disagree [{["a" := "PASS"]}; ∅] 2 "cargo" "a").
  exists 0%nat, 1%nat, {["a" := "PASS"]}, ∅. split; [done|]. split; [done|]. by vm_compute.
Defined.

Lemma flaky_tests_sorted_by_name_witness :
  map Flaky.name
    (Flaky.flaky_tests
       (Flaky.analyze (Worlds.stored Flaky.parse_cargo Worlds.changing_runs) 2 "cargo"))
  = ["a"; "b"]
  /\ StronglySorted Py.str_le ["a"; "b"]
  /\ NoDup ["a"; "b"].
Proof.
  assert (Hn : map Flaky.name
                 (Flaky.flaky_tests
                    (Flaky.analyze (Worlds.stored Flaky.parse_cargo Worlds.changing_runs)
                       2 "cargo")) = ["a"; "b"]) by vm_refl.
  split; [exact Hn|]. rewrite <- Hn.
  destruct (flaky_tests_sorted_by_name (Demo.launches Worlds.changing_runs) Demo.no_json
              Demo.no_str Demo.no_glob Demo.no_path "tests/" 2 (Some "cargo")
              (Flaky.analyze (Worlds.stored Flaky.parse_cargo Worlds.changing_runs)
                 2 "cargo")
              ltac:(vm_refl)) as (Hs & Hd & _).
  split; [exact Hs|exact Hd].
Defined.

Lemma single_run_is_stable_witness :
  let rep := Flaky.analyze (Worlds.stored Flaky.parse_cargo (take 1 Demo.cargo_runs))
               1 "cargo" in
  Flaky.total_tests rep = 2
  /\ Flaky.flaky_tests rep = []
  /\ Flaky.is_stable rep = true
  /\ Flaky.stable_tests rep = Flaky.total_tests rep.
Proof.
  intros rep. split; [vm_refl|].
  apply (single_run_is_stable (Demo.launches Demo.cargo_runs) Demo.no_json Demo.no_str
           Demo.no_glob Demo.no_path "tests/" (Some "cargo")).
  vm_refl.
Defined.

Lemma equal_runs_are_stable_witness :
  let rep := Flaky.analyze (Worlds.stored Flaky.parse_cargo Worlds.same_runs) 2 "cargo" in
  Flaky.flaky_tests rep = [] /\ Flaky.total_tests rep = 1.
Proof.
  intros rep.
  apply (equal_runs_are_stable (Demo.launches Worlds.same_runs) Demo.no_json Demo.no_str
           Demo.no_glob Demo.no_path "tests/" 2 "cargo" (Flaky.parse_cargo "test a ... ok")).
  - intros i Hi. change (Z.to_nat 2) with 2%nat in Hi.
    destruct i as [|[|i]]; [vm_refl..|lia].
  - vm_refl.
Defined.

Lemma flaky_main_exit_status_witness :
  FlakyCli.exit_status
    (FlakyCli.main (Demo.launches Demo.cargo_runs) Demo.no_json Demo.no_str
       Demo.no_glob Demo.no_path
       {| FlakyCli.test_path := "tests/"; FlakyCli.runs := 3;
          FlakyCli.framework := Some "cargo"; FlakyCli.json := true |}) = 0
  /\ (FlakyCli.exit_status
        (FlakyCli.main (Demo.launches Demo.cargo_runs) Demo.no_json Demo.no_str
           Demo.no_glob Demo.no_path
           {| FlakyCli.test_path := "tests/"; FlakyCli.runs := 3;
              FlakyCli.framework := Some "cargo"; FlakyCli.json := false |}) = 1).
Proof.
  set (rep := Flaky.analyze (Worlds.stored Flaky.parse_cargo Demo.cargo_runs) 3 "cargo").
  split.
  - destruct (flaky_main_exit_status (Demo.launches Demo.cargo_runs) Demo.no_json
                Demo.no_str Demo.no_glob Demo.no_path
                {| FlakyCli.test_path := "tests/"; FlakyCli.runs := 3;
                   FlakyCli.framework := Some "cargo"; FlakyCli.json := true |})
      as (_ & H & _).
    apply (H rep); [vm_refl|reflexivity].
  - destruct (flaky_main_exit_status (Demo.launches Demo.cargo_runs) Demo.no_json
                Demo.no_str Demo.no_glob Demo.no_path
                {| FlakyCli.test_path := "tests/"; FlakyCli.runs := 3;
                   FlakyCli.framework := Some "cargo"; FlakyCli.json := false |})
      as (_ & _ & H).
    destruct (H rep) as ((_ & Hex) & _); [vm_refl|reflexivity|].
    apply Hex. intros Hnil. apply (f_equal length) in Hnil. revert Hnil.
    change (length []) with 0%nat.
    assert (length (Flaky.flaky_tests rep) = 1%nat) as -> by vm_refl. discriminate.
Defined.

(** ** The further properties on concrete programs *)

Lemma extracted_values_are_literals_witness :
  let tv := {| Cheating.inputs := {["3"]}; Cheating.outputs := {["9"]} |} in
  Cheating.extract_test_values Worlds.disk Worlds.python Unparse.repr "test_unit.py"
  = Ok tv
  /\ (forall x, x ∈ Cheating.inputs tv -> literal_of Unparse.repr Worlds.unit_test_tree x)
  /\ (forall x, x ∈ Cheating.outputs tv -> literal_of Unparse.repr Worlds.unit_test_tree x).
Proof.
  intros tv.
  assert (He : Cheating.extract_test_values Worlds.disk Worlds.python Unparse.repr
                 "test_unit.py" = Ok tv) by vm_refl.
  split; [exact He|].
  apply (extracted_values_are_literals Worlds.disk Worlds.python Unparse.repr
           "test_unit.py" Worlds.unit_test_src Worlds.unit_test_tree tv);
    [vm_refl|vm_refl|exact He].
Defined.

Lemma assert_operands_are_extracted_witness :
  let tv := {| Cheating.inputs := {["5"]}; Cheating.outputs := {["25"]} |} in
  Cheating.extract_test_values Demo.disk Demo.python Unparse.repr "test_square.py" = Ok tv
  /\ extracted_from Unparse.repr (Ast.Call (Ast.Name "square") [Demo.num 5]) tv
  /\ extracted_from Unparse.repr (Demo.num 25) tv.
Proof.
  intros tv.
  assert (He : Cheating.extract_test_values Demo.disk Demo.python Unparse.repr
                 "test_square.py" = Ok tv) by vm_refl.
  split; [exact He|].
  split.
  - apply (assert_operands_are_extracted Demo.disk Demo.python Unparse.repr
             "test_square.py" Demo.square_test_src Demo.square_test_tree tv
             (Ast.Call (Ast.Name "square") [Demo.num 5]) [Ast.Eq] [Demo.num 25] None);
      [vm_refl|vm_refl|exact He| |by left].
    right. by left.
  - apply (assert_operands_are_extracted Demo.disk Demo.python Unparse.repr
             "test_square.py" Demo.square_test_src Demo.square_test_tree tv
             (Ast.Call (Ast.Name "square") [Demo.num 5]) [Ast.Eq] [Demo.num 25] None);
      [vm_refl|vm_refl|exact He| |right; by left].
    right. by left.
Defined.

Lemma assertEqual_arguments_are_extracted_witness :
  let tv := {| Cheating.inputs := {["3"]}; Cheating.outputs := {["9"]} |} in
  Cheating.extract_test_values Worlds.disk Worlds.python Unparse.repr "test_unit.py" = Ok tv
  /\ extracted_from Unparse.repr (Ast.Call (Ast.Name "f") [Demo.num 3]) tv
  /\ extracted_from Unparse.repr (Demo.num 9) tv.
Proof.
  intros tv.
  assert (He : Cheating.extract_test_values Worlds.disk Worlds.python Unparse.repr
                 "test_unit.py" = Ok tv) by vm_refl.
  split; [exact He|].
  split.
  - apply (assertEqual_arguments_are_extracted Worlds.disk Worlds.python Unparse.repr
             "test_unit.py" Worlds.unit_test_src Worlds.unit_test_tree tv
             (Ast.Name "self") "assertEqual"
             [Ast.Call (Ast.Name "f") [Demo.num 3]; Demo.num 9]);
      [vm_refl|vm_refl|exact He| |by left|cbn; lia|by left].
    right. right. by left.
  - apply (assertEqual_arguments_are_extracted Worlds.disk Worlds.python Unparse.repr
             "test_unit.py" Worlds.unit_test_src Worlds.unit_test_tree tv
             (Ast.Name "self") "assertEqual"
             [Ast.Call (Ast.Name "f") [Demo.num 3]; Demo.num 9]);
      [vm_refl|vm_refl|exact He| |by left|cbn; lia|right; by left].
    right. right. by left.
Defined.

Lemma empty_test_values_silence_detectors_witness :
  Cheating.detect_hardcoded_returns Demo.disk Demo.python Unparse.unparse "square.py"
    {| Cheating.inputs := ∅; Cheating.outputs := {["25"]} |} = Ok []
  /\ Cheating.detect_lookup_tables Demo.disk Demo.python Unparse.unparse "square.py"
       {| Cheating.inputs := ∅; Cheating.outputs := {["25"]} |} = Ok [].
Proof.
  destruct (empty_test_values_silence_detectors Demo.disk Demo.python Unparse.unparse
              "square.py" (Demo.square_src "25") (Demo.square_tree 25)
              {| Cheating.inputs := ∅; Cheating.outputs := {["25"]} |})
    as [H _]; [vm_refl..|].
  apply H. reflexivity.
Defined.

Lemma findings_grouped_by_detector_witness :
  exists p1 p2 p3 p4,
    [excessive_finding "six.py" "f" 1 6 8] = p1 ++ p2 ++ p3 ++ p4
    /\ Forall (of_kind "six.py" "hardcoded_return") p1
    /\ Forall (of_kind "six.py" "lookup_table") p2
    /\ Forall (of_kind "six.py" "test_detection") p3
    /\ Forall (of_kind "six.py" "excessive_conditionals") p4.
Proof.
  apply (findings_grouped_by_detector Demo.disk Demo.python Unparse.unparse Unparse.repr
           "six.py" "test_lookup.py" [excessive_finding "six.py" "f" 1 6 8]).
  vm_refl.
Defined.

Lemma analysis_failure_witness :
  Demo.detect_cheating "square.py" "missing.py" = Raise FileNotFoundError
  /\ Demo.main ["detect_cheating.py"; "square.py"; "missing.py"; "--json"]
     = {| Cheating.stdout := []; Cheating.exit_status := 1 |}.
Proof.
  destruct (analysis_failure Demo.disk Demo.python Unparse.unparse Unparse.repr
              "square.py" "missing.py" FileNotFoundError) as (H1 & _ & _ & _ & H5).
  assert (He : Demo.detect_cheating "square.py" "missing.py" = Raise FileNotFoundError).
  { apply H1. vm_refl. }
  split; [exact He|]. apply H5; [cbn; lia|reflexivity|reflexivity|exact He].
Defined.

Lemma test_detection_findings_point_at_lines_witness :
  let found := [test_detection_finding "flag.py" 1 "TESTING = True" "TESTING flag"] in
  Cheating.detect_test_environment_checks Demo.disk "flag.py" = Ok found
  /\ (forall p, p ∈ found ->
        exists i text pattern,
          Py.split_lines Demo.flag_src !! i = Some text
          /\ Cheating.line p = Z.of_nat i + 1
          /\ 1 <= Cheating.line p <= Z.of_nat (length (Py.split_lines Demo.flag_src))
          /\ Cheating.code_snippet p = Py.strip text
          /\ (pattern, Cheating.description p) ∈ Cheating.test_detection_patterns
          /\ Re.search true pattern text = true)
  /\ StronglySorted Z.le (map Cheating.line found).
Proof.
  intros found.
  assert (He : Cheating.detect_test_environment_checks Demo.disk "flag.py" = Ok found)
    by vm_refl.
  split; [exact He|].
  apply (test_detection_findings_point_at_lines Demo.disk "flag.py" Demo.flag_src found);
    [vm_refl|exact He].
Defined.

Lemma nested_conditionals_are_counted_witness :
  conditionals (Ast.NStmt (Demo.case_stmt 1)) <= conditionals (Ast.NModule Demo.six_tree)
  /\ (Cheating.is_If (Ast.NStmt (Demo.case_stmt 1)) = true ->
      1 <= conditionals (Ast.NModule Demo.six_tree))
  /\ Cheating.if_count (Ast.NStmt (Demo.case_stmt 1))
     <= Cheating.if_count (Ast.NModule Demo.six_tree).
Proof.
  apply (nested_conditionals_are_counted (Ast.NModule Demo.six_tree)
           (Ast.NStmt (Demo.case_stmt 1))).
  right. right. by left.
Defined.

Lemma cheating_main_arguments_witness :
  Demo.main ["detect_cheating.py"; "square.py"]
  = {| Cheating.stdout := [Cheating.Doc]; Cheating.exit_status := 1 |}
  /\ Demo.main (["detect_cheating.py"; "square.py"; "test_square.py"] ++ ["--verbose"])
     = Demo.main ["detect_cheating.py"; "square.py"; "test_square.py"].
Proof.
  assert (Hjson : "--json" ∈ ["--verbose"] ->
                  "--json" ∈ ["detect_cheating.py"; "square.py"; "test_square.py"]).
  { intros Hin. apply elem_of_cons in Hin as [Hin|Hin]; [discriminate|].
    by apply elem_of_nil in Hin. }
  split.
  - destruct (cheating_main_arguments Demo.disk Demo.python Unparse.unparse Unparse.repr
                ["detect_cheating.py"; "square.py"] []) as [H _].
    apply H. cbn [length]. lia.
  - destruct (cheating_main_arguments Demo.disk Demo.python Unparse.unparse Unparse.repr
                ["detect_cheating.py"; "square.py"; "test_square.py"] ["--verbose"])
      as [_ H].
    apply H; [cbn [length]; lia|exact Hjson].
Defined.

Lemma structured_report_has_no_low_severity_witness :
  let r := {| Cheating.clean := false;
              Cheating.patterns := [excessive_finding "six.py" "f" 1 6 8];
              Cheating.high_severity := 0;
              Cheating.medium_severity := 1;
              Cheating.low_severity := 0 |} in
  Cheating.low_severity r = 0
  /\ Cheating.high_severity r + Cheating.medium_severity r
     = Z.of_nat (length (Cheating.patterns r))
  /\ "--json" ∈ ["detect_cheating.py"; "six.py"; "test_lookup.py"; "--json"]
  /\ Demo.main ["detect_cheating.py"; "six.py"; "test_lookup.py"; "--json"]
     = {| Cheating.stdout := [Cheating.Json r]; Cheating.exit_status := 0 |}.
Proof.
  intros r.
  apply (structured_report_has_no_low_severity Demo.disk Demo.python Unparse.unparse
           Unparse.repr ["detect_cheating.py"; "six.py"; "test_lookup.py"; "--json"] r).
  assert (He : Cheating.stdout
                 (Demo.main ["detect_cheating.py"; "six.py"; "test_lookup.py"; "--json"])
               = [Cheating.Json r]) by vm_refl.
  unfold Demo.main in He. rewrite He. by left.
Defined.
